(** * Digital Skeptic: extraction chain, content validator and reconciliation

    A shallow embedding of the content validator ([src/utils/validators.py]),
    the extraction strategy chain ([src/extraction/content_extractor.py]),
    the heuristic claim de-duplication ([src/analysis/claim_extractor.py])
    and the reconciliation engine and top-level pipeline
    ([src/core/orchestrator.py]).

    Modelling conventions.
    - Python [str] is [string]; the character classes ([str.lower],
      [str.split] whitespace) are the ones Python uses on ASCII text.
    - Python [float] scores and confidences are rationals [Q].  The
      validator's quality score is computed exactly: every comparison the
      code makes with it is between a computed value and a literal ([0.3],
      [1.0]); the Jaccard quotient of two integers is a correctly rounded
      division, so [i / u > 0.6] and [i / u > 0.7] agree with the exact
      comparison for every word-set of fewer than 10^15 words.  The
      confidence and the ranking score of the claim extractor are sums that
      the code compares with each other, so they are computed as the code
      computes them, each sum rounded to binary64 ([Float.round]).
    - The console and the clock of [analyze_article] are its environment:
      [print] is a section variable that may raise, and [time_time] gives
      the successive readings of [time.time()].
    - Library calls the repository does not define ([langdetect.detect],
      [validators.url], [urllib.parse.urlparse], the extraction back ends,
      the generative-AI client) are section variables.
    - Exceptions are values: a call that may raise returns a sum. *)

From Stdlib Require Import String Ascii List ZArith QArith Qminmax Lia Lqa Bool Permutation Sorted DecimalString.
From stdpp Require Import base gmap sets list strings.

Close Scope Q_scope.

(** ** Python string primitives *)

Module Py.

Definition nl : ascii := "010"%char.
Definition empty : string := EmptyString.

(** [bool(s)] for a string: non-empty. *)
Definition truthy (s : string) : bool :=
  match s with EmptyString => false | String _ _ => true end.

(** [str.isspace] on one ASCII character: TAB..CR, FS..US and space. *)
Definition is_space (c : ascii) : bool :=
  let n := nat_of_ascii c in
  ((9 <=? n) && (n <=? 13)) || ((28 <=? n) && (n <=? 32)).

Definition lower_char (c : ascii) : ascii :=
  let n := nat_of_ascii c in
  if (65 <=? n) && (n <=? 90) then ascii_of_nat (n + 32) else c.

(** [s.lower()] on a text of ASCII characters *)
Fixpoint lower (s : string) : string :=
  match s with
  | EmptyString => EmptyString
  | String c s' => String (lower_char c) (lower s')
  end.

(** [sub in s] *)
Fixpoint contains (sub s : string) : bool :=
  String.prefix sub s ||
  match s with
  | EmptyString => false
  | String _ s' => contains sub s'
  end.

(** [s.count(sub)]: non-overlapping occurrences, scanned left to right.
    [skip] is the number of characters still covered by the last match. *)
Fixpoint count_from (sub : string) (skip : nat) (s : string) : nat :=
  match s with
  | EmptyString => 0
  | String _ s' =>
      match skip with
      | S k => count_from sub k s'
      | O => if String.prefix sub s
             then S (count_from sub (String.length sub - 1) s')
             else count_from sub 0 s'
      end
  end.

Definition count (s sub : string) : nat :=
  match sub with
  | EmptyString => S (String.length s)
  | _ => count_from sub 0 s
  end.

(** [s.replace(old, new)] for a non-empty [old]: every non-overlapping
    occurrence, scanned left to right. *)
Fixpoint replace_from (old new : string) (skip : nat) (s : string) : string :=
  match s with
  | EmptyString => EmptyString
  | String c s' =>
      match skip with
      | S k => replace_from old new k s'
      | O => if String.prefix old s
             then new +:+ replace_from old new (String.length old - 1) s'
             else String c (replace_from old new 0 s')
      end
  end.

Definition replace (s old new : string) : string := replace_from old new 0 s.

(** [s.split()]: maximal runs of non-whitespace characters. [cur] is the
    word being read. *)
Fixpoint split_go (cur : string) (s : string) : list string :=
  match s with
  | EmptyString => if truthy cur then [cur] else []
  | String c s' =>
      if is_space c
      then (if truthy cur then cur :: split_go EmptyString s'
            else split_go EmptyString s')
      else split_go (cur +:+ String c EmptyString) s'
  end.

Definition split (s : string) : list string := split_go EmptyString s.

(** [sep.join(l)] *)
Definition join (sep : string) (l : list string) : string := String.concat sep l.

(** [s.startswith(p)] *)
Definition startswith (s p : string) : bool := String.prefix p s.

(** [s.lstrip()], [s.rstrip()], [s.strip()] *)
Fixpoint lstrip (s : string) : string :=
  match s with
  | EmptyString => EmptyString
  | String c s' => if is_space c then lstrip s' else s
  end.

Fixpoint rstrip (s : string) : string :=
  match s with
  | EmptyString => EmptyString
  | String c s' =>
      match rstrip s' with
      | EmptyString => if is_space c then EmptyString else String c EmptyString
      | r => String c r
      end
  end.

Definition strip (s : string) : string := rstrip (lstrip s).

(** [s * n] *)
Fixpoint repeat (s : string) (n : nat) : string :=
  match n with
  | O => EmptyString
  | S k => s +:+ repeat s k
  end.

End Py.

(** ** Regular-expression substitutions used by [clean_content] *)

Module Re.

(** [re.sub(r'\s+', ' ', s)]: every maximal whitespace run becomes one
    space. [in_run] tells that the previous character was whitespace. *)
Fixpoint collapse_ws_go (in_run : bool) (s : string) : string :=
  match s with
  | EmptyString => EmptyString
  | String c s' =>
      if Py.is_space c
      then (if in_run then collapse_ws_go true s'
            else String " "%char (collapse_ws_go true s'))
      else String c (collapse_ws_go false s')
  end.

Definition collapse_ws (s : string) : string := collapse_ws_go false s.

(** [re.sub(pat, '', s, flags=re.IGNORECASE)] for a literal pattern. *)
Fixpoint remove_ci_from (pat : string) (skip : nat) (s : string) : string :=
  match s with
  | EmptyString => EmptyString
  | String c s' =>
      match skip with
      | S k => remove_ci_from pat k s'
      | O => if String.prefix (Py.lower pat) (Py.lower s)
             then remove_ci_from pat (String.length pat - 1) s'
             else String c (remove_ci_from pat 0 s')
      end
  end.

Definition remove_ci (pat s : string) : string :=
  match pat with
  | EmptyString => s
  | _ => remove_ci_from pat 0 s
  end.

(** Length of the shortest prefix of [s] that ends at the last newline of
    the whitespace run [s] starts with; [0] when that run has no newline. *)
Fixpoint last_nl_in_run (s : string) : nat :=
  match s with
  | EmptyString => 0
  | String c s' =>
      if Py.is_space c
      then match last_nl_in_run s' with
           | S k => S (S k)
           | O => if Ascii.eqb c Py.nl then 1 else 0
           end
      else 0
  end.

(** [re.sub(r'\n\s*\n', '\n\n', s)]: the greedy [\s*] backtracks to the
    last newline of the run. *)
Fixpoint squeeze_blank_go (skip : nat) (s : string) : string :=
  match s with
  | EmptyString => EmptyString
  | String c s' =>
      match skip with
      | S k => squeeze_blank_go k s'
      | O =>
          if Ascii.eqb c Py.nl
          then match last_nl_in_run s' with
               | S k => String Py.nl (String Py.nl (squeeze_blank_go (S k) s'))
               | O => String c (squeeze_blank_go 0 s')
               end
          else String c (squeeze_blank_go 0 s')
      end
  end.

Definition squeeze_blank (s : string) : string := squeeze_blank_go 0 s.

End Re.

(** ** Rational scores *)

Definition Qlt_bool (x y : Q) : bool := negb (Qle_bool y x).

(** ** Exceptions as values *)

Inductive exn : Type :=
| ValueError (msg : string)
| Exception (msg : string).

(** [str(e)] *)
Definition exn_str (e : exn) : string :=
  match e with ValueError m => m | Exception m => m end.

Inductive raised (A : Type) : Type :=
| Return (a : A)
| Raise (e : exn).

Arguments Return {A} a.
Arguments Raise {A} e.

Global Instance raised_ret : MRet raised := fun A a => Return a.

Global Instance raised_bind : MBind raised := fun A B k m =>
  match m with
  | Return a => k a
  | Raise e => Raise e
  end.

(** ** Content validator ([ContentValidator]) *)

Module Validator.

Definition MIN_CONTENT_LENGTH : nat := 500.
Definition MIN_PARAGRAPHS : nat := 3.

Definition NLNL : string := String Py.nl (String Py.nl EmptyString).
Definition NL_SP_NL : string :=
  String Py.nl (String " "%char (String Py.nl EmptyString)).

Definition non_article_indicators : list string :=
  [ "404 not found"; "page not found"; "access denied"; "login required";
    "subscribe to continue"; "paywall"; "premium content" ].

(** [is_article_content] *)
Definition is_article_content (content : string) : bool :=
  if negb (Py.truthy content) || (String.length content <? MIN_CONTENT_LENGTH)
  then false
  else
    let has_paragraphs := MIN_PARAGRAPHS <=? Py.count content NLNL in
    let has_sentences := 5 <=? Py.count content "." in
    let content_lower := Py.lower content in
    let has_non_article :=
      existsb (fun indicator => Py.contains indicator content_lower)
              non_article_indicators in
    has_paragraphs && has_sentences && negb has_non_article.

Definition artifacts : list string :=
  [ "Cookie Policy"; "Privacy Policy"; "Terms of Service";
    "Subscribe to newsletter"; "Follow us on"; "Share this article";
    "Advertisement"; "[Advertisement]" ].

(** [clean_content] *)
Definition clean_content (content : string) : string :=
  if negb (Py.truthy content) then EmptyString
  else
    let content := Re.collapse_ws content in
    let content := fold_left (fun c artifact => Re.remove_ci artifact c)
                             artifacts content in
    let content := Re.squeeze_blank content in
    Py.strip content.

(** The components of the quality score, in the order the code adds them. *)

Definition length_score (length : nat) : Q :=
  if MIN_CONTENT_LENGTH <=? length
  then Qmin 0.3 (inject_Z (Z.of_nat length) / 10000 * 0.3)
  else 0%Q.

Definition paragraph_count (content : string) : nat :=
  Py.count content NLNL + Py.count content NL_SP_NL.

Definition paragraph_score (paragraphs : nat) : Q :=
  if MIN_PARAGRAPHS <=? paragraphs
  then Qmin 0.3 (inject_Z (Z.of_nat paragraphs) / 10 * 0.3)
  else 0%Q.

Definition sentence_count (content : string) : nat :=
  Py.count content "." + Py.count content "!" + Py.count content "?".

Definition avg_sentence_length (content : string) : Q :=
  (inject_Z (Z.of_nat (String.length content)) /
   inject_Z (Z.of_nat (Nat.max (sentence_count content) 1)))%Q.

Definition sentence_score (content : string) : Q :=
  let avg := avg_sentence_length content in
  if Qle_bool 10 avg && Qle_bool avg 100 then 0.2%Q else 0%Q.

Definition title_score (title : option string) : Q :=
  match title with
  | Some t => if Py.truthy t && (10 <? String.length t) then 0.1%Q else 0%Q
  | None => 0%Q
  end.

Section WithLibraries.

(** [langdetect.detect]; [None] stands for [LangDetectException]. *)
Variable langdetect_detect : string → option string.
(** [validators.url(url) is True] *)
Variable validators_url : string → bool.
(** [urlparse(url).netloc]; [None] stands for a raised [ValueError]. *)
Variable urlparse_netloc : string → option string.

Definition validate_url (url : string) : bool := validators_url url.

Definition language_score (content : string) : Q :=
  match langdetect_detect content with
  | Some lang => if String.eqb lang "en" then 0.1%Q else 0%Q
  | None => 0%Q
  end.

(** [calculate_content_quality] *)
Definition calculate_content_quality (content : string) (title : option string) : Q :=
  if negb (Py.truthy content) then 0%Q
  else
    let score := 0%Q in
    let score := (score + length_score (String.length content))%Q in
    let score := (score + paragraph_score (paragraph_count content))%Q in
    let score := (score + sentence_score content)%Q in
    let score := (score + title_score title)%Q in
    let score := (score + language_score content)%Q in
    Qmin 1 score.

(** [detect_language] *)
Definition detect_language (content : string) : option string :=
  langdetect_detect content.

(** [extract_domain] *)
Definition extract_domain (url : string) : string :=
  match urlparse_netloc url with
  | Some netloc => Py.replace (Py.lower netloc) "www." EmptyString
  | None => EmptyString
  end.

(** The second component of [validate_extraction_result]'s triple. *)
Inductive reason : Type :=
| NoContentExtracted
| NotAnArticle
| QualityTooLow (quality_score : Q)
| ValidVia (method : string).

(** [validate_extraction_result] *)
Definition validate_extraction_result (content url method : string)
  : bool * reason * Q :=
  if negb (Py.truthy content) then (false, NoContentExtracted, 0%Q)
  else if negb (is_article_content content) then (false, NotAnArticle, 0%Q)
  else
    let quality_score := calculate_content_quality content None in
    if Qlt_bool quality_score 0.3 then (false, QualityTooLow quality_score, quality_score)
    else (true, ValidVia method, quality_score).

(** The text of the reason, as [validate_extraction_result] writes it;
    [format_2f] is the formatting [f"{x:.2f}"] of a float. *)
Definition reason_str (format_2f : Q → string) (why : reason) : string :=
  match why with
  | NoContentExtracted => "No content extracted"
  | NotAnArticle => "Content does not appear to be an article"
  | QualityTooLow quality_score =>
      "Content quality too low: " +:+ format_2f quality_score
  | ValidVia method => "Valid article content extracted via " +:+ method
  end.

End WithLibraries.

End Validator.

(** ** Data model ([models/schemas.py]) *)

Record ArticleContent : Type := mkArticleContent {
  url : string;
  title : option string;
  content : string;
  author : option string;
  publish_date : option string;
  domain : string;
  language : option string;
  quality_score : Q;
  extraction_method : string
}.

(** ** Extraction strategy chain ([ContentExtractor]) *)

Module Extractor.

(** What [newspaper.Article] leaves behind after [parse()]; the date is the
    text [isoformat()] gives. *)
Record NewspaperArticle : Type := mkNewspaperArticle {
  np_title : string;
  np_authors : list string;
  np_publish_date : option string
}.

(** The extractor object's mutable state: the attribute
    [_last_newspaper_article], absent until a strategy sets it. *)
Definition state : Type := option NewspaperArticle.

(** One call [await extractor(url)]. *)
Inductive outcome : Type :=
| Raised (e : exn)
| Returned (content : option string).

Definition strategy : Type := string → state → outcome * state.

(** What became of one attempted strategy, as the chain prints it. *)
Inductive attempt : Type :=
| Errored (e : exn)
| NoContent
| Rejected (why : Validator.reason)
| Accepted.

Definition failed (a : attempt) : bool :=
  match a with Accepted => false | _ => true end.

(** [_extract_title], [_extract_author], [_extract_date] *)
Definition _extract_title (st : state) (method : string) : option string :=
  match st with
  | Some art => if String.eqb method "newspaper3k" then Some (np_title art) else None
  | None => None
  end.

Definition _extract_author (st : state) (method : string) : option string :=
  match st with
  | Some art =>
      if String.eqb method "newspaper3k"
      then match np_authors art with
           | [] => None
           | authors => Some (Py.join ", " authors)
           end
      else None
  | None => None
  end.

Definition _extract_date (st : state) (method : string) : option string :=
  match st with
  | Some art => if String.eqb method "newspaper3k" then np_publish_date art else None
  | None => None
  end.

Section WithLibraries.

Variable langdetect_detect : string → option string.
Variable validators_url : string → bool.
Variable urlparse_netloc : string → option string.

(** The body of the [for method_name, extractor in extractors] loop together
    with what follows it.  [log] is the list of strategies attempted so far,
    each with what became of it. *)
Fixpoint try_extractors (url domain : string)
    (extractors : list (string * strategy)) (last_error : option exn)
    (st : state) (log : list (string * attempt))
  : raised ArticleContent * state * list (string * attempt) :=
  match extractors with
  | [] =>
      (Raise (Exception ("All extraction methods failed. Last error: " +:+
                         match last_error with
                         | Some e => exn_str e
                         | None => "None"
                         end)), st, log)
  | (method_name, extractor) :: rest =>
      match extractor url st with
      | (Raised e, st) =>
          try_extractors url domain rest (Some e) st
                         (log ++ [(method_name, Errored e)])
      | (Returned None, st) =>
          try_extractors url domain rest last_error st
                         (log ++ [(method_name, NoContent)])
      | (Returned (Some content), st) =>
          if Py.truthy content
          then
            match Validator.validate_extraction_result langdetect_detect
                    content url method_name with
            | (true, _, quality_score) =>
                (Return {| url := url;
                           title := _extract_title st method_name;
                           content := Validator.clean_content content;
                           author := _extract_author st method_name;
                           publish_date := _extract_date st method_name;
                           domain := domain;
                           language := Validator.detect_language langdetect_detect content;
                           quality_score := quality_score;
                           extraction_method := method_name |},
                 st, log ++ [(method_name, Accepted)])
            | (false, why, _) =>
                try_extractors url domain rest last_error st
                               (log ++ [(method_name, Rejected why)])
            end
          else
            try_extractors url domain rest last_error st
                           (log ++ [(method_name, NoContent)])
      end
  end.

(** [extract_content], over the list of strategies it is configured with. *)
Definition extract_content (extractors : list (string * strategy))
    (url : string) (st : state)
  : raised ArticleContent * state * list (string * attempt) :=
  if negb (Validator.validate_url validators_url url)
  then (Raise (ValueError ("Invalid URL: " +:+ url)), st, [])
  else
    let domain := Validator.extract_domain urlparse_netloc url in
    try_extractors url domain extractors None st [].

(** The list [extract_content] builds, given the five back ends. *)
Definition extractors_of
    (trafilatura newspaper readability beautifulsoup selenium : strategy)
  : list (string * strategy) :=
  [ ("trafilatura", trafilatura); ("newspaper3k", newspaper);
    ("readability", readability); ("beautifulsoup", beautifulsoup);
    ("selenium", selenium) ].

End WithLibraries.

End Extractor.

(** ** Analysis data model ([models/schemas.py]) *)

Inductive BiasType : Type :=
| SOURCE_BIAS | STATISTICAL_MISUSE | LOGICAL_FALLACY
| SELECTION_BIAS | FRAMING_BIAS | EMOTIONAL_MANIPULATION.

Inductive SeverityLevel : Type := HIGH | MEDIUM | LOW.

(** [severity.value] *)
Definition severity_value (s : SeverityLevel) : string :=
  match s with HIGH => "high" | MEDIUM => "medium" | LOW => "low" end.

Inductive EvidenceQuality : Type := STRONG | MODERATE | WEAK | NONE.

Inductive ToneType : Type := NEUTRAL | PERSUASIVE | EMOTIONAL | INFLAMMATORY.

Record Entity : Type := mkEntity {
  ent_text : string;
  ent_label : string;
  ent_confidence : Q;
  ent_context : option string
}.

Record Claim : Type := mkClaim {
  claim : string;
  evidence_quality : EvidenceQuality;
  verifiable : bool;
  context : option string;
  confidence : Q
}.

Record RedFlag : Type := mkRedFlag {
  type : BiasType;
  description : string;
  severity : SeverityLevel;
  evidence : option string;
  flag_confidence : Q
}.

Record LanguageAnalysis : Type := mkLanguageAnalysis {
  tone : ToneType;
  bias_indicators : list string;
  loaded_language : list string;
  emotional_words : list string;
  persuasive_techniques : list string
}.

Record SourceMetrics : Type := mkSourceMetrics {
  domain_authority : option Q;
  bias_rating : option string;
  factual_reporting : option string;
  funding_transparency : option string
}.

Record VerificationQuestion : Type := mkVerificationQuestion {
  question : string;
  category : string;
  priority : Z;
  research_tips : list string
}.

Record CounterNarrative : Type := mkCounterNarrative {
  opposing_viewpoint : string;
  alternative_explanations : list string;
  missing_context : list string;
  potential_rebuttals : list string
}.

Record AnalysisResult : Type := mkAnalysisResult {
  article : ArticleContent;
  core_claims : list Claim;
  language_analysis : LanguageAnalysis;
  red_flags : list RedFlag;
  verification_questions : list VerificationQuestion;
  entities : list Entity;
  source_metrics : option SourceMetrics;
  counter_narrative : option CounterNarrative;
  bias_confidence : Q;
  overall_credibility : Q
}.

Record AnalysisRequest : Type := mkAnalysisRequest {
  req_url : string;
  include_counter_narrative : bool;
  include_entity_analysis : bool;
  include_source_check : bool
}.

(** [models/response_models.py] *)
Record AnalysisResponse : Type := mkAnalysisResponse {
  success : bool;
  result : option AnalysisResult;
  markdown_report : option string;
  error : option string;
  processing_time : option Q
}.

(** ** [sorted(l, key=key, reverse=True)]

    Python's sort is stable, also with [reverse=True]: elements come out by
    decreasing key and elements with equal keys keep their input order.
    [ltb k1 k2] is the test [k1 < k2] on keys. *)

Section SortedReverse.

Context {A K : Type} (key : A → K) (ltb : K → K → bool).

Fixpoint insert_desc (x : A) (l : list A) : list A :=
  match l with
  | [] => [x]
  | y :: l' => if ltb (key x) (key y) then y :: insert_desc x l' else x :: l
  end.

Definition sorted_reverse (l : list A) : list A := foldr insert_desc [] l.

End SortedReverse.

(** [<] on the tuples [(rank, confidence)] *)
Definition pair_ltb (k1 k2 : nat * Q) : bool :=
  (fst k1 <? fst k2) || ((fst k1 =? fst k2) && Qlt_bool (snd k1) (snd k2)).

(** Jaccard similarity of the word sets of two texts, as both
    [_claims_similar] methods compute it before comparing it with their
    own threshold. *)
Definition jaccard (claim1 claim2 : string) : Q :=
  let words1 : gset string := list_to_set (Py.split claim1) in
  let words2 : gset string := list_to_set (Py.split claim2) in
  let intersection := size (words1 ∩ words2) in
  let union := size (words1 ∪ words2) in
  if 0 <? union
  then (inject_Z (Z.of_nat intersection) / inject_Z (Z.of_nat union))%Q
  else 0%Q.

(** ** Floating-point numbers

    A Python [float] is an IEEE 754 binary64 number, that is a rational
    number, and an arithmetic operation returns the binary64 number nearest
    to the exact result, a tie going to the even significand.  [Float.round]
    is that rounding for magnitudes in the normal range, the only ones that
    occur in the scores below; a decimal literal such as [0.3] denotes
    [Float.round 0.3]. *)

Module Float.

(** The integer nearest to [n / d] for a positive [d], ties to even. *)
Definition nearest_even (n d : Z) : Z :=
  let q := (n / d)%Z in
  let r := (n mod d)%Z in
  match (2 * r ?= d)%Z with
  | Lt => q
  | Gt => (q + 1)%Z
  | Eq => if Z.even q then q else (q + 1)%Z
  end.

(** The integer part of the binary logarithm of [n / d], for positive [n]
    and [d]. *)
Definition exponent (n d : Z) : Z :=
  let e := (Z.log2 n - Z.log2 d)%Z in
  let reached :=
    if (0 <=? e)%Z then (d * 2 ^ e <=? n)%Z else (d <=? n * 2 ^ (- e))%Z in
  if reached then e else (e - 1)%Z.

(** The binary64 number nearest to [x]: its significand has 53 bits. *)
Definition round (x : Q) : Q :=
  let n := Z.abs (Qnum x) in
  let d := Zpos (Qden x) in
  if (n =? 0)%Z then 0%Q
  else
    let shift := (52 - exponent n d)%Z in
    let magnitude :=
      if (0 <=? shift)%Z
      then Qred (nearest_even (n * 2 ^ shift) d # Z.to_pos (2 ^ shift))
      else inject_Z (nearest_even n (d * 2 ^ (- shift)) * 2 ^ (- shift)) in
    if (Qnum x <? 0)%Z then (- magnitude)%Q else magnitude.

(** [x + y] and [x - y] on floats *)
Definition add (x y : Q) : Q := round (x + y).
Definition sub (x y : Q) : Q := round (x - y).

End Float.

(** ** Regular expressions

    The patterns of [claim_extractor.py] use literals, character classes,
    alternation and repetition only, so [re.search(p, s)] is the question
    whether some substring of [s] belongs to the regular language of [p].
    It is answered here with derivatives. *)

Module Rx.

Inductive regex : Type :=
| Never
| Empty
| Class (p : ascii → bool)
| Cat (r1 r2 : regex)
| Alt (r1 r2 : regex)
| Star (r : regex).

Fixpoint nullable (r : regex) : bool :=
  match r with
  | Never => false
  | Empty => true
  | Class _ => false
  | Cat r1 r2 => nullable r1 && nullable r2
  | Alt r1 r2 => nullable r1 || nullable r2
  | Star _ => true
  end.

(** Concatenation and alternation that drop a branch that cannot match. *)
Definition cat (r1 r2 : regex) : regex :=
  match r1, r2 with
  | Never, _ => Never
  | _, Never => Never
  | Empty, _ => r2
  | _, _ => Cat r1 r2
  end.

Definition alt (r1 r2 : regex) : regex :=
  match r1, r2 with
  | Never, _ => r2
  | _, Never => r1
  | _, _ => Alt r1 r2
  end.

(** The words [w] such that [c] followed by [w] matches [r]. *)
Fixpoint deriv (c : ascii) (r : regex) : regex :=
  match r with
  | Never => Never
  | Empty => Never
  | Class p => if p c then Empty else Never
  | Cat r1 r2 =>
      alt (cat (deriv c r1) r2) (if nullable r1 then deriv c r2 else Never)
  | Alt r1 r2 => alt (deriv c r1) (deriv c r2)
  | Star r1 => cat (deriv c r1) (Star r1)
  end.

(** [re.match(r, s)] as a truth value: some prefix of [s] matches. *)
Fixpoint match_prefix (r : regex) (s : string) : bool :=
  nullable r ||
  match s with
  | EmptyString => false
  | String c s' => match_prefix (deriv c r) s'
  end.

(** [re.search(r, s)] as a truth value: some substring of [s] matches. *)
Fixpoint search (r : regex) (s : string) : bool :=
  match_prefix r s ||
  match s with
  | EmptyString => false
  | String _ s' => search r s'
  end.

(** [re.search(r, s, re.IGNORECASE)] for a pattern whose letters are
    written in lowercase. *)
Definition search_ignorecase (r : regex) (s : string) : bool :=
  search r (Py.lower s).

(** Pattern syntax. *)
Definition chr (c : ascii) : regex := Class (Ascii.eqb c).

Fixpoint lit (s : string) : regex :=
  match s with
  | EmptyString => Empty
  | String c s' => Cat (chr c) (lit s')
  end.

Definition plus (r : regex) : regex := Cat r (Star r).
Definition opt (r : regex) : regex := Alt r Empty.

Fixpoint any_of (l : list regex) : regex :=
  match l with
  | [] => Never
  | [r] => r
  | r :: l' => Alt r (any_of l')
  end.

Definition is_digit (c : ascii) : bool :=
  let n := nat_of_ascii c in (48 <=? n) && (n <=? 57).
Definition is_upper (c : ascii) : bool :=
  let n := nat_of_ascii c in (65 <=? n) && (n <=? 90).
Definition is_lower (c : ascii) : bool :=
  let n := nat_of_ascii c in (97 <=? n) && (n <=? 122).
Definition is_word (c : ascii) : bool :=
  is_digit c || is_upper c || is_lower c || Ascii.eqb c "_"%char.

(** [\d], [\w], [A-Z], [a-z] *)
Definition digit : regex := Class is_digit.
Definition word : regex := Class is_word.
Definition upper : regex := Class is_upper.
Definition lower : regex := Class is_lower.

End Rx.

(** ** Heuristic claim de-duplication ([ClaimExtractor]) *)

Module ClaimExtractor.

(** [\w] on one ASCII character *)
Definition is_word_char (c : ascii) : bool :=
  let n := nat_of_ascii c in
  ((48 <=? n) && (n <=? 57)) || ((65 <=? n) && (n <=? 90)) ||
  ((97 <=? n) && (n <=? 122)) || (n =? 95).

(** [re.sub(r'[^\w\s]', '', s)] *)
Fixpoint strip_punct (s : string) : string :=
  match s with
  | EmptyString => EmptyString
  | String c s' =>
      if is_word_char c || Py.is_space c then String c (strip_punct s')
      else strip_punct s'
  end.

Definition simplify (text : string) : string :=
  let simplified := strip_punct (Py.lower text) in
  Py.join " " (Py.split simplified).

(** [_claims_similar] *)
Definition _claims_similar (claim1 claim2 : string) : bool :=
  let similarity := jaccard claim1 claim2 in
  Qlt_bool 0.7 similarity.

(** One iteration of the loop of [_deduplicate_claims] on its two
    accumulators. *)
Definition dedup_step (acc : list Claim * gset string) (c : Claim)
  : list Claim * gset string :=
  let '(unique_claims, seen_claims) := acc in
  let simplified := simplify (claim c) in
  let is_duplicate := existsb (_claims_similar simplified) (elements seen_claims) in
  if negb is_duplicate
  then (unique_claims ++ [c], seen_claims ∪ {[ simplified ]})
  else (unique_claims, seen_claims).

(** [_deduplicate_claims] *)
Definition _deduplicate_claims (claims : list Claim) : list Claim :=
  fst (fold_left dedup_step claims ([], ∅)).

(** The pattern lists of [__init__] and of the methods below. *)

Definition digit_or_comma : Rx.regex :=
  Rx.Class (fun c => Rx.is_digit c || Ascii.eqb c ","%char).

Definition factual_indicators : list Rx.regex :=
  [ Rx.Cat (Rx.lit "according to ") (Rx.plus Rx.word);
    Rx.Cat (Rx.lit "data show") (Rx.opt (Rx.chr "s"));
    Rx.lit "statistics reveal";
    Rx.lit "study found";
    Rx.lit "research indicates";
    Rx.lit "report states";
    Rx.Cat (Rx.lit "official") (Rx.Cat (Rx.opt (Rx.chr "s")) (Rx.lit " said"));
    Rx.lit "spokesperson said";
    Rx.Cat (Rx.plus Rx.digit) (Rx.lit "% of");
    Rx.Cat (Rx.chr "$")
      (Rx.Cat (Rx.plus digit_or_comma)
         (Rx.Cat (Rx.chr " ") (Rx.Alt (Rx.lit "million") (Rx.lit "billion"))));
    Rx.Cat (Rx.plus Rx.digit) (Rx.lit " people");
    Rx.Cat (Rx.lit "increased by ") (Rx.plus Rx.digit);
    Rx.Cat (Rx.lit "decreased by ") (Rx.plus Rx.digit) ].

Definition definitive_patterns : list Rx.regex :=
  [ Rx.Cat (Rx.lit "will ") (Rx.plus Rx.word);
    Rx.Cat (Rx.lit "has ") (Rx.Cat (Rx.plus Rx.word) (Rx.lit "ed"));
    Rx.Cat (Rx.lit "have ") (Rx.Cat (Rx.plus Rx.word) (Rx.lit "ed"));
    Rx.Cat (Rx.lit "is ") (Rx.Cat (Rx.plus Rx.word) (Rx.lit "ing"));
    Rx.Cat (Rx.lit "are ") (Rx.Cat (Rx.plus Rx.word) (Rx.lit "ing")) ].

Definition strong_evidence : list string :=
  [ "peer-reviewed"; "published study"; "government data"; "official statistics";
    "verified by"; "confirmed by"; "documented evidence"; "multiple sources" ].

Definition moderate_evidence : list string :=
  [ "study shows"; "research indicates"; "data suggests"; "report found";
    "analysis shows"; "experts say" ].

Definition weak_evidence : list string :=
  [ "sources say"; "allegedly"; "reportedly"; "claims"; "appears to";
    "seems to"; "suggests that" ].

Definition no_evidence : list string :=
  [ "believes"; "thinks"; "feels"; "opinion"; "speculation"; "rumors";
    "unconfirmed"; "without evidence" ].

(** [r'\d+'] and [r'[A-Z][a-z]+ [A-Z][a-z]+'] *)
Definition digits : Rx.regex := Rx.plus Rx.digit.

Definition proper_nouns : Rx.regex :=
  Rx.Cat Rx.upper
    (Rx.Cat (Rx.plus Rx.lower)
       (Rx.Cat (Rx.chr " ") (Rx.Cat Rx.upper (Rx.plus Rx.lower)))).

(** [any(indicator in sentence for indicator in indicators)] *)
Definition mentions (indicators : list string) (sentence : string) : bool :=
  existsb (fun indicator => Py.contains indicator sentence) indicators.

Definition is_terminator (c : ascii) : bool :=
  Ascii.eqb c "."%char || Ascii.eqb c "!"%char || Ascii.eqb c "?"%char.

(** [re.split(r'[.!?]+', text)]: the pieces between the maximal runs of
    terminators, the empty pieces at both ends included. *)
Fixpoint split_terminators_go (in_run : bool) (cur : string) (s : string) : list string :=
  match s with
  | EmptyString => [cur]
  | String c s' =>
      if is_terminator c
      then (if in_run then split_terminators_go true EmptyString s'
            else cur :: split_terminators_go true EmptyString s')
      else split_terminators_go false (cur +:+ String c EmptyString) s'
  end.

Definition split_terminators (text : string) : list string :=
  split_terminators_go false EmptyString text.

(** [_split_into_sentences] *)
Definition _split_into_sentences (text : string) : list string :=
  let sentences := split_terminators text in
  List.filter
    (fun sentence =>
       (20 <? String.length sentence) &&
       negb (Py.startswith sentence "http" || Py.startswith sentence "www"))
    (Py.strip <$> sentences).

(** [_contains_factual_claim] *)
Definition _contains_factual_claim (sentence : string) : bool :=
  let sentence_lower := Py.lower sentence in
  existsb (fun pattern => Rx.search pattern sentence_lower) factual_indicators ||
  (Rx.search digits sentence && (30 <? String.length sentence)) ||
  existsb (fun pattern => Rx.search pattern sentence_lower) definitive_patterns.

(** [_assess_evidence_quality] *)
Definition _assess_evidence_quality (sentence : string) : EvidenceQuality :=
  if mentions strong_evidence sentence then STRONG
  else if mentions moderate_evidence sentence then MODERATE
  else if mentions weak_evidence sentence then WEAK
  else if mentions no_evidence sentence then NONE
  else if Rx.search (Rx.any_of [Rx.lit "according to"; Rx.lit "data";
                                Rx.lit "study"; Rx.lit "research"]) sentence
       then MODERATE
  else if Rx.search (Rx.any_of [Rx.lit "said"; Rx.lit "stated";
                                Rx.lit "announced"]) sentence
       then WEAK
  else NONE.

Definition months : list string :=
  [ "january"; "february"; "march"; "april"; "may"; "june"; "july"; "august";
    "september"; "october"; "november"; "december" ].

Definition verifiable_patterns : list Rx.regex :=
  [ Rx.Cat (Rx.plus Rx.digit) (Rx.chr "%");
    Rx.Cat (Rx.chr "$") (Rx.plus digit_or_comma);
    Rx.Cat (Rx.plus Rx.digit)
      (Rx.Cat (Rx.chr " ")
         (Rx.any_of [Rx.lit "people"; Rx.lit "cases"; Rx.lit "instances"]));
    Rx.any_of (Rx.lit <$> months);
    Rx.Cat Rx.digit (Rx.Cat Rx.digit (Rx.Cat Rx.digit Rx.digit));
    Rx.lit "government data";
    Rx.lit "official statistics";
    Rx.lit "public records" ].

Definition non_verifiable : list string :=
  [ "believes"; "thinks"; "feels"; "opinion"; "speculation"; "rumors";
    "allegedly"; "reportedly"; "sources say" ].

(** [_assess_verifiability] *)
Definition _assess_verifiability (sentence : string) : bool :=
  if existsb (fun pattern => Rx.search_ignorecase pattern sentence) verifiable_patterns
  then true
  else if mentions non_verifiable sentence then false
  else if Rx.search proper_nouns sentence then true
  else false.

Definition evidence_scores (q : EvidenceQuality) : Q :=
  match q with
  | STRONG => Float.round 0.4
  | MODERATE => Float.round 0.25
  | WEAK => Float.round 0.1
  | NONE => 0%Q
  end.

Definition uncertainty_indicators : list string :=
  [ "might"; "could"; "may"; "possibly"; "perhaps"; "allegedly" ].

(** [_calculate_claim_confidence] *)
Definition _calculate_claim_confidence (sentence : string)
    (evidence_quality : EvidenceQuality) (verifiable : bool) : Q :=
  let base_confidence := Float.round 0.3 in
  let base_confidence := Float.add base_confidence (evidence_scores evidence_quality) in
  let base_confidence :=
    if verifiable then Float.add base_confidence (Float.round 0.2)
    else base_confidence in
  let base_confidence :=
    if Rx.search digits sentence then Float.add base_confidence (Float.round 0.1)
    else base_confidence in
  let base_confidence :=
    if Rx.search proper_nouns sentence
    then Float.add base_confidence (Float.round 0.05)
    else base_confidence in
  let base_confidence :=
    if mentions uncertainty_indicators sentence
    then Float.sub base_confidence (Float.round 0.1)
    else base_confidence in
  Qmin 1 (Qmax 0 base_confidence).

Definition context_prefixes : list string :=
  [ "However,"; "But,"; "And,"; "So,"; "Then," ].

(** [re.sub(r'^(However,|But,|And,|So,|Then,)\s*', '', context)] *)
Definition drop_context_prefix (context : string) : string :=
  match List.find (fun p => String.prefix p context) context_prefixes with
  | Some p => Py.lstrip (String.substring (String.length p)
                           (String.length context - String.length p) context)
  | None => context
  end.

(** [_extract_claim_context] *)
Definition _extract_claim_context (sentence : string) : string :=
  let context := Py.strip sentence in
  let context := drop_context_prefix context in
  if 200 <? String.length context
  then String.substring 0 197 context +:+ "..."
  else context.

(** [_analyze_claim] *)
Definition _analyze_claim (sentence : string) : Claim :=
  let sentence_lower := Py.lower sentence in
  let evidence_quality := _assess_evidence_quality sentence_lower in
  let verifiable := _assess_verifiability sentence_lower in
  let confidence :=
    _calculate_claim_confidence sentence_lower evidence_quality verifiable in
  let context := _extract_claim_context sentence in
  {| claim := Py.strip sentence;
     evidence_quality := evidence_quality;
     verifiable := verifiable;
     context := Some context;
     confidence := confidence |}.

(** [claim_score], the key of [_rank_claims] *)
Definition claim_score (c : Claim) : Q :=
  let score := confidence c in
  let score :=
    match evidence_quality c with
    | STRONG => Float.add score (Float.round 0.3)
    | MODERATE => Float.add score (Float.round 0.1)
    | _ => score
    end in
  let score := if verifiable c then Float.add score (Float.round 0.2) else score in
  let score :=
    if Rx.search digits (claim c) then Float.add score (Float.round 0.1) else score in
  let score :=
    if 100 <? String.length (claim c) then Float.add score (Float.round 0.05)
    else score in
  score.

(** [_rank_claims] *)
Definition _rank_claims (claims : list Claim) : list Claim :=
  sorted_reverse claim_score Qlt_bool claims.

(** [extract_claims] *)
Definition extract_claims (content : string) (title : option string) : list Claim :=
  let full_text :=
    match title with
    | Some t => if Py.truthy t then t +:+ String Py.nl content else content
    | None => content
    end in
  let sentences := _split_into_sentences full_text in
  let claims :=
    List.filter (fun c => 20 <? String.length (Py.strip (claim c)))
      (_analyze_claim <$> List.filter _contains_factual_claim sentences) in
  let unique_claims := _deduplicate_claims claims in
  let ranked_claims := _rank_claims unique_claims in
  take 8 ranked_claims.

(** The dictionary [analyze_claim_patterns] returns. *)
Record ClaimPatterns : Type := mkClaimPatterns {
  total_claims : nat;
  verifiable_claims : nat;
  evidence_strong : nat;
  evidence_moderate : nat;
  evidence_weak : nat;
  evidence_none : nat;
  average_confidence : Q;
  statistical_claims : nat;
  high_confidence_claims : nat
}.

Definition count_if {A : Type} (p : A → bool) (l : list A) : nat :=
  length (List.filter p l).

Definition is_quality (q : EvidenceQuality) (c : Claim) : bool :=
  match q, evidence_quality c with
  | STRONG, STRONG | MODERATE, MODERATE | WEAK, WEAK | NONE, NONE => true
  | _, _ => false
  end.

(** [analyze_claim_patterns] *)
Definition analyze_claim_patterns (claims : list Claim) : ClaimPatterns :=
  {| total_claims := length claims;
     verifiable_claims := count_if verifiable claims;
     evidence_strong := count_if (is_quality STRONG) claims;
     evidence_moderate := count_if (is_quality MODERATE) claims;
     evidence_weak := count_if (is_quality WEAK) claims;
     evidence_none := count_if (is_quality NONE) claims;
     average_confidence :=
       match claims with
       | [] => 0%Q
       | _ => (fold_left (fun acc c => acc + confidence c) claims 0 /
               inject_Z (Z.of_nat (length claims)))%Q
       end;
     statistical_claims := count_if (fun c => Rx.search digits (claim c)) claims;
     high_confidence_claims := count_if (fun c => Qlt_bool 0.7 (confidence c)) claims |}.

End ClaimExtractor.

(** ** High-level scraper ([WebScraper]) *)

Module Scraper.

(** The entries of the dictionary [extract_article_metadata] returns that
    [scrape_article] reads. *)
Record Metadata : Type := mkMetadata {
  md_title : option string;
  md_author : option string;
  md_publication_date : option string
}.

(** Truth value of an optional string: [None] and the empty string are
    false. *)
Definition truthy_opt (o : option string) : bool :=
  match o with Some s => Py.truthy s | None => false end.

(** [if not old and new: old = new] *)
Definition fill_missing (old new : option string) : option string :=
  if negb (truthy_opt old) && truthy_opt new then new else old.

(** The three conditional assignments of [scrape_article]. *)
Definition fill_metadata (article_content : ArticleContent)
    (additional_metadata : Metadata) : ArticleContent :=
  {| url := url article_content;
     title := fill_missing (title article_content) (md_title additional_metadata);
     content := content article_content;
     author := fill_missing (author article_content) (md_author additional_metadata);
     publish_date := fill_missing (publish_date article_content)
                                  (md_publication_date additional_metadata);
     domain := domain article_content;
     language := language article_content;
     quality_score := quality_score article_content;
     extraction_method := extraction_method article_content |}.

Section WithLibraries.

Variable langdetect_detect : string → option string.
Variable validators_url : string → bool.
Variable urlparse_netloc : string → option string.
Variable extractors : list (string * Extractor.strategy).
(** [metadata_extractor.extract_article_metadata] *)
Variable extract_article_metadata : string → raised Metadata.

(** [scrape_article]; an exception is printed and raised again. *)
Definition scrape_article (url : string) (st : Extractor.state)
  : raised ArticleContent * Extractor.state :=
  if negb (Validator.validate_url validators_url url)
  then (Raise (ValueError ("Invalid URL: " +:+ url)), st)
  else
    match Extractor.extract_content langdetect_detect validators_url
            urlparse_netloc extractors url st with
    | (Return article_content, st, _) =>
        if negb (truthy_opt (title article_content)) ||
           negb (truthy_opt (author article_content))
        then
          match extract_article_metadata url with
          | Return additional_metadata =>
              (Return (fill_metadata article_content additional_metadata), st)
          | Raise e => (Raise e, st)
          end
        else (Return article_content, st)
    | (Raise e, st, _) => (Raise e, st)
    end.

(** The dictionary [get_extraction_preview] returns.  The keys [author],
    [domain] and [publish_date] exist only after a successful scrape. *)
Record Preview : Type := mkPreview {
  pv_url : string;
  pv_title : option string;
  pv_content_preview : option string;
  pv_estimated_length : nat;
  pv_extraction_method : option string;
  pv_quality_score : Q;
  pv_details : option (option string * string * option string);
  pv_issues : list string
}.

Definition content_preview (content : string) : string :=
  if 500 <? String.length content
  then String.substring 0 500 content +:+ "..."
  else content.

(** The quality checks of [get_extraction_preview], in their order. *)
Definition quality_issues (article : ArticleContent) : list string :=
  (if Qlt_bool (quality_score article) 0.5
   then ["Low content quality detected"] else []) ++
  (if String.length (content article) <? 1000
   then ["Article may be too short for meaningful analysis"] else []) ++
  (if negb (truthy_opt (title article)) then ["No title found"] else []) ++
  (if negb (truthy_opt (author article))
   then ["No author information found"] else []).

(** [get_extraction_preview] *)
Definition get_extraction_preview (url : string) (st : Extractor.state)
  : raised Preview * Extractor.state :=
  match scrape_article url st with
  | (Return article, st) =>
      (Return {| pv_url := url;
                 pv_title := title article;
                 pv_content_preview := Some (content_preview (content article));
                 pv_estimated_length := String.length (content article);
                 pv_extraction_method := Some (extraction_method article);
                 pv_quality_score := quality_score article;
                 pv_details := Some (author article, domain article,
                                     publish_date article);
                 pv_issues := quality_issues article |}, st)
  | (Raise e, st) =>
      (Return {| pv_url := url;
                 pv_title := None;
                 pv_content_preview := None;
                 pv_estimated_length := 0;
                 pv_extraction_method := None;
                 pv_quality_score := 0;
                 pv_details := None;
                 pv_issues := ["Extraction failed: " +:+ exn_str e] |}, st)
  end.

End WithLibraries.

End Scraper.

(** ** Reconciliation engine and pipeline ([AnalysisOrchestrator]) *)

Module Orchestrator.

Definition simplify (text : string) : string :=
  Py.join " " (Py.split (Py.lower text)).

(** [_claims_similar] *)
Definition _claims_similar (claim1 claim2 : string) : bool :=
  let similarity := jaccard claim1 claim2 in
  Qlt_bool 0.6 similarity.

Definition merge_claims_step (acc : list Claim * gset string) (c : Claim)
  : list Claim * gset string :=
  let '(unique_claims, seen_claims) := acc in
  let simplified := simplify (claim c) in
  let is_duplicate := existsb (_claims_similar simplified) (elements seen_claims) in
  if negb is_duplicate
  then (unique_claims ++ [c], seen_claims ∪ {[ simplified ]})
  else (unique_claims, seen_claims).

(** [_merge_claims] *)
Definition _merge_claims (traditional_claims ai_claims : list Claim) : list Claim :=
  let all_claims := traditional_claims ++ ai_claims in
  let unique_claims := fst (fold_left merge_claims_step all_claims ([], ∅)) in
  take 8 (sorted_reverse confidence Qlt_bool unique_claims).

Definition severity_order : gmap string nat :=
  <["high" := 3]> (<["medium" := 2]> (<["low" := 1]> ∅)).

(** The sort key [(severity_order.get(x.severity.value, 0), x.confidence)] *)
Definition flag_key (x : RedFlag) : nat * Q :=
  (default 0 (severity_order !! severity_value (severity x)), flag_confidence x).

Definition merge_flags_step (acc : list RedFlag * gset string) (flag : RedFlag)
  : list RedFlag * gset string :=
  let '(unique_flags, seen_descriptions) := acc in
  let simplified_desc := simplify (description flag) in
  if negb (bool_decide (simplified_desc ∈ seen_descriptions))
  then (unique_flags ++ [flag], seen_descriptions ∪ {[ simplified_desc ]})
  else (unique_flags, seen_descriptions).

(** [_merge_red_flags] *)
Definition _merge_red_flags (traditional_flags ai_flags : list RedFlag) : list RedFlag :=
  let all_flags := traditional_flags ++ ai_flags in
  let unique_flags := fst (fold_left merge_flags_step all_flags ([], ∅)) in
  take 10 (sorted_reverse flag_key pair_ltb unique_flags).

(** [for x in items: if x not in merged: merged.append(x)] *)
Definition append_missing (merged items : list string) : list string :=
  fold_left (fun merged x => if bool_decide (x ∈ merged) then merged else merged ++ [x])
            items merged.

(** [_merge_language_analysis] *)
Definition _merge_language_analysis (traditional_analysis ai_analysis : LanguageAnalysis)
  : LanguageAnalysis :=
  {| tone := tone ai_analysis;
     bias_indicators :=
       take 15 (append_missing (bias_indicators ai_analysis)
                               (bias_indicators traditional_analysis));
     loaded_language :=
       take 15 (append_missing (loaded_language ai_analysis)
                               (loaded_language traditional_analysis));
     emotional_words :=
       take 15 (append_missing (emotional_words ai_analysis)
                               (emotional_words traditional_analysis));
     persuasive_techniques :=
       take 10 (append_missing (persuasive_techniques ai_analysis)
                               (persuasive_techniques traditional_analysis)) |}.

(** The calls of the [try] block of [analyze_article]: a line printed to
    the console, and the stages in the order they run. *)
Inductive stage : Type :=
| Print
| ScrapeArticle | ExtractEntities | ExtractSourceMetrics | ExtractClaims
| DetectLanguageBias | DetectStructuralBias | AIAnalysis | ParseAnalysis
| VerificationQuestions | BuildInterimResult | GenerateCounterNarrative
| BuildResult | FormatReport.

(** A call that ran, with the exception it raised if it raised one. *)
Definition event : Type := stage * option exn.

(** The body of the [try] block: it may raise, it threads the state of the
    extractor object and it leaves a record of the stages that ran. *)
Definition Pipe (A : Type) : Type :=
  Extractor.state → list event → raised A * Extractor.state * list event.

Global Instance pipe_ret : MRet Pipe := fun A a st log => (Return a, st, log).

Global Instance pipe_bind : MBind Pipe := fun A B k m st log =>
  match m st log with
  | (Return a, st', log') => k a st' log'
  | (Raise e, st', log') => (Raise e, st', log')
  end.

Definition raised_by {A : Type} (r : raised A) : option exn :=
  match r with Return _ => None | Raise e => Some e end.

Definition call {A : Type} (s : stage) (r : raised A) : Pipe A :=
  fun st log => (r, st, log ++ [(s, raised_by r)]).

(** What [parse_analysis_to_models] returns. *)
Record ParsedAI : Type := mkParsedAI {
  ai_claims : list Claim;
  ai_language_analysis : LanguageAnalysis;
  ai_red_flags : list RedFlag;
  ai_verification_questions : list VerificationQuestion;
  ai_bias_confidence : Q;
  ai_overall_credibility : Q
}.

Definition in_unit_interval (x : Q) : bool := Qle_bool 0 x && Qle_bool x 1.

(** Constructing an [AnalysisResult]: the two scalar fields are declared
    [Field(ge=0.0, le=1.0)] and the constructor raises a validation error
    (a [ValueError]) otherwise; its text is abbreviated here. *)
Definition build_AnalysisResult (article : ArticleContent)
    (core_claims : list Claim) (language_analysis : LanguageAnalysis)
    (red_flags : list RedFlag) (verification_questions : list VerificationQuestion)
    (entities : list Entity) (source_metrics : option SourceMetrics)
    (counter_narrative : option CounterNarrative)
    (bias_confidence overall_credibility : Q) : raised AnalysisResult :=
  if in_unit_interval bias_confidence && in_unit_interval overall_credibility
  then Return {| article := article; core_claims := core_claims;
                 language_analysis := language_analysis; red_flags := red_flags;
                 verification_questions := verification_questions;
                 entities := entities; source_metrics := source_metrics;
                 counter_narrative := counter_narrative;
                 bias_confidence := bias_confidence;
                 overall_credibility := overall_credibility |}
  else Raise (ValueError "validation error for AnalysisResult").

Section Pipeline.

(** The JSON object the generative-AI client returns. *)
Variable AIData : Type.

Variable langdetect_detect : string → option string.
Variable validators_url : string → bool.
Variable urlparse_netloc : string → option string.
Variable extractors : list (string * Extractor.strategy).
Variable extract_article_metadata : string → raised Scraper.Metadata.

(** The collaborators of the orchestrator; each call may raise. *)
Variable extract_entities : string → option string → raised (list Entity).
Variable extract_source_metrics : string → string → raised (option SourceMetrics).
Variable extract_claims : string → option string → raised (list Claim).
Variable detect_language_bias : string → option string → raised LanguageAnalysis.
Variable detect_structural_bias : string → raised (list RedFlag).
Variable ai_analyze_article : ArticleContent → string → raised AIData.
Variable parse_analysis_to_models : AIData → raised ParsedAI.
Variable generate_verification_questions :
  list Claim → list Entity → string → string → raised (list VerificationQuestion).
Variable generate_counter_narrative : AnalysisResult → raised (option CounterNarrative).
Variable format_analysis_report : AnalysisResult → raised string.

(** The console: [print(text)] returns, or raises when the standard output
    cannot take the text ([UnicodeEncodeError] when its encoding lacks one
    of the characters). *)
Variable print : string → raised unit.
(** [f"{x:.2f}"] *)
Variable format_2f : Q → string.

Definition scrape (url : string) : Pipe ArticleContent :=
  fun st log =>
    let '(r, st') := Scraper.scrape_article langdetect_detect validators_url
                       urlparse_netloc extractors extract_article_metadata url st in
    (r, st', log ++ [(ScrapeArticle, raised_by r)]).

(** [print(text)] inside the [try] block *)
Definition say (text : string) : Pipe unit := call Print (print text).

(** The body of the [try] block of [analyze_article] up to the report. *)
Definition pipeline (request : AnalysisRequest) : Pipe (AnalysisResult * string) :=
  _ ← say ("Starting analysis of: " +:+ req_url request);
  _ ← say "📄 Extracting article content...";
  article_content ← scrape (req_url request);
  entities ←
    (if include_entity_analysis request
     then
       _ ← say "🏷️  Extracting named entities...";
       call ExtractEntities
         (extract_entities (content article_content) (title article_content))
     else mret []);
  source_metrics ←
    (if include_source_check request
     then
       _ ← say "🔍 Analyzing source credibility...";
       call ExtractSourceMetrics
         (extract_source_metrics (domain article_content) (req_url request))
     else mret None);
  _ ← say "📊 Extracting factual claims...";
  traditional_claims ←
    call ExtractClaims
      (extract_claims (content article_content) (title article_content));
  _ ← say "⚖️  Analyzing language bias...";
  traditional_language_analysis ←
    call DetectLanguageBias
      (detect_language_bias (content article_content) (title article_content));
  traditional_red_flags ←
    call DetectStructuralBias (detect_structural_bias (content article_content));
  _ ← say "🤖 Performing AI analysis...";
  ai_analysis_data ←
    call AIAnalysis (ai_analyze_article article_content (req_url request));
  _ ← say "🔄 Merging analysis results...";
  parsed_ai ← call ParseAnalysis (parse_analysis_to_models ai_analysis_data);
  let all_claims := _merge_claims traditional_claims (ai_claims parsed_ai) in
  let all_red_flags := _merge_red_flags traditional_red_flags (ai_red_flags parsed_ai) in
  let final_language_analysis :=
    _merge_language_analysis traditional_language_analysis
                             (ai_language_analysis parsed_ai) in
  _ ← say "❓ Generating verification questions...";
  verification_questions ←
    call VerificationQuestions
      (generate_verification_questions all_claims entities
         (content article_content) (domain article_content));
  counter_narrative ←
    (if include_counter_narrative request
     then
       _ ← say "🔄 Generating counter-narrative...";
       temp_analysis_result ←
         call BuildInterimResult
           (build_AnalysisResult article_content all_claims final_language_analysis
              all_red_flags verification_questions entities source_metrics None
              (ai_bias_confidence parsed_ai) (ai_overall_credibility parsed_ai));
       call GenerateCounterNarrative (generate_counter_narrative temp_analysis_result)
     else mret None);
  analysis_result ←
    call BuildResult
      (build_AnalysisResult article_content all_claims final_language_analysis
         all_red_flags verification_questions entities source_metrics
         counter_narrative
         (ai_bias_confidence parsed_ai) (ai_overall_credibility parsed_ai));
  _ ← say "📝 Generating markdown report...";
  markdown_report ← call FormatReport (format_analysis_report analysis_result);
  mret (analysis_result, markdown_report).

(** The [except] clause of [analyze_article]: it prints the failure and
    returns the response; an exception raised by that [print] leaves the
    function. *)
Definition on_exception (e : exn) (processing_time : Q) : raised AnalysisResponse :=
  let error_msg := "Analysis failed: " +:+ exn_str e in
  _ ← print ("❌ " +:+ error_msg);
  mret {| success := false;
          result := None;
          markdown_report := None;
          error := Some error_msg;
          processing_time := Some processing_time |}.

(** [analyze_article].  [time_time k] is the [k]-th reading of
    [time.time()] during the call: reading 0 is taken before the [try]
    block, the next one after the report is formatted or in the [except]
    clause, and a third one in the [except] clause when the line that
    announces the completion could not be printed.  The log lists the calls
    of the [try] block. *)
Definition analyze_article (request : AnalysisRequest) (time_time : nat → Q)
    (st : Extractor.state)
  : raised AnalysisResponse * Extractor.state * list event :=
  let start_time := time_time 0 in
  match pipeline request st [] with
  | (Return (analysis_result, markdown_report), st', log) =>
      let processing_time := (time_time 1%nat - start_time)%Q in
      let completed :=
        print ("✅ Analysis completed in " +:+ format_2f processing_time +:+
               " seconds") in
      match completed with
      | Return _ =>
          (Return {| success := true;
                     result := Some analysis_result;
                     markdown_report := Some markdown_report;
                     error := None;
                     processing_time := Some processing_time |},
           st', log ++ [(Print, None)])
      | Raise e =>
          (on_exception e (time_time 2%nat - start_time)%Q, st',
           log ++ [(Print, Some e)])
      end
  | (Raise e, st', log) =>
      (on_exception e (time_time 1%nat - start_time)%Q, st', log)
  end.

(** What [quick_preview] returns: the preview, or the dictionary of its
    [except] branch with the keys [url], [error] and [accessible]. *)
Inductive QuickPreview : Type :=
| PreviewOf (preview : Scraper.Preview)
| Inaccessible (url error : string) (accessible : bool).

(** [quick_preview] *)
Definition quick_preview (url : string) (st : Extractor.state)
  : QuickPreview * Extractor.state :=
  match Scraper.get_extraction_preview langdetect_detect validators_url
          urlparse_netloc extractors extract_article_metadata url st with
  | (Return preview, st) => (PreviewOf preview, st)
  | (Raise e, st) => (Inaccessible url (exn_str e) false, st)
  end.

End Pipeline.

End Orchestrator.

(** ** The specification's wording

    Definitions that follow the sentences of the specification, to be
    compared with the ones above. *)

Module Spec.

(** "lowercase host with leading [www.] stripped; empty string on parse
    failure" *)
Definition leading_www_stripped (host : string) : string :=
  if String.prefix "www." host
  then String.substring 4 (String.length host - 4) host
  else host.

Definition extract_domain (urlparse_netloc : string → option string)
    (url : string) : string :=
  match urlparse_netloc url with
  | Some netloc => leading_www_stripped (Py.lower netloc)
  | None => EmptyString
  end.

(** "strategy i fails (error, empty result, or failed validation)":
    whatever the state of the extractor object, the call raises, returns
    nothing, or returns a text the acceptance gate refuses (the gate refuses
    the empty text). *)
Definition fails (langdetect_detect : string → option string) (url : string)
    (x : string * Extractor.strategy) : Prop :=
  ∀ st, match fst (snd x url st) with
        | Extractor.Raised _ => True
        | Extractor.Returned None => True
        | Extractor.Returned (Some text) =>
            fst (fst (Validator.validate_extraction_result
                        langdetect_detect text url (fst x))) = false
        end.

(** "strategy i+1 returns content that passes validate_extraction_result" *)
Definition succeeds (langdetect_detect : string → option string) (url : string)
    (x : string * Extractor.strategy) : Prop :=
  ∀ st, ∃ text,
    fst (snd x url st) = Extractor.Returned (Some text) ∧
    fst (fst (Validator.validate_extraction_result
                langdetect_detect text url (fst x))) = true.

(** "normalized word-set": the words of the lowercased text. *)
Definition word_set (text : string) : gset string :=
  list_to_set (Py.split (Py.lower text)).

(** The word-set the heuristic de-duplication compares: punctuation is
    dropped as well. *)
Definition plain_word_set (text : string) : gset string :=
  list_to_set (Py.split (ClaimExtractor.strip_punct (Py.lower text))).

(** "Jaccard similarity: intersection size over union size of two
    word-sets"; 0 for two empty sets, as nothing is shared. *)
Definition jaccard_index (a b : gset string) : Q :=
  if decide (size (a ∪ b) = 0) then 0%Q
  else (inject_Z (Z.of_nat (size (a ∩ b))) / inject_Z (Z.of_nat (size (a ∪ b))))%Q.

(** "its normalized word-set has Jaccard similarity >0.6 with ..." *)
Definition similar_claims (c1 c2 : Claim) : bool :=
  Qlt_bool 0.6 (jaccard_index (word_set (claim c1)) (word_set (claim c2))).

(** "exact normalized-description string equality" *)
Definition normalized (text : string) : string :=
  Py.join " " (Py.split (Py.lower text)).

Definition same_description (f1 f2 : RedFlag) : bool :=
  String.eqb (normalized (description f1)) (normalized (description f2)).

(** "iterate in that order, keep [an item] unless [it collides] with any
    already-kept [item] (first-seen wins)" *)
Fixpoint keep_first_seen {A : Type} (collides : A → A → bool)
    (kept : list A) (l : list A) : list A :=
  match l with
  | [] => kept
  | x :: l' =>
      if existsb (collides x) kept
      then keep_first_seen collides kept l'
      else keep_first_seen collides (kept ++ [x]) l'
  end.

(** "severity rank high=3/medium=2/low=1" *)
Definition severity_rank (s : SeverityLevel) : nat :=
  match s with HIGH => 3 | MEDIUM => 2 | LOW => 1 end.

(** "sort by (severity rank, confidence) descending": no flag is followed
    by one that ranks strictly higher. *)
Definition flag_precedes (f1 f2 : RedFlag) : Prop :=
  severity_rank (severity f2) < severity_rank (severity f1) ∨
  (severity_rank (severity f2) = severity_rank (severity f1) ∧
   (flag_confidence f2 <= flag_confidence f1)%Q).

(** "no claims of L are merged with each other": no item collides with an
    earlier item of the list. *)
Fixpoint no_collision {A : Type} (collides : A → A → bool) (l : list A) : Prop :=
  match l with
  | [] => True
  | x :: l' => Forall (fun y => collides y x = false) l' ∧ no_collision collides l'
  end.

End Spec.

(** ** Vocabulary of the proofs *)

(** A word: a non-empty text without whitespace. *)
Inductive spaceless : string → Prop :=
| spaceless_nil : spaceless EmptyString
| spaceless_cons c w : Py.is_space c = false → spaceless w → spaceless (String c w).

Definition is_word (w : string) : Prop := Py.truthy w = true ∧ spaceless w.

(** The shape the two claim loops share: [key] is the simplified text of
    an item, [similar] the test against each text seen so far. *)
Definition first_seen_step {A : Type} (key : A → string)
    (similar : string → string → bool)
    (acc : list A * gset string) (x : A) : list A * gset string :=
  let '(unique, seen) := acc in
  if negb (existsb (similar (key x)) (elements seen))
  then (unique ++ [x], seen ∪ {[ key x ]})
  else (unique, seen).

(** No stage recorded in the log raised. *)
Definition quiet (log : list Orchestrator.event) : Prop :=
  Forall (fun ev => snd ev = None) log.

(** A computation of the pipeline keeps its log truthful: started on a
    quiet log it ends on a quiet log when it returns, and when it raises
    the exception is the one recorded last, after a quiet log. *)
Definition logs_failures {A : Type} (m : Orchestrator.Pipe A) : Prop :=
  ∀ st log, quiet log →
    match m st log with
    | (Return _, _, log') => quiet log'
    | (Raise e, _, log') => ∃ s l, log' = l ++ [(s, Some e)] ∧ quiet l
    end.

(** The exception of the last attempt that raised, starting from
    [last_error]. *)
Definition last_error_of (last_error : option exn)
    (log : list (string * Extractor.attempt)) : option exn :=
  fold_left (fun acc a => match snd a with
                          | Extractor.Errored e => Some e
                          | _ => acc
                          end) log last_error.

(** What a computation of the pipeline guarantees of the value it returns,
    when it returns. *)
Definition ensures {A : Type} (m : Orchestrator.Pipe A) (P : A → Prop) : Prop :=
  ∀ st log, match m st log with
            | (Return a, _, _) => P a
            | (Raise _, _, _) => True
            end.

(** The caps and ranges of a finished analysis. *)
Definition within_caps (r : AnalysisResult) : Prop :=
  length (core_claims r) ≤ 8 ∧ length (red_flags r) ≤ 10 ∧
  length (bias_indicators (language_analysis r)) ≤ 15 ∧
  length (loaded_language (language_analysis r)) ≤ 15 ∧
  length (emotional_words (language_analysis r)) ≤ 15 ∧
  length (persuasive_techniques (language_analysis r)) ≤ 10 ∧
  (0 <= bias_confidence r)%Q ∧ (bias_confidence r <= 1)%Q ∧
  (0 <= overall_credibility r)%Q ∧ (overall_credibility r <= 1)%Q ∧
  (0.3 <= quality_score (article r))%Q ∧ (quality_score (article r) <= 0.9)%Q.

(** What was not asked for is absent. *)
Definition honours (request : AnalysisRequest) (r : AnalysisResult) : Prop :=
  (include_entity_analysis request = false → entities r = []) ∧
  (include_source_check request = false → source_metrics r = None) ∧
  (include_counter_narrative request = false → counter_narrative r = None).

(** The items of a list, each once, in the order of their first
    occurrence. *)
Fixpoint first_occurrences (l : list string) : list string :=
  match l with
  | [] => []
  | x :: l' => x :: List.filter (fun y => negb (String.eqb y x)) (first_occurrences l')
  end.

(** One merged list of the language analysis, exactly: the AI list, then
    the heuristic items that are not in it, each once, in the order of their
    first occurrence in the heuristic list; the whole cut at [cap]. *)
Definition ai_then_missing (cap : nat) (ai_list traditional_list : list string)
  : list string :=
  take cap (ai_list ++
            first_occurrences
              (List.filter (fun x => negb (bool_decide (x ∈ ai_list)))
                           traditional_list)).

(** Two heuristic claims that [_deduplicate_claims] takes for the same. *)
Definition restates (c1 c2 : Claim) : bool :=
  ClaimExtractor._claims_similar (ClaimExtractor.simplify (claim c1))
                                 (ClaimExtractor.simplify (claim c2)).

(** [f"{title}\n{content}" if title else content] *)
Definition full_text (content : string) (title : option string) : string :=
  match title with
  | Some t => if Py.truthy t then t +:+ String Py.nl content else content
  | None => content
  end.

(** Characters that are no sentence terminator, no capital, no digit. *)
Definition not_terminator (c : ascii) : bool := negb (ClaimExtractor.is_terminator c).
Definition not_upper (c : ascii) : bool := negb (Rx.is_upper c).
Definition not_digit (c : ascii) : bool := negb (Rx.is_digit c).

(** A character of the ASCII range. *)
Definition is_ascii (c : ascii) : bool := nat_of_ascii c <? 128.

(** Every character of a text passes a test. *)
Fixpoint string_all (P : ascii → bool) (s : string) : bool :=
  match s with
  | EmptyString => true
  | String c s' => P c && string_all P s'
  end.

(** A character that is not whitespace, or is the plain space. *)
Definition plain (c : ascii) : bool :=
  negb (Py.is_space c) || Ascii.eqb c " "%char.

(** A character [str.lower] leaves alone. *)
Definition is_lowered (c : ascii) : bool := Ascii.eqb (Py.lower_char c) c.

(** ** Sample inputs *)

Module Samples.

(** A reading of [urlparse(url).netloc] for URLs of the shape
    [scheme://netloc/path]: the text between the first [//] that follows the
    scheme and the next [/], [?] or [#].  A netloc with one square bracket
    but not the other is the [ValueError] case. *)
Fixpoint until_delim (s : string) : string :=
  match s with
  | EmptyString => EmptyString
  | String c s' =>
      if Ascii.eqb c "/"%char || Ascii.eqb c "?"%char || Ascii.eqb c "#"%char
      then EmptyString
      else String c (until_delim s')
  end.

Fixpoint after_scheme (s : string) : string :=
  match s with
  | EmptyString => EmptyString
  | String c s' => if Ascii.eqb c ":"%char then s' else after_scheme s'
  end.

Definition urlparse_netloc (url : string) : option string :=
  let rest := if Py.contains ":" url then after_scheme url else url in
  match rest with
  | String "/" (String "/" tail) =>
      let netloc := until_delim tail in
      if xorb (Py.contains "[" netloc) (Py.contains "]" netloc)
      then None
      else Some netloc
  | _ => Some EmptyString
  end.

(** Every text is taken to be English, every URL to be well formed. *)
Definition detect_en (content : string) : option string := Some "en".
Definition any_url (url : string) : bool := true.

(** An article of four paragraphs of three sentences each, every sentence
    closed by [stop]. *)
Definition paragraph (stop : string) : string :=
  "The mayor said the bridge will open next spring" +:+ stop +:+
  " Two engineers from the county checked every cable" +:+ stop +:+
  " Nobody at the meeting objected to the final plan" +:+ stop.

Definition article (stop : string) : string :=
  paragraph stop +:+ Validator.NLNL +:+ paragraph stop +:+ Validator.NLNL +:+
  paragraph stop +:+ Validator.NLNL +:+ paragraph stop.

Definition good_article : string := article ".".
Definition bang_article : string := article "!".

Definition sentence : string :=
  "The council met on Monday and agreed that the new bridge would open to the public early next spring.".

(** Ten sentences of exactly one hundred characters each. *)
Definition ten_sentences : string := Py.repeat sentence 10.

(** Mocked strategies: they leave the extractor object alone. *)
Definition returning (text : string) : Extractor.strategy :=
  fun _ st => (Extractor.Returned (Some text), st).

Definition returning_nothing : Extractor.strategy :=
  fun _ st => (Extractor.Returned None, st).

Definition raising (msg : string) : Extractor.strategy :=
  fun _ st => (Extractor.Raised (Exception msg), st).

(** The newspaper3k back end on a page it parses: it returns the text and
    leaves the parsed article on the extractor object. *)
Definition newspaper (text : string) : Extractor.strategy :=
  fun _ _ => (Extractor.Returned (Some text),
              Some {| Extractor.np_title := "Bridge to open in spring";
                      Extractor.np_authors := ["A. Writer"; "B. Editor"];
                      Extractor.np_publish_date := Some "2024-03-01T00:00:00" |}).

(** A chain in which newspaper3k is the first to succeed. *)
Definition newspaper_chain : list (string * Extractor.strategy) :=
  Extractor.extractors_of returning_nothing (newspaper good_article)
    (returning good_article) (raising "no browser") returning_nothing.

(** A strategy that times out, one that returns blanks, one that returns an
    article, and two more that would return one as well. *)
Definition chain : list (string * Extractor.strategy) :=
  Extractor.extractors_of (raising "timed out") (returning "   ")
    (returning good_article) (returning good_article) (returning bang_article).


(** Claims as the heuristic extractor and the AI parser build them. *)
Definition heuristic_claim (text : string) (confidence : Q) : Claim :=
  {| claim := text; evidence_quality := WEAK; verifiable := true;
     context := Some text; confidence := confidence |}.

Definition ai_claim (text : string) (confidence : Q) : Claim :=
  {| claim := text; evidence_quality := MODERATE; verifiable := false;
     context := None; confidence := confidence |}.

(** Eight words; then sentences sharing seven, six and eight of them, each
    pair with ten words in all. *)
Definition claim_base : Claim :=
  heuristic_claim "The mayor said taxes rose twelve percent yesterday" 0.6.
Definition claim_seven : Claim :=
  heuristic_claim "The mayor said taxes rose twelve percent last week" 0.5.
Definition claim_six : Claim :=
  heuristic_claim "The mayor said taxes rose twelve points overall" 0.5.
Definition claim_eight : Claim :=
  heuristic_claim "The mayor said: taxes rose twelve percent yesterday, again; twice!" 0.5.

(** Nine claims of one word each, no two alike. *)
Definition nine_claims : list Claim :=
  [ ai_claim "one" 0.9; ai_claim "two" 0.8; ai_claim "three" 0.7;
    ai_claim "four" 0.6; ai_claim "five" 0.5; ai_claim "six" 0.4;
    ai_claim "seven" 0.3; ai_claim "eight" 0.2; ai_claim "nine" 0.1 ].

(** The AI parser fills a missing claim text with the empty string. *)
Definition blank_claim : Claim := ai_claim EmptyString 0.

(** [n] flags of one severity, numbered so that no two descriptions are
    alike. *)
Definition numbered_flags (source : string) (level : SeverityLevel)
    (confidence : Q) (n : nat) : list RedFlag :=
  (fun k => {| type := SOURCE_BIAS;
               description := source +:+ " finding " +:+
                              NilEmpty.string_of_uint (Nat.to_uint k);
               severity := level;
               evidence := None;
               flag_confidence := confidence |}) <$> seq 1 n.

(** Collaborators of the orchestrator that always answer. *)
Definition no_metadata (url : string) : raised Scraper.Metadata :=
  Return {| Scraper.md_title := Some "Bridge to open in spring";
            Scraper.md_author := None;
            Scraper.md_publication_date := None |}.
Definition no_entities (content : string) (title : option string)
  : raised (list Entity) := Return [].
Definition no_metrics (domain url : string) : raised (option SourceMetrics) :=
  Return None.
Definition one_claim (content : string) (title : option string)
  : raised (list Claim) := Return [claim_base].
Definition neutral_language (content : string) (title : option string)
  : raised LanguageAnalysis :=
  Return {| tone := NEUTRAL; bias_indicators := []; loaded_language := [];
            emotional_words := []; persuasive_techniques := [] |}.
Definition no_flags (content : string) : raised (list RedFlag) := Return [].
Definition ai_answer (article : ArticleContent) (url : string) : raised unit :=
  Return tt.
Definition ai_parsed (credibility : Q) (data : unit) : raised Orchestrator.ParsedAI :=
  Return {| Orchestrator.ai_claims := [claim_seven];
            Orchestrator.ai_language_analysis :=
              {| tone := PERSUASIVE; bias_indicators := ["always"];
                 loaded_language := []; emotional_words := [];
                 persuasive_techniques := [] |};
            Orchestrator.ai_red_flags := numbered_flags "model" HIGH 0.6 1;
            Orchestrator.ai_verification_questions := [];
            Orchestrator.ai_bias_confidence := 0.4;
            Orchestrator.ai_overall_credibility := credibility |}.
Definition no_questions (claims : list Claim) (entities : list Entity)
    (content domain : string) : raised (list VerificationQuestion) := Return [].
Definition no_counter_narrative (r : AnalysisResult)
  : raised (option CounterNarrative) := Return None.
Definition short_report (r : AnalysisResult) : raised string :=
  Return "# Critical Analysis Report".

Definition request (url : string) : AnalysisRequest :=
  {| req_url := url; include_counter_narrative := true;
     include_entity_analysis := true; include_source_check := true |}.

(** A console that takes every text, and one whose encoding is ASCII (the
    text of its exception is abbreviated). *)
Definition utf8_console (text : string) : raised unit := Return tt.


(** Two readings of the clock: the first, and every later one. *)
Definition clock (start_time end_time : Q) (k : nat) : Q :=
  match k with 0 => start_time | S _ => end_time end.

(** A number of hundredths as [f"{x:.2f}"] writes it. *)
Definition format_2f (x : Q) : string :=
  let hundredths := Float.nearest_even (100 * Z.abs (Qnum x)) (Zpos (Qden x)) in
  let digits (n : Z) := NilEmpty.string_of_uint (Nat.to_uint (Z.to_nat n)) in
  let cents := (hundredths mod 100)%Z in
  (if (Qnum x <? 0)%Z then "-" else EmptyString) +:+
  (if (hundredths <? 100)%Z then "0" else digits (hundredths / 100)%Z) +:+ "." +:+
  (if (cents <? 10)%Z then "0" else EmptyString) +:+
  (if (cents =? 0)%Z then "0" else digits cents).

(** The pipeline over a chain of strategies, with an AI answer of the given
    credibility, writing to the given console. *)
Definition analyze_on (console : string → raised unit)
    (extractors : list (string * Extractor.strategy))
    (credibility : Q) (start_time end_time : Q)
  : raised AnalysisResponse * Extractor.state * list Orchestrator.event :=
  Orchestrator.analyze_article unit detect_en any_url urlparse_netloc extractors
    no_metadata no_entities no_metrics one_claim neutral_language no_flags
    ai_answer (ai_parsed credibility) no_questions no_counter_narrative
    short_report console format_2f (request "https://www.example.com/story")
    (clock start_time end_time) None.

Definition analyze := analyze_on utf8_console.

(** A short report, as the claim extractor reads it. *)
Definition report : string :=
  "However, according to officials 45% of voters stayed at home during the vote. " +:+
  "See https://example.com/turnout for details and the complete tables!  " +:+
  "The mayor believes the weather was to blame?! Short one. " +:+
  "ACCORDING to officials 45% of voters stayed at home during that vote. " +:+
  "Allegedly the county has counted 1200 ballots twice in March".

End Samples.

(** * Properties *)

Example lower_mixed : Py.lower "Hello, World 42!" = "hello, world 42!".
Proof. reflexivity. Qed.

Example split_runs :
  Py.split (String Py.nl "  the quick" +:+ String Py.nl "brown  fox ") =
  ["the"; "quick"; "brown"; "fox"].
Proof. reflexivity. Qed.

Example count_non_overlapping : Py.count "aaaa" "aa" = 2.
Proof. reflexivity. Qed.

Example replace_everywhere : Py.replace "www.a.www.b" "www." Py.empty = "a.b".
Proof. reflexivity. Qed.

Example strip_both : Py.strip "  a b  " = "a b".
Proof. reflexivity. Qed.

Example netloc_simple :
  Samples.urlparse_netloc "https://WWW.Example.com:8080/a/b?q=1" = Some "WWW.Example.com:8080".
Proof. reflexivity. Qed.

Example netloc_bad_bracket : Samples.urlparse_netloc "http://[::1/a" = None.
Proof. reflexivity. Qed.

Example sample_sizes :
  String.length Samples.sentence = 100 ∧
  String.length Samples.good_article = 602 ∧
  String.length Samples.bang_article = 602 ∧
  String.length Samples.ten_sentences = 1000.
Proof. vm_compute. auto. Qed.

(** ** The article test *)

Lemma truthy_length (s : string) : Py.truthy s = false → String.length s = 0.
Proof. destruct s; simpl; [reflexivity | discriminate]. Qed.

(** What [is_article_content] decides: length, blank-line count, full-stop
    count and the absence of the blocked phrases. *)
Lemma is_article_content_iff (content : string) :
  Validator.is_article_content content = true ↔
  500 ≤ String.length content ∧
  3 ≤ Py.count content Validator.NLNL ∧
  5 ≤ Py.count content "." ∧
  Forall (fun indicator => Py.contains indicator (Py.lower content) = false)
         Validator.non_article_indicators.
Proof.
  unfold Validator.is_article_content, Validator.MIN_CONTENT_LENGTH,
    Validator.MIN_PARAGRAPHS.
  destruct (Py.truthy content) eqn:Ht; cbn [negb orb].
  - destruct (Nat.ltb_spec (String.length content) 500) as [Hlt | Hge].
    + split; [discriminate | lia].
    + rewrite !andb_true_iff, negb_true_iff, !Nat.leb_le.
      rewrite <- not_true_iff_false, existsb_exists, Forall_forall.
      split.
      * intros [[Hp Hs] Hn]. repeat split; try assumption.
        intros x Hx%list_elem_of_In. apply not_true_iff_false.
        intros Hc. apply Hn. eauto.
      * intros (_ & Hp & Hs & Hn). repeat split; try assumption.
        intros (x & Hx%list_elem_of_In & Hc). apply Hn in Hx. congruence.
  - apply truthy_length in Ht. split; [discriminate | lia].
Qed.

(** C4. [is_article_content] counts full stops only: a text of 602
    characters with three blank lines, twelve sentences that end in [!] and
    none of the blocked phrases is not accepted as an article, although it
    has twelve sentence terminators as [calculate_content_quality] counts
    them. *)
Theorem is_article_content_counts_full_stops_only :
  Validator.is_article_content Samples.bang_article = false ∧
  500 ≤ String.length Samples.bang_article ∧
  3 ≤ Py.count Samples.bang_article Validator.NLNL ∧
  5 ≤ Validator.sentence_count Samples.bang_article ∧
  Py.count Samples.bang_article "." = 0 ∧
  Forall (fun indicator =>
            Py.contains indicator (Py.lower Samples.bang_article) = false)
         Validator.non_article_indicators.
Proof.
  split; [vm_compute; reflexivity |].
  split; [vm_compute; lia |].
  split; [vm_compute; lia |].
  split; [vm_compute; lia |].
  split; [vm_compute; reflexivity |].
  unfold Validator.non_article_indicators.
  repeat (constructor; [vm_compute; reflexivity |]).
  constructor.
Qed.

(** The same text with full stops is accepted. *)
Example good_article_accepted :
  Validator.is_article_content Samples.good_article = true.
Proof. vm_compute. reflexivity. Qed.

(** ** The domain of a URL *)

Section ExtractDomain.

Variable urlparse_netloc : string → option string.

(** A URL that does not parse gives the empty string. *)
Lemma extract_domain_parse_failure (url : string) :
  urlparse_netloc url = None →
  Validator.extract_domain urlparse_netloc url = EmptyString.
Proof. unfold Validator.extract_domain. intros ->. reflexivity. Qed.

(** Otherwise every occurrence of [www.] is removed from the lowercased
    netloc. *)
Lemma extract_domain_parsed (url netloc : string) :
  urlparse_netloc url = Some netloc →
  Validator.extract_domain urlparse_netloc url =
  Py.replace (Py.lower netloc) "www." EmptyString.
Proof. unfold Validator.extract_domain. intros ->. reflexivity. Qed.

End ExtractDomain.

Example extract_domain_plain :
  Validator.extract_domain Samples.urlparse_netloc "https://WWW.Example.com/a" =
  "example.com" ∧
  Spec.extract_domain Samples.urlparse_netloc "https://WWW.Example.com/a" =
  "example.com".
Proof. vm_compute. auto. Qed.

Example extract_domain_unparsable :
  Validator.extract_domain Samples.urlparse_netloc "http://[::1/a" = EmptyString.
Proof. reflexivity. Qed.

(** C9. [extract_domain] removes [www.] wherever it occurs in the netloc,
    not only at its start: for [https://www.mywww.com/news] it returns
    [mycom], where stripping the leading prefix alone gives [mywww.com]. *)
Theorem extract_domain_removes_inner_www :
  Samples.urlparse_netloc "https://www.mywww.com/news" = Some "www.mywww.com" ∧
  Validator.extract_domain Samples.urlparse_netloc "https://www.mywww.com/news" =
  "mycom" ∧
  Spec.extract_domain Samples.urlparse_netloc "https://www.mywww.com/news" =
  "mywww.com".
Proof. vm_compute. auto. Qed.

(** ** The acceptance gate *)

Section Gate.

Variable langdetect_detect : string → option string.

Lemma Qlt_bool_false (x y : Q) : Qlt_bool x y = false → (y <= x)%Q.
Proof.
  unfold Qlt_bool. rewrite negb_false_iff. apply Qle_bool_imp_le.
Qed.

Lemma Qlt_bool_true (x y : Q) : Qlt_bool x y = true → (x < y)%Q.
Proof.
  unfold Qlt_bool. rewrite negb_true_iff. intros H.
  apply Qnot_le_lt. intros Hle. apply Qle_bool_iff in Hle. congruence.
Qed.

Lemma calculate_content_quality_le_1 (content : string) (title : option string) :
  (Validator.calculate_content_quality langdetect_detect content title <= 1)%Q.
Proof.
  unfold Validator.calculate_content_quality.
  destruct (negb (Py.truthy content)); [discriminate | apply Q.le_min_l].
Qed.

(** An accepted text is an article and its score, the third component, is
    the computed quality and lies between 0.3 and 1. *)
Lemma validate_extraction_result_accepts (content url method : string)
    (why : Validator.reason) (quality_score : Q) :
  Validator.validate_extraction_result langdetect_detect content url method =
    (true, why, quality_score) →
  Validator.is_article_content content = true ∧
  quality_score = Validator.calculate_content_quality langdetect_detect content None ∧
  (0.3 <= quality_score)%Q ∧ (quality_score <= 1)%Q.
Proof.
  unfold Validator.validate_extraction_result.
  destruct (negb (Py.truthy content)); [discriminate |].
  destruct (Validator.is_article_content content); simpl; [| discriminate].
  destruct (Qlt_bool _ 0.3) eqn:Hq; [discriminate |].
  intros [= <- <-]. repeat split.
  - apply Qlt_bool_false, Hq.
  - apply calculate_content_quality_le_1.
Qed.

End Gate.

(** ** The extraction chain *)

Section Chain.

Variable langdetect_detect : string → option string.

Local Abbreviation try_extractors := (Extractor.try_extractors langdetect_detect).
Local Abbreviation validate := (Validator.validate_extraction_result langdetect_detect).

Lemma validate_true_truthy (content url method : string) :
  fst (fst (validate content url method)) = true → Py.truthy content = true.
Proof.
  unfold Validator.validate_extraction_result.
  destruct (Py.truthy content); [reflexivity | discriminate].
Qed.

(** One turn of the loop, by what became of the strategy. *)
Lemma try_extractors_cons (url domain method_name : string)
    (extractor : Extractor.strategy) rest last_error st log :
  (∃ art st1,
      try_extractors url domain ((method_name, extractor) :: rest) last_error st log =
        (Return art, st1, log ++ [(method_name, Extractor.Accepted)]) ∧
      extraction_method art = method_name ∧
      ∃ text why,
        extractor url st = (Extractor.Returned (Some text), st1) ∧
        validate text url method_name = (true, why, quality_score art)) ∨
  (∃ a st1 last_error',
      Extractor.failed a = true ∧
      try_extractors url domain ((method_name, extractor) :: rest) last_error st log =
        try_extractors url domain rest last_error' st1 (log ++ [(method_name, a)]) ∧
      match fst (extractor url st) with
      | Extractor.Returned (Some text) =>
          fst (fst (validate text url method_name)) = false
      | _ => True
      end).
Proof.
  simpl. destruct (extractor url st) as [[e | [text |]] st1] eqn:Hcall; simpl.
  - right. exists (Extractor.Errored e), st1, (Some e). auto.
  - destruct (Py.truthy text) eqn:Ht.
    + destruct (validate text url method_name) as [[[] why] q] eqn:Hv.
      * left. eexists _, st1. split; [reflexivity |]. simpl. split; [reflexivity |].
        exists text, why. auto.
      * right. exists (Extractor.Rejected why), st1, last_error. auto.
    + right. exists Extractor.NoContent, st1, last_error. repeat split; auto.
      unfold Validator.validate_extraction_result. rewrite Ht. reflexivity.
  - right. exists Extractor.NoContent, st1, last_error. auto.
Qed.


(** An accepted article carries the score the gate computed, and that score
    is at least 0.3 and at most 1. *)
Lemma try_extractors_quality (url domain : string) extractors :
  ∀ last_error st log art st' log',
    try_extractors url domain extractors last_error st log = (Return art, st', log') →
    (0.3 <= quality_score art)%Q ∧ (quality_score art <= 1)%Q.
Proof.
  induction extractors as [| [method_name extractor] rest IH];
    intros last_error st log art st' log' Hrun.
  - discriminate.
  - destruct (try_extractors_cons url domain method_name extractor rest
                last_error st log)
      as [(art1 & st1 & Heq & _ & text & why & _ & Hv)
         | (a & st1 & le' & _ & Heq & _)];
      rewrite Heq in Hrun.
    + injection Hrun as <- _ _.
      apply validate_extraction_result_accepts in Hv. tauto.
    + eapply IH, Hrun.
Qed.



End Chain.

Section ChainFailures.

Variable langdetect_detect : string → option string.
Variable validators_url : string → bool.
Variable urlparse_netloc : string → option string.

Local Abbreviation try_extractors := (Extractor.try_extractors langdetect_detect).
Local Abbreviation validate := (Validator.validate_extraction_result langdetect_detect).
Local Abbreviation extract_content :=
  (Extractor.extract_content langdetect_detect validators_url urlparse_netloc).

(** Strategies that fail are passed over, each leaving a failed attempt. *)
Lemma try_extractors_skip_failures (url domain : string) pre :
  ∀ rest last_error st log,
    Forall (Spec.fails langdetect_detect url) pre →
    ∃ last_error' st' attempts,
      try_extractors url domain (pre ++ rest) last_error st log =
        try_extractors url domain rest last_error' st' (log ++ attempts) ∧
      attempts.*1 = pre.*1 ∧
      Forall (fun a => Extractor.failed (snd a) = true) attempts.
Proof.
  induction pre as [| [method_name extractor] pre IH];
    intros rest last_error st log Hpre.
  - exists last_error, st, []. rewrite app_nil_r. auto.
  - apply Forall_cons in Hpre as [Hx Hpre]. simpl app.
    destruct (try_extractors_cons langdetect_detect url domain method_name
                extractor (pre ++ rest) last_error st log)
      as [(art1 & st1 & _ & _ & text & why & Hcall & Hv)
         | (a & st1 & le' & Ha & Heq & _)].
    + specialize (Hx st). simpl in Hx. rewrite Hcall in Hx. simpl in Hx.
      rewrite Hv in Hx. discriminate.
    + destruct (IH rest le' st1 (log ++ [(method_name, a)]) Hpre)
        as (le2 & st2 & attempts & Heq2 & Hnames & Hall).
      exists le2, st2, ((method_name, a) :: attempts).
      rewrite Heq, Heq2, <- app_assoc. simpl. repeat split.
      * f_equal. exact Hnames.
      * constructor; assumption.
Qed.



End ChainFailures.

Section ChainClaims.

Variable langdetect_detect : string → option string.
Variable validators_url : string → bool.
Variable urlparse_netloc : string → option string.

Local Abbreviation extract_content :=
  (Extractor.extract_content langdetect_detect validators_url urlparse_netloc).


(** The same with the failures spelt out: on a URL that passes
    [validate_url], when each of the strategies [0..i] fails and strategy
    [i+1] succeeds, the article comes from strategy [i+1]. *)
Corollary extract_content_after_failures
    (extractors : list (string * Extractor.strategy)) (url : string)
    (st : Extractor.state) (i : nat) (x : string * Extractor.strategy) :
  Validator.validate_url validators_url url = true →
  Forall (Spec.fails langdetect_detect url) (take (S i) extractors) →
  extractors !! S i = Some x →
  Spec.succeeds langdetect_detect url x →
  ∃ art st' log,
    extract_content extractors url st = (Return art, st', log) ∧
    extraction_method art = fst x ∧
    log.*1 = (take (S (S i)) extractors).*1.
Proof.
  intros Hurl Hpre Hx Hok. unfold Extractor.extract_content. rewrite Hurl. simpl.
  remember (Extractor.try_extractors langdetect_detect url
              (Validator.extract_domain urlparse_netloc url) extractors None st [])
    as run eqn:Hrun.
  rewrite <- (take_drop (S i) extractors) in Hrun.
  destruct (try_extractors_skip_failures langdetect_detect url
              (Validator.extract_domain urlparse_netloc url)
              (take (S i) extractors) (drop (S i) extractors) None st [] Hpre)
    as (le' & st1 & attempts & Heq & Hnames & _).
  rewrite Heq, (drop_S _ x (S i)) in Hrun by assumption. subst run.
  destruct x as [name_j strategy_j].
  destruct (try_extractors_cons langdetect_detect url
              (Validator.extract_domain urlparse_netloc url) name_j strategy_j
              (drop (S (S i)) extractors) le' st1 ([] ++ attempts))
    as [(art & st2 & -> & Hm & _) | (a & st2 & le2 & _ & _ & Hno)].
  - exists art, st2, (([] ++ attempts) ++ [(name_j, Extractor.Accepted)]).
    repeat split; [assumption |].
    rewrite fmap_app, app_nil_l, Hnames. simpl.
    rewrite (take_S_r extractors (S i) (name_j, strategy_j)) by assumption.
    rewrite fmap_app. reflexivity.
  - destruct (Hok st1) as (text & Hcall & Hv). simpl in Hcall, Hv.
    rewrite Hcall in Hno. congruence.
Qed.

(** C10. Every article the chain returns has a quality score between 0.3
    and 1: the score stored is the one the gate computed, and the gate
    refuses a score below 0.3. *)
Theorem extract_content_quality_score_range
    (extractors : list (string * Extractor.strategy)) (url : string)
    (st st' : Extractor.state) (art : ArticleContent)
    (log : list (string * Extractor.attempt)) :
  extract_content extractors url st = (Return art, st', log) →
  (0.3 <= quality_score art)%Q ∧ (quality_score art <= 1)%Q.
Proof.
  unfold Extractor.extract_content. destruct (negb _); [discriminate |].
  intros Hrun. eapply try_extractors_quality, Hrun.
Qed.

End ChainClaims.


Lemma extract_content_quality_score_range_witness :
  ∃ art st' log,
    Extractor.extract_content Samples.detect_en Samples.any_url
      Samples.urlparse_netloc Samples.chain
      "https://www.example.com/story" None = (Return art, st', log) ∧
    (0.3 <= quality_score art)%Q ∧ (quality_score art <= 1)%Q.
Proof.
  destruct (Extractor.extract_content Samples.detect_en Samples.any_url
              Samples.urlparse_netloc Samples.chain
              "https://www.example.com/story" None) as [[res st'] log] eqn:Hrun.
  assert (Hret : ∃ art, res = Return art).
  { vm_compute in Hrun. injection Hrun as <- _ _. eexists. reflexivity. }
  destruct Hret as [art ->].
  exists art, st', log. split; [reflexivity |].
  exact (extract_content_quality_score_range Samples.detect_en Samples.any_url
           Samples.urlparse_netloc Samples.chain
           "https://www.example.com/story" None st' art log Hrun).
Defined.

(** ** Counting under extension *)

Lemma prefix_empty (s : string) : String.prefix EmptyString s = true.
Proof. destruct s; reflexivity. Qed.

Lemma prefix_app (sub s t : string) :
  String.prefix sub s = true → String.prefix sub (s +:+ t) = true.
Proof.
  revert sub. induction s as [| c s IH]; intros [| a sub] H;
    try apply prefix_empty; try discriminate.
  change (String c s +:+ t) with (String c (s +:+ t)). simpl in *.
  destruct (ascii_dec a c); [auto | discriminate].
Qed.

Lemma prefix_length (sub s : string) :
  String.prefix sub s = true → String.length sub ≤ String.length s.
Proof.
  revert sub. induction s as [| c s IH]; intros [| a sub] H; simpl in *;
    try lia; try discriminate.
  destruct (ascii_dec a c); [| discriminate]. apply IH in H. lia.
Qed.

(** A text that is at least as long as [sub] decides by itself whether
    [sub] is a prefix of any of its extensions. *)
Lemma prefix_app_long (sub s t : string) :
  String.length sub ≤ String.length s →
  String.prefix sub (s +:+ t) = String.prefix sub s.
Proof.
  revert sub. induction s as [| c s IH]; intros [| a sub] Hlen; simpl in Hlen;
    try (rewrite !prefix_empty; reflexivity); try lia.
  change (String c s +:+ t) with (String c (s +:+ t)). simpl.
  destruct (ascii_dec a c); [apply IH; lia | reflexivity].
Qed.

Lemma count_from_short (sub s : string) (skip : nat) :
  String.length s < String.length sub → Py.count_from sub skip s = 0.
Proof.
  revert skip. induction s as [| c s IH]; intros skip Hlen; [reflexivity |].
  cbn [Py.count_from]. destruct skip as [| k].
  - destruct (String.prefix sub (String c s)) eqn:Hp.
    + apply prefix_length in Hp. lia.
    + apply IH. simpl in Hlen. lia.
  - apply IH. simpl in Hlen. lia.
Qed.

(** Appending text never lowers a count. *)
Lemma count_from_app (sub s t : string) (skip : nat) :
  Py.count_from sub skip s ≤ Py.count_from sub skip (s +:+ t).
Proof.
  revert skip. induction s as [| c s IH]; intros skip.
  - simpl. lia.
  - change (String c s +:+ t) with (String c (s +:+ t)).
    cbn [Py.count_from]. destruct skip as [| k]; [| apply IH].
    destruct (String.prefix sub (String c s)) eqn:Hp.
    + apply (prefix_app _ _ t) in Hp.
      change (String c s +:+ t) with (String c (s +:+ t)) in Hp.
      rewrite Hp. specialize (IH (String.length sub - 1)). lia.
    + destruct (String.prefix sub (String c (s +:+ t))) eqn:Hq; [| apply IH].
      rewrite count_from_short; [lia |].
      destruct (Nat.lt_ge_cases (String.length s) (String.length sub))
        as [Hlt | Hge]; [assumption | exfalso].
      change (String c (s +:+ t)) with (String c s +:+ t) in Hq.
      rewrite prefix_app_long in Hq by (simpl; lia). congruence.
Qed.

Lemma count_app (s t sub : string) :
  Py.truthy sub = true → Py.count s sub ≤ Py.count (s +:+ t) sub.
Proof.
  destruct sub; [discriminate | intros _]. apply count_from_app.
Qed.


(** ** The quality score *)

Lemma string_length_app (s t : string) :
  String.length (s +:+ t) = String.length s + String.length t.
Proof. induction s as [| c s IH]; simpl; [reflexivity | rewrite <- IH; reflexivity]. Qed.

Lemma truthy_app (s t : string) : Py.truthy s = true → Py.truthy (s +:+ t) = true.
Proof. destruct s; [discriminate | reflexivity]. Qed.

Lemma inject_nat_le (n m : nat) :
  n ≤ m → (inject_Z (Z.of_nat n) <= inject_Z (Z.of_nat m))%Q.
Proof. intros H. rewrite <- Zle_Qle. lia. Qed.

Lemma inject_nat_nonneg (n : nat) : (0 <= inject_Z (Z.of_nat n))%Q.
Proof. change 0%Q with (inject_Z 0). rewrite <- Zle_Qle. lia. Qed.

Lemma scaled_le (x y d : Q) :
  (0 < d)%Q → (x <= y)%Q → (x / d * 0.3 <= y / d * 0.3)%Q.
Proof.
  intros Hd Hxy. unfold Qdiv.
  apply Qmult_le_compat_r; [| lra].
  apply Qmult_le_compat_r; [assumption |].
  apply Qinv_le_0_compat. lra.
Qed.

Lemma scaled_nonneg (x d : Q) : (0 < d)%Q → (0 <= x)%Q → (0 <= x / d * 0.3)%Q.
Proof.
  intros Hd Hx. unfold Qdiv.
  apply Qmult_le_0_compat; [| lra].
  apply Qmult_le_0_compat; [assumption |].
  apply Qinv_le_0_compat. lra.
Qed.

Lemma length_score_nonneg (n : nat) : (0 <= Validator.length_score n)%Q.
Proof.
  unfold Validator.length_score. destruct (_ <=? _); [| lra].
  apply Q.min_glb; [lra |].
  apply scaled_nonneg; [lra | apply inject_nat_nonneg].
Qed.

Lemma length_score_mono (n m : nat) :
  n ≤ m → (Validator.length_score n <= Validator.length_score m)%Q.
Proof.
  intros H. unfold Validator.length_score, Validator.MIN_CONTENT_LENGTH.
  destruct (Nat.leb_spec 500 n) as [Hn | Hn].
  - destruct (Nat.leb_spec 500 m) as [Hm | Hm]; [| lia].
    apply Q.min_le_compat_l.
    apply scaled_le; [lra | apply inject_nat_le, H].
  - apply (length_score_nonneg m).
Qed.

Lemma paragraph_score_nonneg (n : nat) : (0 <= Validator.paragraph_score n)%Q.
Proof.
  unfold Validator.paragraph_score. destruct (_ <=? _); [| lra].
  apply Q.min_glb; [lra |].
  apply scaled_nonneg; [lra | apply inject_nat_nonneg].
Qed.

Lemma paragraph_score_mono (n m : nat) :
  n ≤ m → (Validator.paragraph_score n <= Validator.paragraph_score m)%Q.
Proof.
  intros H. unfold Validator.paragraph_score, Validator.MIN_PARAGRAPHS.
  destruct (Nat.leb_spec 3 n) as [Hn | Hn].
  - destruct (Nat.leb_spec 3 m) as [Hm | Hm]; [| lia].
    apply Q.min_le_compat_l.
    apply scaled_le; [lra | apply inject_nat_le, H].
  - apply (paragraph_score_nonneg m).
Qed.

Lemma paragraph_count_app (s t : string) :
  Validator.paragraph_count s ≤ Validator.paragraph_count (s +:+ t).
Proof.
  unfold Validator.paragraph_count.
  pose proof (count_app s t Validator.NLNL eq_refl).
  pose proof (count_app s t Validator.NL_SP_NL eq_refl). lia.
Qed.

Lemma sentence_score_nonneg (s : string) : (0 <= Validator.sentence_score s)%Q.
Proof. unfold Validator.sentence_score. destruct (_ && _); lra. Qed.

Lemma title_score_nonneg (t : option string) : (0 <= Validator.title_score t)%Q.
Proof. unfold Validator.title_score. destruct t; [destruct (_ && _) |]; lra. Qed.

Section Quality.

Variable langdetect_detect : string → option string.

Local Abbreviation quality := (Validator.calculate_content_quality langdetect_detect).
Local Abbreviation language_score := (Validator.language_score langdetect_detect).

Lemma language_score_nonneg (s : string) : (0 <= language_score s)%Q.
Proof.
  unfold Validator.language_score.
  destruct (langdetect_detect s); [destruct (_ =? _)%string |]; lra.
Qed.

Lemma calculate_content_quality_nonneg (content : string) (title : option string) :
  (0 <= quality content title)%Q.
Proof.
  unfold Validator.calculate_content_quality.
  destruct (negb _); [lra |]. apply Q.min_glb; [lra |].
  pose proof (length_score_nonneg (String.length content)).
  pose proof (paragraph_score_nonneg (Validator.paragraph_count content)).
  pose proof (sentence_score_nonneg content).
  pose proof (title_score_nonneg title).
  pose proof (language_score_nonneg content). lra.
Qed.

(** C8, as amended. The score never exceeds 1, and appending text does not
    lower it as long as the extension keeps the sentence-length bonus and
    the language bonus of the text it extends: the length and paragraph
    components never decrease, with or without the 10,000-character cap. *)
Theorem calculate_content_quality_extension
    (content more : string) (title : option string) :
  (quality content title <= 1)%Q ∧
  ((Validator.sentence_score content <=
      Validator.sentence_score (content +:+ more))%Q →
   (language_score content <= language_score (content +:+ more))%Q →
   (quality content title <= quality (content +:+ more) title)%Q).
Proof.
  split; [apply calculate_content_quality_le_1 |].
  intros Hs Hl.
  destruct (Py.truthy content) eqn:Ht.
  - unfold Validator.calculate_content_quality.
    rewrite Ht, (truthy_app _ more Ht). cbn [negb].
    apply Q.min_le_compat_l.
    pose proof (length_score_mono (String.length content)
                  (String.length (content +:+ more))) as Hlen.
    rewrite string_length_app in Hlen. specialize (Hlen ltac:(lia)).
    rewrite <- string_length_app in Hlen.
    pose proof (paragraph_score_mono _ _ (paragraph_count_app content more)).
    lra.
  - unfold Validator.calculate_content_quality at 1. rewrite Ht. cbn [negb].
    apply calculate_content_quality_nonneg.
Qed.

End Quality.

(** C8, counterexample. Ten sentences of one hundred characters score 0.33;
    one more letter takes the average sentence length to 100.1, the
    sentence bonus is lost and the score drops to 0.13003, well inside the
    10,000-character cap. *)
Lemma calculate_content_quality_not_monotone :
  String.length (Samples.ten_sentences +:+ "a") = 1001 ∧
  (Validator.calculate_content_quality Samples.detect_en
     (Samples.ten_sentences +:+ "a") None <
   Validator.calculate_content_quality Samples.detect_en
     Samples.ten_sentences None)%Q.
Proof.
  split; vm_compute; reflexivity.
Qed.

Lemma calculate_content_quality_extension_witness :
  (Validator.calculate_content_quality Samples.detect_en Samples.good_article None <=
   Validator.calculate_content_quality Samples.detect_en
     (Samples.good_article +:+ " More follows.") None)%Q.
Proof.
  apply (calculate_content_quality_extension Samples.detect_en
           Samples.good_article " More follows." None).
  - vm_compute. discriminate.
  - vm_compute. discriminate.
Defined.

(** ** Words *)

Lemma string_app_nil_r (s : string) : s +:+ EmptyString = s.
Proof. induction s as [| c s IH]; [reflexivity |]. change (String c s +:+ EmptyString) with (String c (s +:+ EmptyString)). rewrite IH. reflexivity. Qed.

Lemma string_app_assoc (s t u : string) : (s +:+ t) +:+ u = s +:+ (t +:+ u).
Proof.
  induction s as [| c s IH]; [reflexivity |].
  change (String c s +:+ t) with (String c (s +:+ t)).
  change (String c (s +:+ t) +:+ u) with (String c ((s +:+ t) +:+ u)).
  rewrite IH. reflexivity.
Qed.

Lemma truthy_app_r (s : string) (c : ascii) : Py.truthy (s +:+ String c EmptyString) = true.
Proof. destruct s; reflexivity. Qed.

Lemma spaceless_snoc (w : string) (c : ascii) :
  spaceless w → Py.is_space c = false → spaceless (w +:+ String c EmptyString).
Proof.
  induction 1 as [| c' w' Hc' _ IH]; intros Hc.
  - constructor; [assumption | constructor].
  - change (String c' w' +:+ String c EmptyString)
      with (String c' (w' +:+ String c EmptyString)).
    constructor; auto.
Qed.

(** [split] returns words. *)
Lemma split_go_words (s cur : string) :
  spaceless cur → Forall is_word (Py.split_go cur s).
Proof.
  revert cur. induction s as [| c s IH]; intros cur Hcur; simpl.
  - destruct (Py.truthy cur) eqn:Ht; constructor; [split; assumption | constructor].
  - destruct (Py.is_space c) eqn:Hc.
    + destruct (Py.truthy cur) eqn:Ht.
      * constructor; [split; assumption | apply IH; constructor].
      * apply IH. constructor.
    + apply IH, spaceless_snoc; assumption.
Qed.

Lemma split_words (s : string) : Forall is_word (Py.split s).
Proof. apply split_go_words. constructor. Qed.

(** Reading a word extends the word being read. *)
Lemma split_go_spaceless (w cur s : string) :
  spaceless w → Py.split_go cur (w +:+ s) = Py.split_go (cur +:+ w) s.
Proof.
  intros Hw. revert cur. induction Hw as [| c w Hc _ IH]; intros cur.
  - rewrite string_app_nil_r. reflexivity.
  - change (String c w +:+ s) with (String c (w +:+ s)).
    cbn [Py.split_go]. rewrite Hc, IH, string_app_assoc. reflexivity.
Qed.

(** Joining words with single spaces and splitting again gives them back. *)
Lemma split_join (l : list string) :
  Forall is_word l → Py.split (Py.join " " l) = l.
Proof.
  unfold Py.split, Py.join.
  induction 1 as [| w l [Ht Hw] Hl IH]; [reflexivity |].
  destruct l as [| w' l].
  - simpl. rewrite <- (string_app_nil_r w) at 1.
    rewrite split_go_spaceless by assumption.
    change (EmptyString +:+ w) with w. cbn [Py.split_go]. rewrite Ht. reflexivity.
  - change (String.concat " " (w :: w' :: l)) with (w +:+ " " +:+ String.concat " " (w' :: l)).
    rewrite split_go_spaceless by assumption.
    change (" " +:+ String.concat " " (w' :: l)) with (String " " (String.concat " " (w' :: l))).
    cbn [Py.split_go]. change (Py.is_space " ") with true. 
    change (EmptyString +:+ w) with w. rewrite Ht, IH. reflexivity.
Qed.

Lemma split_join_split (s : string) :
  Py.split (Py.join " " (Py.split s)) = Py.split s.
Proof. apply split_join, split_words. Qed.

(** ** Sorting in decreasing key order *)

Section SortedReverseFacts.

Context {A K : Type} (key : A → K) (ltb : K → K → bool).

Hypothesis ltb_asym : ∀ a b, ltb a b = true → ltb b a = false.
Hypothesis ltb_negtrans : ∀ a b c, ltb a b = false → ltb b c = false → ltb a c = false.

(** [x] may come before [y]: the key of [x] is not strictly smaller. *)
Local Abbreviation not_below := (fun x y : A => ltb (key x) (key y) = false).

Lemma insert_desc_perm (x : A) (l : list A) :
  insert_desc key ltb x l ≡ₚ x :: l.
Proof.
  induction l as [| y l IH]; simpl; [reflexivity |].
  destruct (ltb (key x) (key y)); [| reflexivity].
  rewrite IH. apply perm_swap.
Qed.

Lemma sorted_reverse_perm (l : list A) : sorted_reverse key ltb l ≡ₚ l.
Proof.
  induction l as [| x l IH]; simpl; [reflexivity |].
  rewrite insert_desc_perm, IH. reflexivity.
Qed.

Lemma sorted_reverse_length (l : list A) :
  length (sorted_reverse key ltb l) = length l.
Proof. apply Permutation_length, sorted_reverse_perm. Qed.

Lemma insert_desc_sorted (x : A) (l : list A) :
  StronglySorted not_below l → StronglySorted not_below (insert_desc key ltb x l).
Proof.
  induction 1 as [| y l Hl IH Hy]; simpl.
  - repeat constructor.
  - destruct (ltb (key x) (key y)) eqn:Hxy.
    + constructor; [assumption |].
      rewrite insert_desc_perm. constructor; [| assumption].
      apply ltb_asym, Hxy.
    + constructor; [constructor; assumption |].
      constructor; [assumption |].
      eapply Forall_impl; [exact Hy |]. intros z Hz.
      eapply ltb_negtrans; eassumption.
Qed.

Lemma sorted_reverse_sorted (l : list A) :
  StronglySorted not_below (sorted_reverse key ltb l).
Proof.
  induction l as [| x l IH]; simpl; [constructor | apply insert_desc_sorted, IH].
Qed.

(** Stability: the elements of a class whose members do not differ in key
    come out in the order they went in. *)
Lemma insert_desc_stable (same : A → bool) (x : A) (l : list A) :
  (∀ a b, same a = true → same b = true → ltb (key a) (key b) = false) →
  List.filter same (insert_desc key ltb x l) = List.filter same (x :: l).
Proof.
  intros Hsame. induction l as [| y l IH]; [reflexivity |].
  cbn [insert_desc]. destruct (ltb (key x) (key y)) eqn:Hxy; [| reflexivity].
  cbn [List.filter] in *. rewrite IH.
  destruct (same x) eqn:Hx; [| reflexivity].
  destruct (same y) eqn:Hy; [| reflexivity].
  rewrite Hsame in Hxy by assumption. discriminate.
Qed.

Lemma sorted_reverse_stable (same : A → bool) (l : list A) :
  (∀ a b, same a = true → same b = true → ltb (key a) (key b) = false) →
  List.filter same (sorted_reverse key ltb l) = List.filter same l.
Proof.
  intros Hsame. induction l as [| x l IH]; [reflexivity |].
  cbn [sorted_reverse foldr]. fold (sorted_reverse key ltb l).
  rewrite insert_desc_stable by assumption.
  cbn [List.filter]. rewrite IH. reflexivity.
Qed.

End SortedReverseFacts.

(** ** Jaccard similarity *)

Lemma jaccard_as_index (text1 text2 : string) :
  jaccard text1 text2 =
  Spec.jaccard_index (list_to_set (Py.split text1)) (list_to_set (Py.split text2)).
Proof.
  unfold jaccard, Spec.jaccard_index.
  destruct (decide _) as [-> | Hne]; [reflexivity |].
  destruct (Nat.ltb_spec 0 (size (list_to_set (Py.split text1) ∪
                                  list_to_set (Py.split text2) : gset string)));
    [reflexivity | lia].
Qed.

(** The simplified text of the merge has the words of the lowercased claim. *)
Lemma jaccard_simplify (text1 text2 : string) :
  jaccard (Orchestrator.simplify text1) (Orchestrator.simplify text2) =
  Spec.jaccard_index (Spec.word_set text1) (Spec.word_set text2).
Proof.
  rewrite jaccard_as_index. unfold Orchestrator.simplify.
  rewrite !split_join_split. reflexivity.
Qed.

Lemma jaccard_simplify_plain (text1 text2 : string) :
  jaccard (ClaimExtractor.simplify text1) (ClaimExtractor.simplify text2) =
  Spec.jaccard_index (Spec.plain_word_set text1) (Spec.plain_word_set text2).
Proof.
  rewrite jaccard_as_index. unfold ClaimExtractor.simplify.
  rewrite !split_join_split. reflexivity.
Qed.

(** Comparing the index with a threshold [p/q] is comparing integers. *)
Lemma jaccard_index_above (p q : Z) (a b : gset string) :
  (0 < q)%Z → (0 <= p)%Z →
  Qlt_bool (inject_Z p / inject_Z q) (Spec.jaccard_index a b) =
  bool_decide (p * Z.of_nat (size (a ∪ b)) < q * Z.of_nat (size (a ∩ b)))%Z.
Proof.
  intros Hq Hp. unfold Spec.jaccard_index.
  assert (Hq' : (0 < inject_Z q)%Q) by (change 0%Q with (inject_Z 0); rewrite <- Zlt_Qlt; lia).
  assert (Hp' : (0 <= inject_Z p)%Q) by (change 0%Q with (inject_Z 0); rewrite <- Zle_Qle; lia).
  assert (Hiu : size (a ∩ b) ≤ size (a ∪ b)) 
    by (apply subseteq_size; intros x Hx%elem_of_intersection;
        apply elem_of_union; tauto).
  destruct (decide _) as [Hz | Hnz].
  - rewrite Hz in *. rewrite bool_decide_eq_false_2 by lia.
    unfold Qlt_bool. rewrite negb_false_iff. apply Qle_bool_iff.
    apply Qle_shift_div_l; [assumption | lra].
  - set (u := size (a ∪ b)) in *. set (i := size (a ∩ b)).
    assert (Hu : (0 < inject_Z (Z.of_nat u))%Q)
      by (change 0%Q with (inject_Z 0); rewrite <- Zlt_Qlt; lia).
    destruct (decide (p * Z.of_nat u < q * Z.of_nat i)%Z) as [Hlt | Hge].
    + rewrite bool_decide_eq_true_2 by assumption.
      unfold Qlt_bool. rewrite negb_true_iff. apply not_true_iff_false.
      intros Hle%Qle_bool_iff.
      rewrite Zlt_Qlt, !inject_Z_mult in Hlt.
      apply (Qmult_le_compat_r _ _ (inject_Z (Z.of_nat u) * inject_Z q)) in Hle;
        [| apply Qmult_le_0_compat; lra].
      assert (H1 : (inject_Z (Z.of_nat i) / inject_Z (Z.of_nat u) *
                    (inject_Z (Z.of_nat u) * inject_Z q) ==
                    inject_Z (Z.of_nat i) * inject_Z q)%Q) by (field; lra).
      assert (H2 : (inject_Z p / inject_Z q *
                    (inject_Z (Z.of_nat u) * inject_Z q) ==
                    inject_Z p * inject_Z (Z.of_nat u))%Q) by (field; lra).
      rewrite H1, H2 in Hle. lra.
    + rewrite bool_decide_eq_false_2 by assumption.
      unfold Qlt_bool. rewrite negb_false_iff. apply Qle_bool_iff.
      apply Z.nlt_ge in Hge. rewrite Zle_Qle, !inject_Z_mult in Hge.
      apply Qle_shift_div_l; [assumption |].
      assert (H1 : (inject_Z (Z.of_nat i) / inject_Z (Z.of_nat u) * inject_Z q ==
                    inject_Z (Z.of_nat i) * inject_Z q / inject_Z (Z.of_nat u))%Q)
        by (field; lra).
      rewrite H1.
      apply Qle_shift_div_r; [assumption | lra].
Qed.

Lemma jaccard_index_above_06 (a b : gset string) :
  Qlt_bool 0.6 (Spec.jaccard_index a b) =
  bool_decide (3 * size (a ∪ b) < 5 * size (a ∩ b)).
Proof.
  transitivity (Qlt_bool (inject_Z 3 / inject_Z 5) (Spec.jaccard_index a b)).
  - unfold Qlt_bool. f_equal; apply Qleb_comp; reflexivity.
  - rewrite jaccard_index_above by lia. apply bool_decide_ext. lia.
Qed.

Lemma jaccard_index_above_07 (a b : gset string) :
  Qlt_bool 0.7 (Spec.jaccard_index a b) =
  bool_decide (7 * size (a ∪ b) < 10 * size (a ∩ b)).
Proof.
  transitivity (Qlt_bool (inject_Z 7 / inject_Z 10) (Spec.jaccard_index a b)).
  - unfold Qlt_bool. f_equal; apply Qleb_comp; reflexivity.
  - rewrite jaccard_index_above by lia. apply bool_decide_ext. lia.
Qed.

(** ** Keeping the first of each group *)

Section FirstSeen.

Context {A : Type} (key : A → string) (similar : string → string → bool).

Local Abbreviation collides := (fun x y : A => similar (key x) (key y)).

(** Looking through the set of texts seen is looking through the items
    kept. *)
Lemma existsb_seen (k : string) (unique : list A) :
  existsb (similar k) (elements (list_to_set (key <$> unique) : gset string)) =
  existsb (fun y => similar k (key y)) unique.
Proof.
  apply eq_true_iff_eq. rewrite !existsb_exists. split.
  - intros (t & Ht & Hs).
    apply list_elem_of_In, elem_of_elements, elem_of_list_to_set,
      list_elem_of_fmap in Ht.
    destruct Ht as (y & -> & Hy). exists y. split; [apply list_elem_of_In, Hy | exact Hs].
  - intros (y & Hy & Hs). exists (key y). split; [| exact Hs].
    apply list_elem_of_In, elem_of_elements, elem_of_list_to_set,
      list_elem_of_fmap.
    exists y. split; [reflexivity | apply list_elem_of_In, Hy].
Qed.

Lemma fold_first_seen (l unique : list A) :
  fold_left (first_seen_step key similar) l
            (unique, list_to_set (key <$> unique)) =
  (Spec.keep_first_seen collides unique l,
   list_to_set (key <$> Spec.keep_first_seen collides unique l)).
Proof.
  revert unique. induction l as [| x l IH]; intros unique; [reflexivity |].
  cbn [fold_left Spec.keep_first_seen]. unfold first_seen_step at 2.
  rewrite existsb_seen.
  destruct (existsb (fun y => similar (key x) (key y)) unique); cbn [negb].
  - apply IH.
  - rewrite <- IH. do 2 f_equal.
    rewrite fmap_app, list_to_set_app_L. simpl.
    rewrite union_empty_r_L. reflexivity.
Qed.

End FirstSeen.

Lemma existsb_pointwise {A : Type} (f g : A → bool) (l : list A) :
  (∀ y, f y = g y) → existsb f l = existsb g l.
Proof.
  intros Hext. induction l as [| y l IH]; simpl; [reflexivity |].
  rewrite Hext, IH. reflexivity.
Qed.

Lemma keep_first_seen_ext {A : Type} (c1 c2 : A → A → bool) (l kept : list A) :
  (∀ x y, c1 x y = c2 x y) →
  Spec.keep_first_seen c1 kept l = Spec.keep_first_seen c2 kept l.
Proof.
  intros Hext. revert kept. induction l as [| x l IH]; intros kept; [reflexivity |].
  cbn [Spec.keep_first_seen].
  rewrite (existsb_pointwise (c1 x) (c2 x)) by (intros y; apply Hext).
  destruct (existsb (c2 x) kept); apply IH.
Qed.

(** The two loops, as functions of the list they are given. *)
Lemma deduplicate_claims_first_seen (claims : list Claim) :
  ClaimExtractor._deduplicate_claims claims =
  Spec.keep_first_seen
    (fun c1 c2 => ClaimExtractor._claims_similar
                    (ClaimExtractor.simplify (claim c1))
                    (ClaimExtractor.simplify (claim c2)))
    [] claims.
Proof.
  unfold ClaimExtractor._deduplicate_claims.
  change ClaimExtractor.dedup_step
    with (first_seen_step (fun c => ClaimExtractor.simplify (claim c))
                          ClaimExtractor._claims_similar).
  change (∅ : gset string)
    with (list_to_set ((fun c => ClaimExtractor.simplify (claim c)) <$> [])
          : gset string).
  rewrite fold_first_seen. reflexivity.
Qed.

Lemma merge_claims_survivors (all_claims : list Claim) :
  fst (fold_left Orchestrator.merge_claims_step all_claims ([], ∅)) =
  Spec.keep_first_seen Spec.similar_claims [] all_claims.
Proof.
  change Orchestrator.merge_claims_step
    with (first_seen_step (fun c => Orchestrator.simplify (claim c))
                          Orchestrator._claims_similar).
  change (∅ : gset string)
    with (list_to_set ((fun c => Orchestrator.simplify (claim c)) <$> [])
          : gset string).
  rewrite fold_first_seen. cbn [fst].
  apply keep_first_seen_ext. intros c1 c2.
  unfold Spec.similar_claims, Orchestrator._claims_similar.
  rewrite jaccard_simplify. reflexivity.
Qed.

(** ** Duplicates among the heuristic claims *)

Lemma claims_similar_plain (c1 c2 : Claim) :
  ClaimExtractor._claims_similar (ClaimExtractor.simplify (claim c1))
                                 (ClaimExtractor.simplify (claim c2)) =
  bool_decide (7 * size (Spec.plain_word_set (claim c1) ∪ Spec.plain_word_set (claim c2)) <
               10 * size (Spec.plain_word_set (claim c1) ∩ Spec.plain_word_set (claim c2))).
Proof.
  unfold ClaimExtractor._claims_similar.
  rewrite jaccard_simplify_plain. apply jaccard_index_above_07.
Qed.

(** C5, as amended. Of two claims the second is discarded exactly when the
    Jaccard similarity of their word-sets is strictly above 0.7: a pair that
    shares 7 words of a 10-word union is kept as two claims, and so is a
    pair that shares 6 of 10. *)
Theorem deduplicate_claims_pair (c1 c2 : Claim) :
  let shared := size (Spec.plain_word_set (claim c1) ∩ Spec.plain_word_set (claim c2)) in
  let all := size (Spec.plain_word_set (claim c1) ∪ Spec.plain_word_set (claim c2)) in
  (shared = 7 → all = 10 → ClaimExtractor._deduplicate_claims [c1; c2] = [c1; c2]) ∧
  (shared = 6 → all = 10 → ClaimExtractor._deduplicate_claims [c1; c2] = [c1; c2]) ∧
  (7 * all < 10 * shared → ClaimExtractor._deduplicate_claims [c1; c2] = [c1]) ∧
  (10 * shared ≤ 7 * all → ClaimExtractor._deduplicate_claims [c1; c2] = [c1; c2]).
Proof.
  intros shared all.
  assert (Hrun : ClaimExtractor._deduplicate_claims [c1; c2] =
                 if bool_decide (7 * all < 10 * shared) then [c1] else [c1; c2]).
  { rewrite deduplicate_claims_first_seen. cbn [Spec.keep_first_seen existsb app].
    rewrite claims_similar_plain, orb_false_r.
    rewrite (union_comm_L (Spec.plain_word_set (claim c2))),
            (intersection_comm_L (Spec.plain_word_set (claim c2))).
    fold shared all. destruct (bool_decide _); reflexivity. }
  rewrite Hrun. repeat split.
  - intros -> ->. reflexivity.
  - intros -> ->. reflexivity.
  - intros H. rewrite bool_decide_eq_true_2 by assumption. reflexivity.
  - intros H. rewrite bool_decide_eq_false_2 by lia. reflexivity.
Qed.

(** C5, counterexample: two sentences that share seven of their ten words
    are both kept. *)
Lemma deduplicate_claims_keeps_seven_of_ten :
  size (Spec.plain_word_set (claim Samples.claim_base) ∩
        Spec.plain_word_set (claim Samples.claim_seven)) = 7 ∧
  size (Spec.plain_word_set (claim Samples.claim_base) ∪
        Spec.plain_word_set (claim Samples.claim_seven)) = 10 ∧
  ClaimExtractor._deduplicate_claims [Samples.claim_base; Samples.claim_seven] =
    [Samples.claim_base; Samples.claim_seven].
Proof. repeat split; vm_compute; reflexivity. Qed.

Lemma deduplicate_claims_pair_witness :
  ClaimExtractor._deduplicate_claims [Samples.claim_base; Samples.claim_seven] =
    [Samples.claim_base; Samples.claim_seven] ∧
  ClaimExtractor._deduplicate_claims [Samples.claim_base; Samples.claim_six] =
    [Samples.claim_base; Samples.claim_six] ∧
  ClaimExtractor._deduplicate_claims [Samples.claim_base; Samples.claim_eight] =
    [Samples.claim_base].
Proof.
  split; [| split].
  - apply (proj1 (deduplicate_claims_pair Samples.claim_base Samples.claim_seven));
      vm_compute; reflexivity.
  - apply (proj1 (proj2 (deduplicate_claims_pair Samples.claim_base Samples.claim_six)));
      vm_compute; reflexivity.
  - apply (proj1 (proj2 (proj2
             (deduplicate_claims_pair Samples.claim_base Samples.claim_eight)))).
    vm_compute. lia.
Defined.

(** ** Order facts *)

Lemma Qlt_bool_asym (a b : Q) : Qlt_bool a b = true → Qlt_bool b a = false.
Proof.
  intros H%Qlt_bool_true. unfold Qlt_bool. rewrite negb_false_iff.
  apply Qle_bool_iff. lra.
Qed.

Lemma Qlt_bool_negtrans (a b c : Q) :
  Qlt_bool a b = false → Qlt_bool b c = false → Qlt_bool a c = false.
Proof.
  intros H1%Qlt_bool_false H2%Qlt_bool_false. unfold Qlt_bool.
  rewrite negb_false_iff. apply Qle_bool_iff. lra.
Qed.

Lemma StronglySorted_weaken {A : Type} (R S : A → A → Prop) (l : list A) :
  (∀ x y, R x y → S x y) → StronglySorted R l → StronglySorted S l.
Proof.
  intros HRS. induction 1 as [| x l _ IH Hx]; constructor; [assumption |].
  eapply Forall_impl; [exact Hx | auto].
Qed.

Lemma StronglySorted_take {A : Type} (R : A → A → Prop) (n : nat) (l : list A) :
  StronglySorted R l → StronglySorted R (take n l).
Proof.
  intros H. revert n. induction H as [| x l _ IH Hx]; intros [| n]; simpl;
    try constructor; [apply IH | apply Forall_take, Hx].
Qed.

(** ** Merging the claims *)

(** C1. [_merge_claims] concatenates the heuristic claims and the AI claims,
    goes through them in that order keeping a claim unless the Jaccard
    similarity of its normalized word-set with that of a claim already kept
    exceeds 0.6, sorts the survivors by decreasing confidence (claims of
    equal confidence keep their order) and returns the first eight. *)
Theorem merge_claims_spec (traditional_claims ai_claims : list Claim) :
  let survivors :=
    Spec.keep_first_seen Spec.similar_claims [] (traditional_claims ++ ai_claims) in
  let sorted := sorted_reverse confidence Qlt_bool survivors in
  Orchestrator._merge_claims traditional_claims ai_claims = take 8 sorted ∧
  sorted ≡ₚ survivors ∧
  StronglySorted (fun c1 c2 => (confidence c2 <= confidence c1)%Q) sorted ∧
  (∀ q, List.filter (fun c => Qeq_bool (confidence c) q) sorted =
        List.filter (fun c => Qeq_bool (confidence c) q) survivors) ∧
  StronglySorted (fun c1 c2 => (confidence c2 <= confidence c1)%Q)
    (Orchestrator._merge_claims traditional_claims ai_claims) ∧
  length (Orchestrator._merge_claims traditional_claims ai_claims) ≤ 8.
Proof.
  intros survivors sorted.
  assert (Hrun : Orchestrator._merge_claims traditional_claims ai_claims = take 8 sorted).
  { unfold Orchestrator._merge_claims. rewrite merge_claims_survivors. reflexivity. }
  assert (Hsorted : StronglySorted (fun c1 c2 => (confidence c2 <= confidence c1)%Q) sorted).
  { eapply StronglySorted_weaken;
      [| apply (sorted_reverse_sorted confidence Qlt_bool Qlt_bool_asym Qlt_bool_negtrans)].
    intros x y H. apply Qlt_bool_false, H. }
  split; [exact Hrun |]. split; [apply sorted_reverse_perm |].
  split; [exact Hsorted |]. split.
  - intros q. apply sorted_reverse_stable. intros a b Ha%Qeq_bool_eq Hb%Qeq_bool_eq.
    unfold Qlt_bool. rewrite negb_false_iff. apply Qle_bool_iff. lra.
  - rewrite Hrun. split; [apply StronglySorted_take, Hsorted |].
    rewrite length_take. lia.
Qed.

Example merge_claims_sample :
  claim <$> Orchestrator._merge_claims
    [Samples.claim_base; Samples.heuristic_claim "Turnout was low" 0.4]
    [Samples.ai_claim "the MAYOR said taxes   rose twelve percent" 0.9;
     Samples.ai_claim "Turnout was the lowest since records began" 0.8] =
  ["Turnout was the lowest since records began";
   "The mayor said taxes rose twelve percent yesterday";
   "Turnout was low"].
Proof. vm_compute. reflexivity. Qed.

(** ** Merging a list with itself *)

Section KeepFirstSeen.

Context {A : Type} (collides : A → A → bool).

Lemma keep_first_seen_app (l1 l2 kept : list A) :
  Spec.keep_first_seen collides kept (l1 ++ l2) =
  Spec.keep_first_seen collides (Spec.keep_first_seen collides kept l1) l2.
Proof.
  revert kept. induction l1 as [| x l1 IH]; intros kept; [reflexivity |].
  simpl. destruct (existsb (collides x) kept); apply IH.
Qed.

(** Items that collide with nothing kept and with none of their
    predecessors are all kept. *)
Lemma keep_first_seen_all (l kept : list A) :
  Forall (fun y => Forall (fun k => collides y k = false) kept) l →
  Spec.no_collision collides l →
  Spec.keep_first_seen collides kept l = kept ++ l.
Proof.
  revert kept. induction l as [| x l IH]; intros kept Hkept Hl.
  - rewrite app_nil_r. reflexivity.
  - apply Forall_cons in Hkept as [Hx Hkept]. destruct Hl as [Hlater Hl].
    cbn [Spec.keep_first_seen].
    assert (Hnone : existsb (collides x) kept = false).
    { apply not_true_iff_false. intros (k & Hk%list_elem_of_In & Hc)%existsb_exists.
      rewrite Forall_forall in Hx. rewrite Hx in Hc by assumption. discriminate. }
    rewrite Hnone, IH, <- app_assoc; [reflexivity | | assumption].
    rewrite Forall_forall in Hkept, Hlater. apply Forall_forall. intros y Hy.
    apply Forall_app. split; [apply Hkept, Hy |].
    constructor; [apply Hlater, Hy | constructor].
Qed.

(** Items that each collide with something kept are all dropped. *)
Lemma keep_first_seen_none (l kept : list A) :
  Forall (fun y => existsb (collides y) kept = true) l →
  Spec.keep_first_seen collides kept l = kept.
Proof.
  induction 1 as [| x l Hx _ IH]; [reflexivity |].
  cbn [Spec.keep_first_seen]. rewrite Hx. exact IH.
Qed.

(** A list whose items collide with themselves but not with each other,
    read twice, is kept once. *)
Lemma keep_first_seen_twice (l : list A) :
  Forall (fun x => collides x x = true) l →
  Spec.no_collision collides l →
  Spec.keep_first_seen collides [] (l ++ l) = l.
Proof.
  intros Hself Hl. rewrite keep_first_seen_app.
  rewrite (keep_first_seen_all l []); [| | assumption].
  - apply keep_first_seen_none. simpl.
    rewrite Forall_forall in Hself. apply Forall_forall. intros x Hx.
    apply existsb_exists. exists x. split; [apply list_elem_of_In, Hx | apply Hself, Hx].
  - apply Forall_forall. intros; constructor.
Qed.

End KeepFirstSeen.

Lemma similar_claims_self (c : Claim) :
  Spec.word_set (claim c) ≠ ∅ → Spec.similar_claims c c = true.
Proof.
  intros Hne. unfold Spec.similar_claims.
  rewrite jaccard_index_above_06, union_idemp_L, intersection_idemp_L.
  apply bool_decide_eq_true_2.
  assert (size (Spec.word_set (claim c)) ≠ 0).
  { intros H. apply Hne. apply leibniz_equiv, size_empty_inv, H. }
  lia.
Qed.

(** C6, as amended. Merging a list with itself gives back a list of the
    same size, a reordering of the list, when the list has at most eight
    claims, each with at least one word, no two of them similar. *)
Theorem merge_claims_self (L : list Claim) :
  length L ≤ 8 →
  Forall (fun c => Spec.word_set (claim c) ≠ ∅) L →
  Spec.no_collision Spec.similar_claims L →
  length (Orchestrator._merge_claims L L) = length L ∧
  Orchestrator._merge_claims L L ≡ₚ L.
Proof.
  intros Hlen Hwords Hdistinct.
  assert (Hperm : Orchestrator._merge_claims L L ≡ₚ L).
  { assert (Hkept : Spec.keep_first_seen Spec.similar_claims [] (L ++ L) = L).
    { apply keep_first_seen_twice; [| assumption].
      eapply Forall_impl; [exact Hwords |]. apply similar_claims_self. }
    destruct (merge_claims_spec L L) as (-> & Hsorted & _).
    rewrite Hkept in *.
    rewrite take_ge; [exact Hsorted |].
    rewrite sorted_reverse_length. exact Hlen. }
  split; [apply Permutation_length, Hperm | exact Hperm].
Qed.

(** C6, counterexample. Nine claims of one word each merged with
    themselves give eight; a claim listed twice gives one; a claim without
    words gives two. *)
Lemma merge_claims_self_size_differs :
  (length Samples.nine_claims = 9 ∧
   length (Orchestrator._merge_claims Samples.nine_claims Samples.nine_claims) = 8) ∧
  length (Orchestrator._merge_claims [Samples.claim_base; Samples.claim_base]
                                     [Samples.claim_base; Samples.claim_base]) = 1 ∧
  length (Orchestrator._merge_claims [Samples.blank_claim] [Samples.blank_claim]) = 2.
Proof. repeat split; vm_compute; reflexivity. Qed.

Lemma merge_claims_self_witness :
  length (Orchestrator._merge_claims (take 8 Samples.nine_claims)
                                     (take 8 Samples.nine_claims)) = 8.
Proof.
  apply (merge_claims_self (take 8 Samples.nine_claims)).
  - vm_compute. lia.
  - repeat (constructor; [vm_compute; discriminate |]). constructor.
  - simpl. repeat split; repeat (constructor; [vm_compute; reflexivity |]); constructor.
Defined.

(** ** Merging the red flags *)

Lemma flag_key_rank (f : RedFlag) :
  Orchestrator.flag_key f = (Spec.severity_rank (severity f), flag_confidence f).
Proof. unfold Orchestrator.flag_key. destruct (severity f); reflexivity. Qed.

Lemma pair_ltb_asym (a b : nat * Q) : pair_ltb a b = true → pair_ltb b a = false.
Proof.
  destruct a as [r1 c1], b as [r2 c2]. unfold pair_ltb. simpl.
  rewrite orb_true_iff, andb_true_iff, orb_false_iff, andb_false_iff,
    Nat.ltb_lt, Nat.ltb_ge, Nat.eqb_eq, Nat.eqb_neq.
  intros [Hlt | [-> Hc]].
  - split; [lia | left; lia].
  - split; [lia | right; apply Qlt_bool_asym, Hc].
Qed.

Lemma pair_ltb_false (a b : nat * Q) :
  pair_ltb a b = false ↔
  fst b < fst a ∨ (fst b = fst a ∧ (snd b <= snd a)%Q).
Proof.
  destruct a as [r1 c1], b as [r2 c2]. unfold pair_ltb. simpl.
  rewrite orb_false_iff, andb_false_iff, Nat.ltb_ge, Nat.eqb_neq. split.
  - intros [Hge [Hne | Hc]]; [left; lia |].
    destruct (decide (r2 = r1)) as [-> | Hne]; [| left; lia].
    right. split; [reflexivity | apply Qlt_bool_false, Hc].
  - intros [Hlt | [-> Hc]].
    + split; [lia | left; lia].
    + split; [lia | right]. unfold Qlt_bool. rewrite negb_false_iff.
      apply Qle_bool_iff, Hc.
Qed.

Lemma pair_ltb_negtrans (a b c : nat * Q) :
  pair_ltb a b = false → pair_ltb b c = false → pair_ltb a c = false.
Proof.
  rewrite !pair_ltb_false.
  intros [H1 | [H1 H1']] [H2 | [H2 H2']]; try (left; lia).
  right. split; [lia | lra].
Qed.

Section FlagLoop.

Local Abbreviation key := (fun f : RedFlag => Orchestrator.simplify (description f)).

Lemma seen_description (k : string) (unique : list RedFlag) :
  bool_decide (k ∈ (list_to_set (key <$> unique) : gset string)) =
  existsb (fun y => String.eqb k (key y)) unique.
Proof.
  apply eq_true_iff_eq. rewrite bool_decide_eq_true, existsb_exists,
    elem_of_list_to_set, list_elem_of_fmap.
  split.
  - intros (y & -> & Hy). exists y. split; [apply list_elem_of_In, Hy |].
    apply String.eqb_refl.
  - intros (y & Hy & Heq). exists y. split; [apply String.eqb_eq, Heq |].
    apply list_elem_of_In, Hy.
Qed.

Lemma fold_merge_flags (l unique : list RedFlag) :
  fold_left Orchestrator.merge_flags_step l
            (unique, list_to_set (key <$> unique)) =
  (Spec.keep_first_seen Spec.same_description unique l,
   list_to_set (key <$> Spec.keep_first_seen Spec.same_description unique l)).
Proof.
  revert unique. induction l as [| x l IH]; intros unique; [reflexivity |].
  cbn [fold_left Spec.keep_first_seen].
  unfold Orchestrator.merge_flags_step at 2. rewrite seen_description.
  change (existsb (Spec.same_description x) unique)
    with (existsb (fun y => String.eqb (key x) (key y)) unique).
  destruct (existsb _ unique); cbn [negb].
  - apply IH.
  - rewrite <- IH. do 2 f_equal.
    rewrite fmap_app, list_to_set_app_L. simpl.
    rewrite union_empty_r_L. reflexivity.
Qed.

End FlagLoop.

Lemma merge_flags_survivors (all_flags : list RedFlag) :
  fst (fold_left Orchestrator.merge_flags_step all_flags ([], ∅)) =
  Spec.keep_first_seen Spec.same_description [] all_flags.
Proof.
  change (∅ : gset string)
    with (list_to_set ((fun f => Orchestrator.simplify (description f)) <$> [])
          : gset string).
  rewrite fold_merge_flags. reflexivity.
Qed.

Section KeepFirstSeenShape.

Context {A : Type} (collides : A → A → bool).

(** What is kept stays kept, and nothing is kept that was not offered. *)
Lemma keep_first_seen_length (l kept : list A) :
  length kept ≤ length (Spec.keep_first_seen collides kept l).
Proof.
  revert kept. induction l as [| x l IH]; intros kept; simpl; [lia |].
  destruct (existsb (collides x) kept); [apply IH |].
  specialize (IH (kept ++ [x])). rewrite length_app in IH. simpl in IH. lia.
Qed.

Lemma keep_first_seen_Forall (P : A → Prop) (l kept : list A) :
  Forall P kept → Forall P l → Forall P (Spec.keep_first_seen collides kept l).
Proof.
  revert kept. induction l as [| x l IH]; intros kept Hkept Hl; simpl; [assumption |].
  apply Forall_cons in Hl as [Hx Hl].
  destruct (existsb (collides x) kept); apply IH; try assumption.
  apply Forall_app. split; [assumption | constructor; [assumption | constructor]].
Qed.

End KeepFirstSeenShape.

(** Flags whose normalized descriptions differ do not collide. *)
Lemma distinct_descriptions (l : list RedFlag) :
  NoDup ((fun f => Spec.normalized (description f)) <$> l) →
  Spec.no_collision Spec.same_description l.
Proof.
  induction l as [| x l IH]; [constructor |].
  rewrite fmap_cons, NoDup_cons. intros [Hx Hl]. split; [| apply IH, Hl].
  apply Forall_forall. intros y Hy. unfold Spec.same_description.
  apply String.eqb_neq. intros Heq. apply Hx. rewrite <- Heq.
  apply list_elem_of_fmap. exists y. split; [reflexivity | exact Hy].
Qed.

(** C7. [_merge_red_flags] concatenates the heuristic flags and the AI
    flags, drops a flag exactly when its lowercased, whitespace-normalized
    description equals that of a flag already kept, sorts the survivors by
    severity rank and then confidence, both decreasing, and returns the
    first ten.  Fifteen high-severity flags with distinct descriptions from
    each source give exactly ten flags, all of them high. *)
Theorem merge_red_flags_spec (traditional_flags ai_flags : list RedFlag) :
  let survivors :=
    Spec.keep_first_seen Spec.same_description [] (traditional_flags ++ ai_flags) in
  let sorted := sorted_reverse Orchestrator.flag_key pair_ltb survivors in
  let merged := Orchestrator._merge_red_flags traditional_flags ai_flags in
  merged = take 10 sorted ∧
  sorted ≡ₚ survivors ∧
  StronglySorted Spec.flag_precedes sorted ∧
  StronglySorted Spec.flag_precedes merged ∧
  length merged ≤ 10 ∧
  (length traditional_flags = 15 → length ai_flags = 15 →
   Forall (fun f => severity f = HIGH) (traditional_flags ++ ai_flags) →
   NoDup ((fun f => Spec.normalized (description f)) <$> traditional_flags) →
   NoDup ((fun f => Spec.normalized (description f)) <$> ai_flags) →
   length merged = 10 ∧ Forall (fun f => severity f = HIGH) merged).
Proof.
  intros survivors sorted merged.
  assert (Hrun : merged = take 10 sorted).
  { unfold merged, Orchestrator._merge_red_flags.
    rewrite merge_flags_survivors. reflexivity. }
  assert (Hsorted : StronglySorted Spec.flag_precedes sorted).
  { eapply StronglySorted_weaken;
      [| apply (sorted_reverse_sorted Orchestrator.flag_key pair_ltb
                  pair_ltb_asym pair_ltb_negtrans)].
    intros x y H. apply pair_ltb_false in H. rewrite !flag_key_rank in H.
    exact H. }
  assert (Hperm : sorted ≡ₚ survivors) by apply sorted_reverse_perm.
  split; [exact Hrun |]. split; [exact Hperm |]. split; [exact Hsorted |].
  split; [rewrite Hrun; apply StronglySorted_take, Hsorted |].
  split; [rewrite Hrun, length_take; lia |].
  intros Ht Ha Hhigh Hdt Hda. rewrite Hrun. split.
  - rewrite length_take, (Permutation_length Hperm). unfold survivors.
    rewrite keep_first_seen_app.
    rewrite (keep_first_seen_all _ traditional_flags []);
      [| apply Forall_forall; intros; constructor
       | apply distinct_descriptions, Hdt].
    pose proof (keep_first_seen_length Spec.same_description ai_flags
                  ([] ++ traditional_flags)) as Hlen.
    rewrite app_nil_l in *. lia.
  - apply Forall_take. rewrite Hperm.
    apply keep_first_seen_Forall; [constructor | exact Hhigh].
Qed.

Lemma merge_red_flags_spec_witness :
  length (Orchestrator._merge_red_flags
            (Samples.numbered_flags "heuristic" HIGH 0.8 15)
            (Samples.numbered_flags "model" HIGH 0.6 15)) = 10.
Proof.
  apply (merge_red_flags_spec (Samples.numbered_flags "heuristic" HIGH 0.8 15)
                              (Samples.numbered_flags "model" HIGH 0.6 15)).
  - reflexivity.
  - reflexivity.
  - vm_compute. repeat constructor.
  - apply (bool_decide_unpack _). vm_compute. exact I.
  - apply (bool_decide_unpack _). vm_compute. exact I.
Defined.

Example merge_red_flags_sample :
  (fun f => (severity f, flag_confidence f)) <$>
    Orchestrator._merge_red_flags
      (Samples.numbered_flags "heuristic" MEDIUM 0.6 2)
      ({| type := FRAMING_BIAS; description := "Heuristic  FINDING 1";
          severity := HIGH; evidence := None; flag_confidence := 0.9 |}
       :: Samples.numbered_flags "model" HIGH 0.5 1 ++
          Samples.numbered_flags "model" LOW 0.95 1) =
  [(HIGH, 0.5%Q); (MEDIUM, 0.6%Q); (MEDIUM, 0.6%Q)].
Proof. vm_compute. reflexivity. Qed.

(** ** The pipeline never raises *)

Lemma quiet_snoc (log : list Orchestrator.event) (s : Orchestrator.stage) :
  quiet log → quiet (log ++ [(s, None)]).
Proof. intros H. apply Forall_app. split; [exact H | repeat constructor]. Qed.

Lemma logs_failures_ret {A : Type} (a : A) : logs_failures (mret a).
Proof. intros st log Hq. exact Hq. Qed.

Lemma logs_failures_call {A : Type} (s : Orchestrator.stage) (r : raised A) :
  logs_failures (Orchestrator.call s r).
Proof.
  intros st log Hq. unfold Orchestrator.call. destruct r as [a | e]; simpl.
  - apply quiet_snoc, Hq.
  - exists s, log. auto.
Qed.

Lemma logs_failures_bind {A B : Type} (m : Orchestrator.Pipe A)
    (k : A → Orchestrator.Pipe B) :
  logs_failures m → (∀ a, logs_failures (k a)) → logs_failures (m ≫= k).
Proof.
  intros Hm Hk st log Hq. specialize (Hm st log Hq).
  unfold mbind, Orchestrator.pipe_bind.
  destruct (m st log) as [[[a | e] st1] log1]; [apply Hk, Hm | exact Hm].
Qed.


Lemma on_exception_cases (print : string → raised unit) (e : exn) (t : Q) :
  (print ("❌ " +:+ ("Analysis failed: " +:+ exn_str e)) = Return tt ∧
   Orchestrator.on_exception print e t =
     Return {| success := false; result := None; markdown_report := None;
               error := Some ("Analysis failed: " +:+ exn_str e);
               processing_time := Some t |}) ∨
  (∃ e', print ("❌ " +:+ ("Analysis failed: " +:+ exn_str e)) = Raise e' ∧
         Orchestrator.on_exception print e t = Raise e').
Proof.
  unfold Orchestrator.on_exception.
  destruct (print _) as [[] | e']; [left | right; exists e']; split; reflexivity.
Qed.

Section PipelineFacts.

Variable AIData : Type.
Variable langdetect_detect : string → option string.
Variable validators_url : string → bool.
Variable urlparse_netloc : string → option string.
Variable extractors : list (string * Extractor.strategy).
Variable extract_article_metadata : string → raised Scraper.Metadata.
Variable extract_entities : string → option string → raised (list Entity).
Variable extract_source_metrics : string → string → raised (option SourceMetrics).
Variable extract_claims : string → option string → raised (list Claim).
Variable detect_language_bias : string → option string → raised LanguageAnalysis.
Variable detect_structural_bias : string → raised (list RedFlag).
Variable ai_analyze_article : ArticleContent → string → raised AIData.
Variable parse_analysis_to_models : AIData → raised Orchestrator.ParsedAI.
Variable generate_verification_questions :
  list Claim → list Entity → string → string → raised (list VerificationQuestion).
Variable generate_counter_narrative : AnalysisResult → raised (option CounterNarrative).
Variable format_analysis_report : AnalysisResult → raised string.
Variable print : string → raised unit.
Variable format_2f : Q → string.

Local Abbreviation scrape_article :=
  (Scraper.scrape_article langdetect_detect validators_url urlparse_netloc
     extractors extract_article_metadata).
Local Abbreviation scrape :=
  (Orchestrator.scrape langdetect_detect validators_url urlparse_netloc
     extractors extract_article_metadata).
Local Abbreviation pipeline :=
  (Orchestrator.pipeline AIData langdetect_detect validators_url urlparse_netloc
     extractors extract_article_metadata extract_entities extract_source_metrics
     extract_claims detect_language_bias detect_structural_bias ai_analyze_article
     parse_analysis_to_models generate_verification_questions
     generate_counter_narrative format_analysis_report print).
Local Abbreviation analyze_article :=
  (Orchestrator.analyze_article AIData langdetect_detect validators_url
     urlparse_netloc extractors extract_article_metadata extract_entities
     extract_source_metrics extract_claims detect_language_bias
     detect_structural_bias ai_analyze_article parse_analysis_to_models
     generate_verification_questions generate_counter_narrative
     format_analysis_report print format_2f).

Lemma logs_failures_scrape (url : string) : logs_failures (scrape url).
Proof.
  intros st log Hq. unfold Orchestrator.scrape.
  destruct (scrape_article url st) as [[a | e] st1]; simpl.
  - apply quiet_snoc, Hq.
  - exists Orchestrator.ScrapeArticle, log. auto.
Qed.

Lemma logs_failures_pipeline (request : AnalysisRequest) :
  logs_failures (pipeline request).
Proof.
  unfold Orchestrator.pipeline, Orchestrator.say.
  repeat first
    [ apply logs_failures_scrape
    | apply logs_failures_call
    | apply logs_failures_ret
    | apply logs_failures_bind; [| intros ?]
    | match goal with |- logs_failures (if ?b then _ else _) => destruct b end ].
Qed.



(** The runs of [analyze_article]: the [try] block returns and the
    completion is printed; or it is not, and the [except] clause runs at the
    third reading of the clock; or the [try] block raises, and the [except]
    clause runs at the second. *)
Lemma analyze_article_cases (request : AnalysisRequest) (time_time : nat → Q)
    (st : Extractor.state) :
  (∃ r md st' log,
     quiet log ∧
     analyze_article request time_time st =
       (Return {| success := true; result := Some r; markdown_report := Some md;
                  error := None;
                  processing_time := Some (time_time 1%nat - time_time 0%nat)%Q |},
        st', log)) ∨
  (∃ e st' l s k,
     quiet l ∧ (k = 1 ∨ k = 2) ∧
     analyze_article request time_time st =
       (Orchestrator.on_exception print e (time_time k - time_time 0%nat)%Q,
        st', l ++ [(s, Some e)])).
Proof.
  unfold Orchestrator.analyze_article.
  pose proof (logs_failures_pipeline request st [] ltac:(constructor)) as Hlog.
  destruct (pipeline request st []) as [[[[r md] | e] st1] log1].
  - destruct (print _) as [[] | e].
    + left. exists r, md, st1, (log1 ++ [(Orchestrator.Print, None)]).
      split; [apply quiet_snoc, Hlog | reflexivity].
    + right. exists e, st1, log1, Orchestrator.Print, 2. auto.
  - right. destruct Hlog as (s & l & -> & Hq). exists e, st1, l, s, 1. auto.
Qed.


End PipelineFacts.



Example analyze_article_success :
  ∃ response,
    fst (fst (Samples.analyze Samples.chain 0.7 10 12.5)) = Return response ∧
    success response = true ∧ processing_time response = Some 2.5%Q ∧
    error response = None ∧
    length (snd (Samples.analyze Samples.chain 0.7 10 12.5)) = 25.
Proof. vm_compute. eexists. repeat split. Qed.

Example analyze_article_invalid_score :
  ∃ response,
    fst (fst (Samples.analyze Samples.chain 1.7 10 12.5)) = Return response ∧
    success response = false ∧
    error response = Some "Analysis failed: validation error for AnalysisResult" ∧
    last (snd (Samples.analyze Samples.chain 1.7 10 12.5)) =
      Some (Orchestrator.BuildInterimResult,
            Some (ValueError "validation error for AnalysisResult")).
Proof. vm_compute. eexists. repeat split. Qed.

(** ** More on the acceptance gate *)

Section GateFacts.

Variable langdetect_detect : string → option string.

Local Abbreviation quality := (Validator.calculate_content_quality langdetect_detect).
Local Abbreviation validate := (Validator.validate_extraction_result langdetect_detect).

Lemma length_score_le (n : nat) : (Validator.length_score n <= 0.3)%Q.
Proof. unfold Validator.length_score. destruct (_ <=? _); [apply Q.le_min_l | lra]. Qed.

Lemma paragraph_score_le (n : nat) : (Validator.paragraph_score n <= 0.3)%Q.
Proof. unfold Validator.paragraph_score. destruct (_ <=? _); [apply Q.le_min_l | lra]. Qed.

Lemma sentence_score_le (s : string) : (Validator.sentence_score s <= 0.2)%Q.
Proof. unfold Validator.sentence_score. destruct (_ && _); lra. Qed.

Lemma title_score_le (t : option string) : (Validator.title_score t <= 0.1)%Q.
Proof. unfold Validator.title_score. destruct t; [destruct (_ && _) |]; lra. Qed.

Lemma language_score_le (s : string) :
  (Validator.language_score langdetect_detect s <= 0.1)%Q.
Proof.
  unfold Validator.language_score.
  destruct (langdetect_detect s); [destruct (_ =? _)%string |]; lra.
Qed.

Lemma quality_without_title_facts (content : string) :
  (quality content None <= 0.9)%Q ∧
  (∀ title, quality EmptyString title == 0)%Q.
Proof.
  split; [| intros title; reflexivity].
  unfold Validator.calculate_content_quality.
  destruct (negb _); [lra |].
  pose proof (length_score_le (String.length content)).
  pose proof (paragraph_score_le (Validator.paragraph_count content)).
  pose proof (sentence_score_le content).
  pose proof (language_score_le content).
  simpl Validator.title_score.
  match goal with |- (Qmin 1 ?x <= _)%Q => pose proof (Q.le_min_r 1 x) end.
  lra.
Qed.

(** The gate scores a text without its title, so the score it reports is
    at most 0.9; an empty text scores 0 whatever its title. *)
Theorem calculate_content_quality_without_title (content : string) :
  (Validator.calculate_content_quality langdetect_detect content None <= 0.9)%Q ∧
  (∀ title,
     Validator.calculate_content_quality langdetect_detect EmptyString title == 0)%Q.
Proof. exact (quality_without_title_facts content). Qed.

(** A title longer than ten characters adds to the score, and at most 0.1. *)
Theorem calculate_content_quality_title (content : string) (title : option string) :
  (Validator.calculate_content_quality langdetect_detect content None <=
   Validator.calculate_content_quality langdetect_detect content title)%Q ∧
  (Validator.calculate_content_quality langdetect_detect content title <=
   Validator.calculate_content_quality langdetect_detect content None + 0.1)%Q.
Proof.
  unfold Validator.calculate_content_quality.
  destruct (negb _); [split; lra |].
  pose proof (title_score_nonneg title). pose proof (title_score_le title).
  simpl (Validator.title_score None).
  set (base := (0 + Validator.length_score (String.length content) +
                Validator.paragraph_score (Validator.paragraph_count content) +
                Validator.sentence_score content)%Q) in *.
  set (lang := Validator.language_score langdetect_detect content).
  set (t := Validator.title_score title) in *.
  destruct (Q.min_spec 1 (base + 0 + lang)) as [[? ?] | [? ?]];
    destruct (Q.min_spec 1 (base + t + lang)) as [[? ?] | [? ?]]; split; lra.
Qed.

Lemma validate_extraction_result_facts (content url method : string) :
  match validate content url method with
  | (true, why, score) =>
      why = Validator.ValidVia method ∧
      Validator.is_article_content content = true ∧
      (score == quality content None)%Q ∧ (0.3 <= score)%Q ∧ (score <= 0.9)%Q ∧
      500 ≤ String.length content
  | (false, Validator.NoContentExtracted, score) =>
      content = EmptyString ∧ score = 0%Q
  | (false, Validator.NotAnArticle, score) =>
      Validator.is_article_content content = false ∧ score = 0%Q
  | (false, Validator.QualityTooLow q, score) =>
      Validator.is_article_content content = true ∧
      score = q ∧ (q < 0.3)%Q ∧ (0 <= q)%Q
  | (false, Validator.ValidVia _, _) => False
  end.
Proof.
  unfold Validator.validate_extraction_result.
  destruct (Py.truthy content) eqn:Ht; cbn [negb];
    [| destruct content; [auto | discriminate]].
  destruct (Validator.is_article_content content) eqn:Hart; cbn [negb]; [| auto].
  destruct (Qlt_bool _ 0.3) eqn:Hq.
  - repeat split; [apply Qlt_bool_true, Hq |].
    apply calculate_content_quality_nonneg.
  - split; [reflexivity |]. split; [reflexivity |].
    split; [apply Qeq_refl |]. split; [apply Qlt_bool_false, Hq |].
    split; [apply quality_without_title_facts |].
    apply is_article_content_iff in Hart. tauto.
Qed.

(** The three ways the gate refuses a text, and the one way it accepts,
    with the reason it gives: the score reported is 0 unless the text is an
    article, and an article is accepted exactly when its score is at least
    0.3. *)
Theorem validate_extraction_result_cases (format_2f : Q → string)
    (content url method : string) :
  let '(is_valid, why, score) :=
    Validator.validate_extraction_result langdetect_detect content url method in
  let text := Validator.reason_str format_2f why in
  let quality := Validator.calculate_content_quality langdetect_detect content None in
  (content = EmptyString ∧ is_valid = false ∧ score = 0%Q ∧
   text = "No content extracted") ∨
  (content ≠ EmptyString ∧ Validator.is_article_content content = false ∧
   is_valid = false ∧ score = 0%Q ∧
   text = "Content does not appear to be an article") ∨
  (Validator.is_article_content content = true ∧ is_valid = false ∧
   score = quality ∧ (0 <= score)%Q ∧ (score < 0.3)%Q ∧
   text = "Content quality too low: " +:+ format_2f score) ∨
  (Validator.is_article_content content = true ∧ is_valid = true ∧
   score = quality ∧ (0.3 <= score)%Q ∧ (score <= 0.9)%Q ∧
   500 ≤ String.length content ∧
   text = "Valid article content extracted via " +:+ method).
Proof.
  unfold Validator.validate_extraction_result.
  destruct (Py.truthy content) eqn:Ht; cbn [negb];
    [| destruct content; [left; auto | discriminate]].
  assert (Hne : content ≠ EmptyString) by (intros ->; discriminate).
  destruct (Validator.is_article_content content) eqn:Hart; cbn [negb];
    [| right; left; auto].
  destruct (Qlt_bool _ 0.3) eqn:Hq.
  - right; right; left. cbn [Validator.reason_str].
    repeat split; [apply calculate_content_quality_nonneg | apply Qlt_bool_true, Hq].
  - right; right; right. cbn [Validator.reason_str].
    split; [reflexivity |]. split; [reflexivity |]. split; [reflexivity |].
    split; [apply Qlt_bool_false, Hq |].
    split; [apply quality_without_title_facts |].
    split; [| reflexivity].
    apply is_article_content_iff in Hart. tauto.
Qed.

End GateFacts.

Example validate_extraction_result_texts :
  (fun content =>
     let '(_, why, _) :=
       Validator.validate_extraction_result Samples.detect_en content
         "https://www.example.com/story" "readability" in
     Validator.reason_str Samples.format_2f why)
  <$> [EmptyString; "Too short."; Samples.good_article] =
  ["No content extracted"; "Content does not appear to be an article";
   "Valid article content extracted via readability"].
Proof. vm_compute. reflexivity. Qed.

(** ** More on the extraction chain *)

Section ChainShape.

Variable langdetect_detect : string → option string.
Variable validators_url : string → bool.
Variable urlparse_netloc : string → option string.

Local Abbreviation try_extractors := (Extractor.try_extractors langdetect_detect).
Local Abbreviation extract_content :=
  (Extractor.extract_content langdetect_detect validators_url urlparse_netloc).

Local Abbreviation all_failed :=
  (Forall (fun a : string * Extractor.attempt => Extractor.failed (snd a) = true)).

Lemma try_extractors_cons_error (url domain method_name : string)
    (extractor : Extractor.strategy) rest last_error st log :
  (∃ text st1 why score,
      extractor url st = (Extractor.Returned (Some text), st1) ∧
      Validator.validate_extraction_result langdetect_detect text url method_name =
        (true, why, score) ∧
      try_extractors url domain ((method_name, extractor) :: rest) last_error st log =
        (Return {| url := url;
                   title := Extractor._extract_title st1 method_name;
                   content := Validator.clean_content text;
                   author := Extractor._extract_author st1 method_name;
                   publish_date := Extractor._extract_date st1 method_name;
                   domain := domain;
                   language := langdetect_detect text;
                   quality_score := score;
                   extraction_method := method_name |},
         st1, log ++ [(method_name, Extractor.Accepted)])) ∨
  (∃ a st1,
      Extractor.failed a = true ∧
      try_extractors url domain ((method_name, extractor) :: rest) last_error st log =
        try_extractors url domain rest (last_error_of last_error [(method_name, a)])
                       st1 (log ++ [(method_name, a)])).
Proof.
  simpl. destruct (extractor url st) as [[e | [text |]] st1]; simpl.
  - right. exists (Extractor.Errored e), st1. auto.
  - destruct (Py.truthy text).
    + destruct (Validator.validate_extraction_result _ _ _ _) as [[[] why] q] eqn:Hv.
      * left. exists text, st1, why, q. auto.
      * right. exists (Extractor.Rejected why), st1. auto.
    + right. exists Extractor.NoContent, st1. auto.
  - right. exists Extractor.NoContent, st1. auto.
Qed.

(** What a run of the loop leaves in the log, and what it returns. *)
Lemma try_extractors_shape (u d : string) extractors :
  ∀ last_error st log res st' log',
    try_extractors u d extractors last_error st log = (res, st', log') →
    ∃ attempts,
      log' = log ++ attempts ∧
      attempts.*1 = take (length attempts) extractors.*1 ∧
      match res with
      | Return art =>
          (∃ pre, attempts = pre ++ [(extraction_method art, Extractor.Accepted)] ∧
                  all_failed pre) ∧
          url art = u ∧ domain art = d ∧
          title art = Extractor._extract_title st' (extraction_method art) ∧
          author art = Extractor._extract_author st' (extraction_method art) ∧
          publish_date art = Extractor._extract_date st' (extraction_method art)
      | Raise e =>
          all_failed attempts ∧ length attempts = length extractors ∧
          e = Exception ("All extraction methods failed. Last error: " +:+
                         match last_error_of last_error attempts with
                         | Some e' => exn_str e'
                         | None => "None"
                         end)
      end.
Proof.
  induction extractors as [| [method_name extractor] rest IH];
    intros last_error st log res st' log' Hrun.
  - injection Hrun as <- <- <-. exists []. rewrite app_nil_r.
    repeat split. constructor.
  - destruct (try_extractors_cons_error u d method_name extractor rest
                last_error st log)
      as [(text & st1 & why & score & _ & _ & Heq) | (a & st1 & Ha & Heq)];
      rewrite Heq in Hrun.
    + injection Hrun as <- <- <-.
      exists [(method_name, Extractor.Accepted)]. simpl. repeat split.
      exists []. split; [reflexivity | constructor].
    + apply IH in Hrun as (attempts & -> & Hnames & Hres).
      exists ((method_name, a) :: attempts). rewrite <- app_assoc.
      split; [reflexivity |]. split; [simpl; f_equal; exact Hnames |].
      destruct res as [art | e].
      * destruct Hres as ((pre & -> & Hpre) & Hfields).
        split; [| exact Hfields].
        exists ((method_name, a) :: pre). split; [reflexivity |].
        constructor; assumption.
      * destruct Hres as (Hall & Hlen & ->). repeat split.
        -- constructor; assumption.
        -- simpl. f_equal. exact Hlen.
Qed.

(** The strategies are attempted once each, in the order configured, until
    one is accepted.  The article returned carries the name of the accepted
    strategy, which is the last attempt; every earlier attempt failed. *)
Theorem extract_content_attempts (extractors : list (string * Extractor.strategy))
    (u : string) (st st' : Extractor.state) (art : ArticleContent)
    (log : list (string * Extractor.attempt)) :
  extract_content extractors u st = (Return art, st', log) →
  log.*1 = take (length log) extractors.*1 ∧
  ∃ pre, log = pre ++ [(extraction_method art, Extractor.Accepted)] ∧ all_failed pre.
Proof.
  unfold Extractor.extract_content. destruct (negb _); [discriminate |].
  intros (attempts & -> & Hnames & Hres & _)%try_extractors_shape.
  split; [exact Hnames | exact Hres].
Qed.


(** Title, author and date come from the newspaper3k back end only: an
    article won by any other strategy has none of the three.  The article
    keeps the URL it was asked for and the domain derived from it. *)
Theorem extract_content_metadata (extractors : list (string * Extractor.strategy))
    (u : string) (st st' : Extractor.state) (art : ArticleContent)
    (log : list (string * Extractor.attempt)) :
  extract_content extractors u st = (Return art, st', log) →
  url art = u ∧
  domain art = Validator.extract_domain urlparse_netloc u ∧
  (extraction_method art ≠ "newspaper3k" →
   title art = None ∧ author art = None ∧ publish_date art = None).
Proof.
  unfold Extractor.extract_content. destruct (negb _); [discriminate |].
  intros (attempts & _ & _ & _ & Hurl & Hdom & Ht & Ha & Hd)%try_extractors_shape.
  split; [exact Hurl |]. split; [exact Hdom |].
  intros Hm. rewrite Ht, Ha, Hd.
  unfold Extractor._extract_title, Extractor._extract_author, Extractor._extract_date.
  apply String.eqb_neq in Hm. rewrite Hm. destruct st'; auto.
Qed.

End ChainShape.

Lemma extract_content_attempts_witness :
  ∃ art st' log,
    Extractor.extract_content Samples.detect_en Samples.any_url
      Samples.urlparse_netloc Samples.chain
      "https://www.example.com/story" None = (Return art, st', log) ∧
    log.*1 = take (length log) Samples.chain.*1.
Proof.
  destruct (Extractor.extract_content Samples.detect_en Samples.any_url
              Samples.urlparse_netloc Samples.chain
              "https://www.example.com/story" None) as [[res st'] log] eqn:Hrun.
  assert (Hret : ∃ art, res = Return art).
  { vm_compute in Hrun. injection Hrun as <- _ _. eexists. reflexivity. }
  destruct Hret as [art ->].
  exists art, st', log. split; [reflexivity |].
  exact (proj1 (extract_content_attempts Samples.detect_en Samples.any_url
                  Samples.urlparse_netloc Samples.chain
                  "https://www.example.com/story" None st' art log Hrun)).
Defined.


Lemma extract_content_metadata_witness :
  ∃ art st' log,
    Extractor.extract_content Samples.detect_en Samples.any_url
      Samples.urlparse_netloc Samples.chain
      "https://www.example.com/story" None = (Return art, st', log) ∧
    url art = "https://www.example.com/story" ∧
    domain art = "example.com".
Proof.
  destruct (Extractor.extract_content Samples.detect_en Samples.any_url
              Samples.urlparse_netloc Samples.chain
              "https://www.example.com/story" None) as [[res st'] log] eqn:Hrun.
  assert (Hret : ∃ art, res = Return art).
  { vm_compute in Hrun. injection Hrun as <- _ _. eexists. reflexivity. }
  destruct Hret as [art ->].
  exists art, st', log. split; [reflexivity |].
  destruct (extract_content_metadata Samples.detect_en Samples.any_url
              Samples.urlparse_netloc Samples.chain
              "https://www.example.com/story" None st' art log Hrun)
    as (Hurl & Hdom & _).
  split; [exact Hurl | rewrite Hdom; reflexivity].
Defined.

(** ** The scraper *)

Section ScraperFacts.

Variable langdetect_detect : string → option string.
Variable validators_url : string → bool.
Variable urlparse_netloc : string → option string.
Variable extractors : list (string * Extractor.strategy).
Variable extract_article_metadata : string → raised Scraper.Metadata.

Local Abbreviation extract_content :=
  (Extractor.extract_content langdetect_detect validators_url urlparse_netloc).
Local Abbreviation scrape_article :=
  (Scraper.scrape_article langdetect_detect validators_url urlparse_netloc
     extractors extract_article_metadata).

Lemma fill_missing_keeps (old new : option string) :
  Scraper.truthy_opt old = true → Scraper.fill_missing old new = old.
Proof. unfold Scraper.fill_missing. intros ->. reflexivity. Qed.

Lemma scrape_article_enrichment_facts (u : string) (st st' : Extractor.state)
    (art : ArticleContent) :
  scrape_article u st = (Return art, st') →
  ∃ found log,
    extract_content extractors u st = (Return found, st', log) ∧
    content art = content found ∧ quality_score art = quality_score found ∧
    extraction_method art = extraction_method found ∧
    domain art = domain found ∧ language art = language found ∧
    url art = url found ∧
    (Scraper.truthy_opt (title found) = true → title art = title found) ∧
    (Scraper.truthy_opt (author found) = true → author art = author found) ∧
    (Scraper.truthy_opt (publish_date found) = true →
     publish_date art = publish_date found) ∧
    (title art ≠ title found → Scraper.truthy_opt (title art) = true) ∧
    (0.3 <= quality_score art)%Q ∧ (quality_score art <= 0.9)%Q.
Proof.
  unfold Scraper.scrape_article. destruct (negb _); [discriminate |].
  destruct (extract_content extractors u st) as [[[found | e] st1] log] eqn:Hrun;
    [| discriminate].
  assert (Hq : (0.3 <= quality_score found)%Q ∧ (quality_score found <= 0.9)%Q).
  { unfold Extractor.extract_content in Hrun. destruct (negb _); [discriminate |].
    clear -Hrun. revert Hrun.
    generalize (@nil (string * Extractor.attempt)) at 1.
    generalize (@None exn). revert st.
    induction extractors as [| [n x] rest IH]; intros st le l Hrun; [discriminate |].
    destruct (try_extractors_cons_error langdetect_detect u
                (Validator.extract_domain urlparse_netloc u) n x rest le st l)
      as [(text & st2 & why & score & _ & Hv & Heq) | (a & st2 & _ & Heq)];
      rewrite Heq in Hrun.
    + injection Hrun as <- _ _. simpl.
      pose proof (validate_extraction_result_facts langdetect_detect text u n) as Hc.
      rewrite Hv in Hc. destruct Hc as (_ & _ & Hs & Hlo & Hhi & _). auto.
    + eapply IH, Hrun. }
  destruct (negb (Scraper.truthy_opt (title found)) ||
            negb (Scraper.truthy_opt (author found))) eqn:Hgap.
  - destruct (extract_article_metadata u) as [md | e]; [| discriminate].
    intros [= <- <-]. exists found, log. split; [reflexivity |].
    unfold Scraper.fill_metadata. simpl.
    repeat split; try (apply fill_missing_keeps); try tauto.
    unfold Scraper.fill_missing.
    destruct (Scraper.truthy_opt (title found)); simpl; [congruence |].
    destruct (Scraper.truthy_opt (Scraper.md_title md)) eqn:Hmd; [auto | congruence].
  - intros [= <- <-]. exists found, log. split; [reflexivity |].
    repeat split; try tauto; congruence.
Qed.

(** Enrichment fills gaps only.  The article [scrape_article] returns is
    the one the chain returned, with the same text, score, method, domain
    and language; a title, author or date the chain supplied is kept, and a
    value filled in is never empty.  Its score is between 0.3 and 0.9. *)
Theorem scrape_article_enrichment (u : string) (st st' : Extractor.state)
    (art : ArticleContent) :
  scrape_article u st = (Return art, st') →
  ∃ found log,
    extract_content extractors u st = (Return found, st', log) ∧
    content art = content found ∧ quality_score art = quality_score found ∧
    extraction_method art = extraction_method found ∧
    domain art = domain found ∧ language art = language found ∧
    url art = url found ∧
    (Scraper.truthy_opt (title found) = true → title art = title found) ∧
    (Scraper.truthy_opt (author found) = true → author art = author found) ∧
    (Scraper.truthy_opt (publish_date found) = true →
     publish_date art = publish_date found) ∧
    (title art ≠ title found → Scraper.truthy_opt (title art) = true) ∧
    (0.3 <= quality_score art)%Q ∧ (quality_score art <= 0.9)%Q.
Proof. exact (scrape_article_enrichment_facts u st st' art). Qed.

(** When the chain supplied both a title and an author the metadata
    extractor has no say: the chain's article is returned as it is. *)
Theorem scrape_article_complete (u : string) (st st' : Extractor.state)
    (found : ArticleContent) (log : list (string * Extractor.attempt)) :
  Validator.validate_url validators_url u = true →
  extract_content extractors u st = (Return found, st', log) →
  Scraper.truthy_opt (title found) = true →
  Scraper.truthy_opt (author found) = true →
  scrape_article u st = (Return found, st').
Proof.
  intros Hurl Hrun Ht Ha. unfold Scraper.scrape_article.
  rewrite Hurl, Hrun, Ht, Ha. reflexivity.
Qed.


End ScraperFacts.

Lemma scrape_article_enrichment_witness :
  ∃ art st',
    Scraper.scrape_article Samples.detect_en Samples.any_url
      Samples.urlparse_netloc Samples.chain Samples.no_metadata
      "https://www.example.com/story" None = (Return art, st') ∧
    (quality_score art <= 0.9)%Q.
Proof.
  destruct (Scraper.scrape_article Samples.detect_en Samples.any_url
              Samples.urlparse_netloc Samples.chain Samples.no_metadata
              "https://www.example.com/story" None) as [res st'] eqn:Hrun.
  assert (Hret : ∃ art, res = Return art).
  { vm_compute in Hrun. injection Hrun as <- _. eexists. reflexivity. }
  destruct Hret as [art ->].
  exists art, st'. split; [reflexivity |].
  destruct (scrape_article_enrichment Samples.detect_en Samples.any_url
              Samples.urlparse_netloc Samples.chain Samples.no_metadata
              "https://www.example.com/story" None st' art Hrun)
    as (found & log & H).
  apply H.
Defined.

Lemma scrape_article_complete_witness :
  ∃ found st',
    Scraper.scrape_article Samples.detect_en Samples.any_url
      Samples.urlparse_netloc Samples.newspaper_chain Samples.no_metadata
      "https://www.example.com/story" None = (Return found, st') ∧
    title found = Some "Bridge to open in spring" ∧
    author found = Some "A. Writer, B. Editor".
Proof.
  destruct (Extractor.extract_content Samples.detect_en Samples.any_url
              Samples.urlparse_netloc Samples.newspaper_chain
              "https://www.example.com/story" None) as [[res st'] log] eqn:Hrun.
  assert (Hret : ∃ found, res = Return found ∧
                          title found = Some "Bridge to open in spring" ∧
                          author found = Some "A. Writer, B. Editor").
  { vm_compute in Hrun. injection Hrun as <- _ _. eexists. repeat split. }
  destruct Hret as (found & -> & Ht & Ha).
  exists found, st'. split; [| split; assumption].
  apply (scrape_article_complete Samples.detect_en Samples.any_url
           Samples.urlparse_netloc Samples.newspaper_chain Samples.no_metadata
           "https://www.example.com/story" None st' found log).
  - reflexivity.
  - exact Hrun.
  - rewrite Ht. reflexivity.
  - rewrite Ha. reflexivity.
Defined.


(** ** What a finished analysis guarantees *)

Lemma ensures_ret {A : Type} (a : A) (P : A → Prop) : P a → ensures (mret a) P.
Proof. intros H st log. exact H. Qed.

Lemma ensures_call {A : Type} (s : Orchestrator.stage) (r : raised A) (P : A → Prop) :
  (∀ a, r = Return a → P a) → ensures (Orchestrator.call s r) P.
Proof.
  intros H st log. unfold Orchestrator.call. destruct r; [apply H; reflexivity | exact I].
Qed.

Lemma ensures_bind {A B : Type} (m : Orchestrator.Pipe A)
    (k : A → Orchestrator.Pipe B) (P : A → Prop) (Q : B → Prop) :
  ensures m P → (∀ a, P a → ensures (k a) Q) → ensures (m ≫= k) Q.
Proof.
  intros Hm Hk st log. specialize (Hm st log).
  unfold mbind, Orchestrator.pipe_bind.
  destruct (m st log) as [[[a | e] st1] log1]; [apply Hk, Hm | exact I].
Qed.

Lemma ensures_any {A : Type} (m : Orchestrator.Pipe A) : ensures m (fun _ => True).
Proof. intros st log. destruct (m st log) as [[[] ?] ?]; exact I. Qed.

Lemma build_AnalysisResult_fields article core_claims language_analysis red_flags
    verification_questions entities source_metrics counter_narrative
    bias_confidence overall_credibility r :
  Orchestrator.build_AnalysisResult article core_claims language_analysis red_flags
    verification_questions entities source_metrics counter_narrative
    bias_confidence overall_credibility = Return r →
  r = {| article := article; core_claims := core_claims;
         language_analysis := language_analysis; red_flags := red_flags;
         verification_questions := verification_questions; entities := entities;
         source_metrics := source_metrics; counter_narrative := counter_narrative;
         bias_confidence := bias_confidence;
         overall_credibility := overall_credibility |} ∧
  (0 <= bias_confidence)%Q ∧ (bias_confidence <= 1)%Q ∧
  (0 <= overall_credibility)%Q ∧ (overall_credibility <= 1)%Q.
Proof.
  unfold Orchestrator.build_AnalysisResult, Orchestrator.in_unit_interval.
  destruct (_ && _) eqn:H; [| discriminate]. intros [= <-].
  rewrite !andb_true_iff in H. destruct H as [[H1 H2] [H3 H4]].
  apply Qle_bool_iff in H1, H2, H3, H4. auto.
Qed.

Lemma merge_language_analysis_caps (traditional ai : LanguageAnalysis) :
  let merged := Orchestrator._merge_language_analysis traditional ai in
  length (bias_indicators merged) ≤ 15 ∧ length (loaded_language merged) ≤ 15 ∧
  length (emotional_words merged) ≤ 15 ∧ length (persuasive_techniques merged) ≤ 10.
Proof. simpl. rewrite !length_take. lia. Qed.

Section PipelineSuccess.

Variable AIData : Type.
Variable langdetect_detect : string → option string.
Variable validators_url : string → bool.
Variable urlparse_netloc : string → option string.
Variable extractors : list (string * Extractor.strategy).
Variable extract_article_metadata : string → raised Scraper.Metadata.
Variable extract_entities : string → option string → raised (list Entity).
Variable extract_source_metrics : string → string → raised (option SourceMetrics).
Variable extract_claims : string → option string → raised (list Claim).
Variable detect_language_bias : string → option string → raised LanguageAnalysis.
Variable detect_structural_bias : string → raised (list RedFlag).
Variable ai_analyze_article : ArticleContent → string → raised AIData.
Variable parse_analysis_to_models : AIData → raised Orchestrator.ParsedAI.
Variable generate_verification_questions :
  list Claim → list Entity → string → string → raised (list VerificationQuestion).
Variable generate_counter_narrative : AnalysisResult → raised (option CounterNarrative).
Variable format_analysis_report : AnalysisResult → raised string.
Variable print : string → raised unit.
Variable format_2f : Q → string.

Local Abbreviation scrape :=
  (Orchestrator.scrape langdetect_detect validators_url urlparse_netloc
     extractors extract_article_metadata).
Local Abbreviation pipeline :=
  (Orchestrator.pipeline AIData langdetect_detect validators_url urlparse_netloc
     extractors extract_article_metadata extract_entities extract_source_metrics
     extract_claims detect_language_bias detect_structural_bias ai_analyze_article
     parse_analysis_to_models generate_verification_questions
     generate_counter_narrative format_analysis_report print).
Local Abbreviation analyze_article :=
  (Orchestrator.analyze_article AIData langdetect_detect validators_url
     urlparse_netloc extractors extract_article_metadata extract_entities
     extract_source_metrics extract_claims detect_language_bias
     detect_structural_bias ai_analyze_article parse_analysis_to_models
     generate_verification_questions generate_counter_narrative
     format_analysis_report print format_2f).

Lemma ensures_scrape (u : string) :
  ensures (scrape u)
    (fun art => (0.3 <= quality_score art)%Q ∧ (quality_score art <= 0.9)%Q).
Proof.
  intros st log. unfold Orchestrator.scrape.
  destruct (Scraper.scrape_article _ _ _ _ _ u st) as [[art | e] st1] eqn:Hrun;
    [| exact I].
  apply scrape_article_enrichment_facts in Hrun as (found & l & H). simpl. tauto.
Qed.

Lemma ensures_pipeline (request : AnalysisRequest) :
  ensures (pipeline request)
    (fun out => within_caps (fst out) ∧ honours request (fst out)).
Proof.
  unfold Orchestrator.pipeline, Orchestrator.say.
  eapply ensures_bind; [apply ensures_any |]. intros ? _.
  eapply ensures_bind; [apply ensures_any |]. intros ? _.
  eapply ensures_bind; [apply ensures_scrape |]. intros article_content Hart.
  simpl in Hart. destruct Hart as [Hq1 Hq2].
  eapply (ensures_bind _ _
            (fun es => include_entity_analysis request = false → es = [])).
  { destruct (include_entity_analysis request);
      [eapply ensures_bind; [apply ensures_any |]; intros ? _;
       apply ensures_call; discriminate
      | apply ensures_ret; reflexivity]. }
  intros entities Hent.
  eapply (ensures_bind _ _
            (fun sm => include_source_check request = false → sm = None)).
  { destruct (include_source_check request);
      [eapply ensures_bind; [apply ensures_any |]; intros ? _;
       apply ensures_call; discriminate
      | apply ensures_ret; reflexivity]. }
  intros source_metrics Hsm.
  eapply ensures_bind; [apply ensures_any |]. intros ? _.
  eapply ensures_bind; [apply ensures_any |]. intros traditional_claims _.
  eapply ensures_bind; [apply ensures_any |]. intros ? _.
  eapply ensures_bind; [apply ensures_any |]. intros traditional_language _.
  eapply ensures_bind; [apply ensures_any |]. intros traditional_flags _.
  eapply ensures_bind; [apply ensures_any |]. intros ? _.
  eapply ensures_bind; [apply ensures_any |]. intros ai_data _.
  eapply ensures_bind; [apply ensures_any |]. intros ? _.
  eapply ensures_bind; [apply ensures_any |]. intros parsed_ai _.
  eapply ensures_bind; [apply ensures_any |]. intros ? _.
  eapply ensures_bind; [apply ensures_any |]. intros verification_questions _.
  eapply (ensures_bind _ _
            (fun cn => include_counter_narrative request = false → cn = None)).
  { destruct (include_counter_narrative request);
      [intros st log; match goal with |- match ?m st log with _ => _ end => destruct (m st log) as [[[] ?] ?] end; [discriminate | exact I] | apply ensures_ret; reflexivity]. }
  intros counter_narrative Hcn.
  eapply ensures_bind.
  { apply ensures_call. intros r Hr. apply build_AnalysisResult_fields in Hr. exact Hr. }
  intros r (-> & Hb1 & Hb2 & Ho1 & Ho2).
  eapply ensures_bind; [apply ensures_any |]. intros ? _.
  eapply ensures_bind; [apply ensures_any |]. intros md _.
  apply ensures_ret. simpl. split.
  - unfold within_caps. simpl.
    pose proof (merge_language_analysis_caps traditional_language
                  (Orchestrator.ai_language_analysis parsed_ai))
      as (? & ? & ? & ?).
    unfold Orchestrator._merge_claims, Orchestrator._merge_red_flags.
    rewrite !length_take. repeat split; try assumption; lia.
  - repeat split; assumption.
Qed.

(** A successful response carries a result and a report and no error; the
    result has at most 8 claims and 10 red flags, language lists within
    15, 15, 15 and 10 items, both scalar scores in [0,1] and an article
    score in [0.3, 0.9]; entities, source metrics and counter-narrative are
    absent when the request did not ask for them. *)
Theorem analyze_article_success_result (request : AnalysisRequest)
    (time_time : nat → Q) (st st' : Extractor.state)
    (response : AnalysisResponse) (log : list Orchestrator.event) :
  analyze_article request time_time st = (Return response, st', log) →
  success response = true →
  ∃ r md, result response = Some r ∧ markdown_report response = Some md ∧
          error response = None ∧ within_caps r ∧ honours request r.
Proof.
  unfold Orchestrator.analyze_article. intros Hrun Hok.
  pose proof (ensures_pipeline request st []) as Hens.
  destruct (pipeline request st []) as [[[[r md] | e] st1] log1].
  - destruct (print _) as [[] | e].
    + injection Hrun as <- <- <-. exists r, md. simpl in *. tauto.
    + destruct (on_exception_cases print e (time_time 2%nat - time_time 0%nat))
        as [[_ Hon] | (e2 & _ & Hon)]; rewrite Hon in Hrun; [| discriminate].
      injection Hrun as <- _ _. discriminate.
  - destruct (on_exception_cases print e (time_time 1%nat - time_time 0%nat))
      as [[_ Hon] | (e2 & _ & Hon)]; rewrite Hon in Hrun; [| discriminate].
    injection Hrun as <- _ _. discriminate.
Qed.

(** A failed response reports the first exception raised: the call that
    raised it is the last one in the log, every call before it returned,
    and no call of the [try] block ran after it. *)
Theorem analyze_article_failure (request : AnalysisRequest)
    (time_time : nat → Q) (st st' : Extractor.state)
    (response : AnalysisResponse) (log : list Orchestrator.event) :
  analyze_article request time_time st = (Return response, st', log) →
  success response = false →
  ∃ l s e, log = l ++ [(s, Some e)] ∧ quiet l ∧
           error response = Some ("Analysis failed: " +:+ exn_str e) ∧
           result response = None ∧ markdown_report response = None.
Proof.
  intros Hrun Hko.
  destruct (analyze_article_cases AIData langdetect_detect validators_url
              urlparse_netloc extractors extract_article_metadata
              extract_entities extract_source_metrics extract_claims
              detect_language_bias detect_structural_bias ai_analyze_article
              parse_analysis_to_models generate_verification_questions
              generate_counter_narrative format_analysis_report print format_2f
              request time_time st)
    as [(r & md & st1 & log1 & _ & Heq) | (e & st1 & l & s & k & Hq & _ & Heq)];
    rewrite Heq in Hrun.
  - injection Hrun as <- _ _. discriminate.
  - destruct (on_exception_cases print e (time_time k - time_time 0%nat))
      as [[_ Hon] | (e2 & _ & Hon)]; rewrite Hon in Hrun; [| discriminate].
    injection Hrun as <- <- <-. exists l, s, e. auto.
Qed.

End PipelineSuccess.

Lemma analyze_article_success_result_witness :
  ∃ response r,
    fst (fst (Samples.analyze Samples.chain 0.7 10 12.5)) = Return response ∧
    result response = Some r ∧ within_caps r.
Proof.
  destruct (Samples.analyze Samples.chain 0.7 10 12.5)
    as [[[response | e] st'] log] eqn:Hrun; [| vm_compute in Hrun; discriminate].
  assert (Hok : success response = true).
  { vm_compute in Hrun. injection Hrun as <- _ _. reflexivity. }
  unfold Samples.analyze, Samples.analyze_on in Hrun.
  destruct (analyze_article_success_result _ _ _ _ _ _ _ _ _ _ _ _ _ _ _ _ _ _ _ _ _ _ _ _
              Hrun Hok) as (r & md & Hr & _ & _ & Hcaps & _).
  exists response, r. split; [reflexivity |]. split; [exact Hr | exact Hcaps].
Defined.

Lemma analyze_article_failure_witness :
  ∃ response msg,
    fst (fst (Samples.analyze Samples.chain 1.7 10 12.5)) = Return response ∧
    error response = Some msg.
Proof.
  destruct (Samples.analyze Samples.chain 1.7 10 12.5)
    as [[[response | e] st'] log] eqn:Hrun; [| vm_compute in Hrun; discriminate].
  assert (Hko : success response = false).
  { vm_compute in Hrun. injection Hrun as <- _ _. reflexivity. }
  unfold Samples.analyze, Samples.analyze_on in Hrun.
  destruct (analyze_article_failure _ _ _ _ _ _ _ _ _ _ _ _ _ _ _ _ _ _ _ _ _ _ _ _
              Hrun Hko) as (l & s & e & _ & _ & Herr & _).
  eexists _, _. split; [reflexivity | exact Herr].
Defined.

(** ** Merging the language analysis *)

Lemma append_missing_spec (items merged : list string) :
  ∃ added, Orchestrator.append_missing merged items = merged ++ added ∧
           (NoDup merged → NoDup (merged ++ added)) ∧
           NoDup added ∧
           added `sublist_of` items ∧
           ∀ x, x ∈ added ↔ x ∈ items ∧ x ∉ merged.
Proof.
  unfold Orchestrator.append_missing.
  revert merged. induction items as [| y items IH]; intros merged; simpl.
  - exists []. rewrite app_nil_r.
    split; [reflexivity |]. split; [auto |]. split; [constructor |].
    split; [constructor |].
    intros x. split; [intros Hx; inversion Hx | intros [Hx _]; inversion Hx].
  - destruct (bool_decide (y ∈ merged)) eqn:Hy.
    + apply bool_decide_eq_true in Hy.
      destruct (IH merged) as (added & -> & Hnd & Hadd & Hsub & Hin).
      exists added.
      split; [reflexivity |]. split; [exact Hnd |]. split; [exact Hadd |].
      split; [apply sublist_cons, Hsub |].
      intros x. rewrite Hin, elem_of_cons. split; [tauto |].
      intros [[-> | Hx] Hnot]; [contradiction | tauto].
    + apply bool_decide_eq_false in Hy.
      destruct (IH (merged ++ [y])) as (added & -> & Hnd & Hadd & Hsub & Hin).
      exists (y :: added). rewrite <- app_assoc. simpl.
      assert (Hfresh : y ∉ added).
      { intros Hyin%Hin. apply (proj2 Hyin). apply elem_of_app. right. left. }
      split; [reflexivity |]. split; [| split; [| split]].
      * intros Hm. change (merged ++ y :: added) with (merged ++ [y] ++ added).
        rewrite (assoc_L (++)). apply Hnd.
        apply NoDup_app. repeat split; [exact Hm | | apply NoDup_singleton].
        intros x Hx ->%list_elem_of_singleton. contradiction.
      * apply NoDup_cons. split; assumption.
      * apply sublist_skip, Hsub.
      * intros x. rewrite !elem_of_cons, Hin, elem_of_app, list_elem_of_singleton.
        split.
        -- intros [-> | [Hx Hnot]]; [tauto |]. split; [tauto |].
           intros Hm. apply Hnot. tauto.
        -- intros [[-> | Hx] Hnot]; [tauto |].
           destruct (decide (x = y)) as [-> | Hne]; [tauto | right].
           split; [exact Hx | tauto].
Qed.

Lemma filter_all {A : Type} (p : A → bool) (l : list A) :
  Forall (fun x => p x = true) l → List.filter p l = l.
Proof.
  induction 1 as [| x l Hx _ IH]; [reflexivity |]. simpl. rewrite Hx, IH. reflexivity.
Qed.

Lemma filter_comm {A : Type} (p q : A → bool) (l : list A) :
  List.filter p (List.filter q l) = List.filter q (List.filter p l).
Proof.
  induction l as [| x l IH]; [reflexivity |]. simpl.
  destruct (q x) eqn:Hq, (p x) eqn:Hp; simpl; rewrite ?Hq, ?Hp, IH; reflexivity.
Qed.

Lemma filter_filter_and {A : Type} (p q : A → bool) (l : list A) :
  List.filter p (List.filter q l) = List.filter (fun x => q x && p x) l.
Proof.
  induction l as [| x l IH]; [reflexivity |]. simpl.
  destruct (q x); simpl; [destruct (p x) |]; rewrite IH; reflexivity.
Qed.

Lemma first_occurrences_In (l : list string) (x : string) :
  In x (first_occurrences l) → In x l.
Proof.
  induction l as [| y l IH]; [auto |]. simpl.
  intros [-> | Hx]; [auto |]. apply filter_In in Hx as [Hx _]. auto.
Qed.

Lemma filter_first_occurrences (p : string → bool) (l : list string) :
  List.filter p (first_occurrences l) = first_occurrences (List.filter p l).
Proof.
  induction l as [| x l IH]; [reflexivity |]. cbn [first_occurrences List.filter].
  destruct (p x) eqn:Hp.
  - cbn [first_occurrences]. rewrite filter_comm, IH. reflexivity.
  - rewrite filter_comm, IH. apply filter_all, Forall_forall.
    intros y Hy%list_elem_of_In%first_occurrences_In%filter_In.
    destruct Hy as [_ Hy]. apply negb_true_iff, String.eqb_neq.
    intros ->. congruence.
Qed.

(** The loop that appends the missing items, in closed form. *)
Lemma append_missing_first_occurrences (items merged : list string) :
  Orchestrator.append_missing merged items =
  merged ++ first_occurrences
              (List.filter (fun x => negb (bool_decide (x ∈ merged))) items).
Proof.
  unfold Orchestrator.append_missing.
  revert merged. induction items as [| y items IH]; intros merged.
  - simpl. rewrite app_nil_r. reflexivity.
  - cbn [fold_left List.filter]. destruct (bool_decide (y ∈ merged)) eqn:Hy.
    + cbn [negb]. apply IH.
    + cbn [negb first_occurrences]. rewrite IH, <- app_assoc. cbn [app].
      do 2 f_equal. rewrite filter_first_occurrences, filter_filter_and.
      f_equal. apply filter_ext. intros x.
      destruct (String.eqb_spec x y) as [-> | Hne].
      * rewrite andb_false_r. apply negb_false_iff, bool_decide_eq_true.
        apply elem_of_app. right. left.
      * rewrite andb_true_r. f_equal. apply bool_decide_ext.
        rewrite elem_of_app, list_elem_of_singleton. tauto.
Qed.

(** The tone is the AI's.  Each list is the AI list followed by the
    heuristic items that are not in it, each once and in the order of their
    first occurrence in the heuristic list, the whole cut at 15, 15, 15 and
    10 items. *)
Theorem merge_language_analysis_spec (traditional ai : LanguageAnalysis) :
  let merged := Orchestrator._merge_language_analysis traditional ai in
  tone merged = tone ai ∧
  bias_indicators merged =
    ai_then_missing 15 (bias_indicators ai) (bias_indicators traditional) ∧
  loaded_language merged =
    ai_then_missing 15 (loaded_language ai) (loaded_language traditional) ∧
  emotional_words merged =
    ai_then_missing 15 (emotional_words ai) (emotional_words traditional) ∧
  persuasive_techniques merged =
    ai_then_missing 10 (persuasive_techniques ai) (persuasive_techniques traditional).
Proof.
  cbn. unfold ai_then_missing. rewrite !append_missing_first_occurrences.
  repeat split; reflexivity.
Qed.

Example merge_language_analysis_repeated_item :
  bias_indicators
    (Orchestrator._merge_language_analysis
       {| tone := NEUTRAL; bias_indicators := ["a"; "b"; "a"; "c"];
          loaded_language := []; emotional_words := [];
          persuasive_techniques := [] |}
       {| tone := NEUTRAL; bias_indicators := ["c"];
          loaded_language := []; emotional_words := [];
          persuasive_techniques := [] |}) = ["c"; "a"; "b"].
Proof. vm_compute. reflexivity. Qed.

(** A merged list never repeats an item unless the AI list did. *)
Theorem merge_language_analysis_nodup (traditional ai : LanguageAnalysis) :
  let merged := Orchestrator._merge_language_analysis traditional ai in
  (NoDup (bias_indicators ai) → NoDup (bias_indicators merged)) ∧
  (NoDup (loaded_language ai) → NoDup (loaded_language merged)) ∧
  (NoDup (emotional_words ai) → NoDup (emotional_words merged)) ∧
  (NoDup (persuasive_techniques ai) → NoDup (persuasive_techniques merged)).
Proof.
  assert (H : ∀ cap ai_list trad,
             NoDup ai_list → NoDup (take cap (Orchestrator.append_missing ai_list trad))).
  { intros cap ai_list trad Hnd.
    destruct (append_missing_spec trad ai_list) as (added & -> & Hall & _).
    apply (sublist_NoDup _ (ai_list ++ added)); [auto | apply sublist_take]. }
  simpl. repeat split; apply H.
Qed.

Example merge_language_analysis_sample :
  bias_indicators
    (Orchestrator._merge_language_analysis
       {| tone := EMOTIONAL; bias_indicators := ["always"; "never"; "always"; "clearly"];
          loaded_language := []; emotional_words := []; persuasive_techniques := [] |}
       {| tone := NEUTRAL; bias_indicators := ["never"; "obviously"];
          loaded_language := []; emotional_words := []; persuasive_techniques := [] |}) =
  ["never"; "obviously"; "always"; "clearly"].
Proof. vm_compute. reflexivity. Qed.

Lemma merge_language_analysis_nodup_witness :
  NoDup (bias_indicators
           (Orchestrator._merge_language_analysis
              {| tone := EMOTIONAL; bias_indicators := ["always"; "never"; "always"];
                 loaded_language := []; emotional_words := [];
                 persuasive_techniques := [] |}
              {| tone := NEUTRAL; bias_indicators := ["never"; "obviously"];
                 loaded_language := []; emotional_words := [];
                 persuasive_techniques := [] |})).
Proof.
  apply (merge_language_analysis_nodup
           {| tone := EMOTIONAL; bias_indicators := ["always"; "never"; "always"];
              loaded_language := []; emotional_words := [];
              persuasive_techniques := [] |}
           {| tone := NEUTRAL; bias_indicators := ["never"; "obviously"];
              loaded_language := []; emotional_words := [];
              persuasive_techniques := [] |}).
  apply (bool_decide_unpack _). vm_compute. exact I.
Defined.

(** ** What the merges never return *)

Section NoCollision.

Context {A : Type} (collides : A → A → bool).

Hypothesis collides_sym : ∀ x y, collides x y = collides y x.

Lemma no_collision_snoc (l : list A) (x : A) :
  Spec.no_collision collides l →
  Forall (fun k => collides x k = false) l →
  Spec.no_collision collides (l ++ [x]).
Proof.
  induction l as [| k l IH]; intros Hl Hx; simpl.
  - split; constructor.
  - destruct Hl as [Hk Hl]. apply Forall_cons in Hx as [Hxk Hx].
    split; [| apply IH; assumption].
    apply Forall_app. split; [exact Hk | constructor; [exact Hxk | constructor]].
Qed.

Lemma keep_first_seen_no_collision (l kept : list A) :
  Spec.no_collision collides kept →
  Spec.no_collision collides (Spec.keep_first_seen collides kept l).
Proof.
  revert kept. induction l as [| x l IH]; intros kept Hkept; simpl; [exact Hkept |].
  destruct (existsb (collides x) kept) eqn:Hx; apply IH; [exact Hkept |].
  apply no_collision_snoc; [exact Hkept |].
  apply Forall_forall. intros k Hk. apply not_true_iff_false. intros Hc.
  apply not_true_iff_false in Hx. apply Hx, existsb_exists.
  exists k. split; [apply list_elem_of_In, Hk | exact Hc].
Qed.

Lemma no_collision_perm (l k : list A) :
  l ≡ₚ k → Spec.no_collision collides l → Spec.no_collision collides k.
Proof.
  induction 1 as [| x l k Hperm IH | x y l | l k m _ IH1 _ IH2]; simpl.
  - auto.
  - intros [Hx Hl]. split; [rewrite <- Hperm; exact Hx | apply IH, Hl].
  - intros [Hy [Hx Hl]]. apply Forall_cons in Hy as [Hxy Hy].
    split; [constructor; [rewrite collides_sym; exact Hxy | exact Hx] |].
    split; assumption.
  - auto.
Qed.

Lemma no_collision_take (n : nat) (l : list A) :
  Spec.no_collision collides l → Spec.no_collision collides (take n l).
Proof.
  revert n. induction l as [| x l IH]; intros [| n]; simpl; auto.
  intros [Hx Hl]. split; [apply Forall_take, Hx | apply IH, Hl].
Qed.

(** Reading a list again changes nothing. *)
Lemma keep_first_seen_idempotent (l : list A) :
  Spec.keep_first_seen collides []
    (Spec.keep_first_seen collides [] l) = Spec.keep_first_seen collides [] l.
Proof.
  rewrite (keep_first_seen_all collides _ []).
  - reflexivity.
  - apply Forall_forall. intros; constructor.
  - apply keep_first_seen_no_collision. exact I.
Qed.

End NoCollision.

Lemma keep_first_seen_sublist {A : Type} (collides : A → A → bool) (l kept : list A) :
  ∃ l', Spec.keep_first_seen collides kept l = kept ++ l' ∧ l' `sublist_of` l.
Proof.
  revert kept. induction l as [| x l IH]; intros kept; simpl.
  - exists []. rewrite app_nil_r. split; [reflexivity | constructor].
  - destruct (existsb (collides x) kept).
    + destruct (IH kept) as (l' & -> & Hsub). exists l'.
      split; [reflexivity | apply sublist_cons, Hsub].
    + destruct (IH (kept ++ [x])) as (l' & -> & Hsub). exists (x :: l').
      rewrite <- app_assoc. split; [reflexivity | apply sublist_skip, Hsub].
Qed.

Lemma jaccard_index_sym (a b : gset string) :
  Spec.jaccard_index a b = Spec.jaccard_index b a.
Proof.
  unfold Spec.jaccard_index.
  rewrite (union_comm_L b a), (intersection_comm_L b a). reflexivity.
Qed.

Lemma similar_claims_sym (c1 c2 : Claim) :
  Spec.similar_claims c1 c2 = Spec.similar_claims c2 c1.
Proof. unfold Spec.similar_claims. rewrite jaccard_index_sym. reflexivity. Qed.

Lemma same_description_sym (f1 f2 : RedFlag) :
  Spec.same_description f1 f2 = Spec.same_description f2 f1.
Proof. unfold Spec.same_description. apply String.eqb_sym. Qed.

(** The merged claims are claims of the two inputs, and no two of them are
    similar: the Jaccard similarity of the normalized word-sets of any two
    claims returned is at most 0.6. *)
Theorem merge_claims_distinct (traditional_claims ai_claims : list Claim) :
  let merged := Orchestrator._merge_claims traditional_claims ai_claims in
  Spec.no_collision Spec.similar_claims merged ∧
  (∀ c, c ∈ merged → c ∈ traditional_claims ++ ai_claims) ∧
  (∀ i j c1 c2, i ≠ j → merged !! i = Some c1 → merged !! j = Some c2 →
     (Spec.jaccard_index (Spec.word_set (claim c1)) (Spec.word_set (claim c2)) <= 0.6)%Q).
Proof.
  intros merged.
  pose (survivors := Spec.keep_first_seen Spec.similar_claims []
                       (traditional_claims ++ ai_claims)).
  assert (Hrun : merged = take 8 (sorted_reverse confidence Qlt_bool survivors)).
  { unfold merged, Orchestrator._merge_claims. rewrite merge_claims_survivors.
    reflexivity. }
  pose proof (sorted_reverse_perm confidence Qlt_bool survivors) as Hperm.
  subst survivors.
  assert (Hnc : Spec.no_collision Spec.similar_claims merged).
  { rewrite Hrun. apply no_collision_take.
    eapply (no_collision_perm _ similar_claims_sym); [symmetry; exact Hperm |].
    apply keep_first_seen_no_collision. exact I. }
  split; [exact Hnc |]. split.
  - intros c Hc. rewrite Hrun in Hc. eapply elem_of_sublist in Hc; [| apply sublist_take].
    rewrite Hperm in Hc.
    destruct (keep_first_seen_sublist Spec.similar_claims
                (traditional_claims ++ ai_claims) []) as (l' & Heq & Hsub).
    rewrite Heq in Hc. simpl in Hc. eapply elem_of_sublist; eassumption.
  - assert (Hpair : ∀ l, Spec.no_collision Spec.similar_claims l →
              ∀ i j c1 c2, i < j → l !! i = Some c1 → l !! j = Some c2 →
                           Spec.similar_claims c2 c1 = false).
    { induction l as [| x l IH]; intros Hl i j c1 c2 Hij H1 H2; [discriminate |].
      destruct Hl as [Hx Hl]. destruct j as [| j]; [lia |]. simpl in H2.
      destruct i as [| i].
      - injection H1 as <-. rewrite Forall_forall in Hx. apply Hx.
        eapply list_elem_of_lookup_2, H2.
      - simpl in H1. apply (IH Hl i j); [lia | assumption..]. }
    intros i j c1 c2 Hne H1 H2.
    assert (Hs : Spec.similar_claims c1 c2 = false).
    { destruct (Nat.lt_total i j) as [Hlt | [-> | Hgt]]; [| contradiction |].
      - rewrite similar_claims_sym. eapply Hpair; eassumption.
      - eapply Hpair; eassumption. }
    apply Qlt_bool_false, Hs.
Qed.

(** The merged red flags are flags of the two inputs, and no two of them
    have the same normalized description. *)
Theorem merge_red_flags_distinct (traditional_flags ai_flags : list RedFlag) :
  let merged := Orchestrator._merge_red_flags traditional_flags ai_flags in
  NoDup ((fun f => Spec.normalized (description f)) <$> merged) ∧
  (∀ f, f ∈ merged → f ∈ traditional_flags ++ ai_flags).
Proof.
  intros merged.
  pose (survivors := Spec.keep_first_seen Spec.same_description []
                       (traditional_flags ++ ai_flags)).
  assert (Hrun : merged = take 10 (sorted_reverse Orchestrator.flag_key pair_ltb survivors)).
  { unfold merged, Orchestrator._merge_red_flags. rewrite merge_flags_survivors.
    reflexivity. }
  pose proof (sorted_reverse_perm Orchestrator.flag_key pair_ltb survivors) as Hperm.
  subst survivors.
  split.
  - assert (Hnc : Spec.no_collision Spec.same_description merged).
    { rewrite Hrun. apply no_collision_take.
      eapply (no_collision_perm _ same_description_sym); [symmetry; exact Hperm |].
      apply keep_first_seen_no_collision. exact I. }
    clear -Hnc. induction merged as [| x l IH]; [constructor |].
    destruct Hnc as [Hx Hl]. rewrite fmap_cons. apply NoDup_cons.
    split; [| apply IH, Hl].
    intros (y & Heq & Hy)%list_elem_of_fmap.
    rewrite Forall_forall in Hx. specialize (Hx y Hy).
    unfold Spec.same_description in Hx. apply String.eqb_neq in Hx. congruence.
  - intros f Hf. rewrite Hrun in Hf. eapply elem_of_sublist in Hf; [| apply sublist_take].
    rewrite Hperm in Hf.
    destruct (keep_first_seen_sublist Spec.same_description
                (traditional_flags ++ ai_flags) []) as (l' & Heq & Hsub).
    rewrite Heq in Hf. simpl in Hf. eapply elem_of_sublist; eassumption.
Qed.

(** De-duplicating the heuristic claims keeps a sub-list of them, in
    their order, and de-duplicating again changes nothing. *)
Theorem deduplicate_claims_idempotent (claims : list Claim) :
  ClaimExtractor._deduplicate_claims claims `sublist_of` claims ∧
  ClaimExtractor._deduplicate_claims (ClaimExtractor._deduplicate_claims claims) =
  ClaimExtractor._deduplicate_claims claims.
Proof.
  rewrite !deduplicate_claims_first_seen. split.
  - destruct (keep_first_seen_sublist
                (fun c1 c2 => ClaimExtractor._claims_similar
                                (ClaimExtractor.simplify (claim c1))
                                (ClaimExtractor.simplify (claim c2))) claims [])
      as (l' & -> & Hsub). exact Hsub.
  - apply keep_first_seen_idempotent.
Qed.

(** ** Cleaning the text *)

Lemma collapse_ws_plain (s : string) (in_run : bool) :
  string_all plain (Re.collapse_ws_go in_run s) = true.
Proof.
  revert in_run. induction s as [| c s IH]; intros in_run; [reflexivity |].
  simpl. destruct (Py.is_space c) eqn:Hc.
  - destruct in_run; [apply IH |]. simpl. apply IH.
  - simpl. unfold plain at 1. rewrite Hc. simpl. apply IH.
Qed.

Lemma remove_ci_from_all (P : ascii → bool) (pat s : string) (skip : nat) :
  string_all P s = true → string_all P (Re.remove_ci_from pat skip s) = true.
Proof.
  revert skip. induction s as [| c s IH]; intros skip H; [reflexivity |].
  simpl in H. apply andb_true_iff in H as [Hc Hs].
  cbn [Re.remove_ci_from]. destruct skip as [| k]; [| apply IH, Hs].
  destruct (String.prefix _ _); [apply IH, Hs |].
  simpl. rewrite Hc. apply IH, Hs.
Qed.

Lemma remove_ci_all (P : ascii → bool) (pat s : string) :
  string_all P s = true → string_all P (Re.remove_ci pat s) = true.
Proof. destruct pat; [auto | apply remove_ci_from_all]. Qed.

Lemma remove_artifacts_all (P : ascii → bool) (l : list string) (s : string) :
  string_all P s = true →
  string_all P (fold_left (fun c artifact => Re.remove_ci artifact c) l s) = true.
Proof.
  revert s. induction l as [| a l IH]; intros s H; [exact H |].
  simpl. apply IH, remove_ci_all, H.
Qed.

(** Without a newline there is no blank line to squeeze. *)
Lemma squeeze_blank_plain (s : string) :
  string_all plain s = true → Re.squeeze_blank_go 0 s = s.
Proof.
  induction s as [| c s IH]; intros H; [reflexivity |].
  simpl in H. apply andb_true_iff in H as [Hc Hs].
  cbn [Re.squeeze_blank_go].
  assert (Hnl : Ascii.eqb c Py.nl = false).
  { destruct (Ascii.eqb_spec c Py.nl) as [-> | Hne]; [discriminate Hc | reflexivity]. }
  rewrite Hnl, IH by exact Hs. reflexivity.
Qed.

Lemma lstrip_all (P : ascii → bool) (s : string) :
  string_all P s = true → string_all P (Py.lstrip s) = true.
Proof.
  induction s as [| c s IH]; intros H; [reflexivity |].
  simpl. destruct (Py.is_space c); [| exact H].
  simpl in H. apply andb_true_iff in H as [_ Hs]. apply IH, Hs.
Qed.

Lemma rstrip_cons (c : ascii) (s : string) :
  Py.rstrip (String c s) =
  match Py.rstrip s with
  | EmptyString => if Py.is_space c then EmptyString else String c EmptyString
  | r => String c r
  end.
Proof. reflexivity. Qed.

Lemma rstrip_all (P : ascii → bool) (s : string) :
  string_all P s = true → string_all P (Py.rstrip s) = true.
Proof.
  induction s as [| c s IH]; intros H; [reflexivity |].
  simpl in H. apply andb_true_iff in H as [Hc Hs]. specialize (IH Hs).
  rewrite rstrip_cons. destruct (Py.rstrip s) as [| c' r].
  - destruct (Py.is_space c); [reflexivity |]. simpl. rewrite Hc. reflexivity.
  - cbn [string_all]. rewrite Hc. exact IH.
Qed.

Lemma rstrip_idempotent (s : string) : Py.rstrip (Py.rstrip s) = Py.rstrip s.
Proof.
  induction s as [| c s IH]; [reflexivity |].
  rewrite rstrip_cons. destruct (Py.rstrip s) as [| c' r] eqn:Hr.
  - destruct (Py.is_space c) eqn:Hc; [reflexivity |].
    rewrite rstrip_cons. simpl. rewrite Hc. reflexivity.
  - rewrite rstrip_cons, IH. reflexivity.
Qed.

(** A text that does not start with whitespace keeps its first character
    under [rstrip], and [lstrip] leaves it alone. *)
Lemma lstrip_rstrip (s : string) :
  Py.lstrip (Py.rstrip (Py.lstrip s)) = Py.rstrip (Py.lstrip s).
Proof.
  assert (H : ∀ t, match t with String c _ => Py.is_space c = false | _ => True end →
                   Py.lstrip (Py.rstrip t) = Py.rstrip t).
  { intros [| c t] Hc; [reflexivity |]. rewrite rstrip_cons.
    destruct (Py.rstrip t); [rewrite Hc |]; simpl; rewrite Hc; reflexivity. }
  apply H. induction s as [| c s IH]; [exact I |].
  simpl. destruct (Py.is_space c) eqn:Hc; [exact IH | exact Hc].
Qed.

Lemma strip_idempotent (s : string) : Py.strip (Py.strip s) = Py.strip s.
Proof.
  unfold Py.strip. rewrite lstrip_rstrip, rstrip_idempotent. reflexivity.
Qed.

(** [clean_content] returns a text whose only whitespace is the plain space
    and that neither starts nor ends with one; its last substitution, for
    blank lines, never finds anything to replace because no newline is left
    after the first. *)
Theorem clean_content_plain (content : string) :
  let cleaned := Validator.clean_content content in
  string_all plain cleaned = true ∧
  Py.strip cleaned = cleaned ∧
  cleaned = Py.strip (fold_left (fun c artifact => Re.remove_ci artifact c)
                                Validator.artifacts (Re.collapse_ws content)).
Proof.
  unfold Validator.clean_content.
  destruct content as [| c content]; [repeat split |].
  set (text := String c content). cbn [Py.truthy negb].
  assert (Hplain : string_all plain
            (fold_left (fun c artifact => Re.remove_ci artifact c)
                       Validator.artifacts (Re.collapse_ws text)) = true).
  { apply remove_artifacts_all, collapse_ws_plain. }
  unfold Re.squeeze_blank. rewrite (squeeze_blank_plain _ Hplain).
  split; [| split; [apply strip_idempotent | reflexivity]].
  unfold Py.strip. apply rstrip_all, lstrip_all, Hplain.
Qed.

Example clean_content_sample :
  Validator.clean_content
    (String Py.nl "  Bridge   opens" +:+ String Py.nl (String Py.nl
       "Share THIS article  now. [Advertisement] ")) =
  "Bridge opens  now. []".
Proof. vm_compute. reflexivity. Qed.

(** ** More on the domain of a URL *)

Lemma lower_char_idempotent (c : ascii) : Py.lower_char (Py.lower_char c) = Py.lower_char c.
Proof. destruct c as [[] [] [] [] [] [] [] []]; reflexivity. Qed.

Lemma lower_lowered (s : string) : string_all is_lowered (Py.lower s) = true.
Proof.
  induction s as [| c s IH]; [reflexivity |]. simpl. rewrite IH, andb_true_r.
  unfold is_lowered. rewrite lower_char_idempotent. apply Ascii.eqb_refl.
Qed.

Lemma lowered_lower (s : string) : string_all is_lowered s = true → Py.lower s = s.
Proof.
  induction s as [| c s IH]; [reflexivity |]. simpl.
  intros [Hc Hs]%andb_true_iff. rewrite IH by exact Hs.
  apply Ascii.eqb_eq in Hc. rewrite Hc. reflexivity.
Qed.

Lemma replace_from_delete_all (P : ascii → bool) (old s : string) (skip : nat) :
  string_all P s = true →
  string_all P (Py.replace_from old EmptyString skip s) = true.
Proof.
  revert skip. induction s as [| c s IH]; intros skip H; [reflexivity |].
  simpl in H. apply andb_true_iff in H as [Hc Hs].
  cbn [Py.replace_from]. destruct skip as [| k]; [| apply IH, Hs].
  destruct (String.prefix _ _); [apply IH, Hs |].
  simpl. rewrite Hc. apply IH, Hs.
Qed.

Lemma replace_from_delete_length (old s : string) (skip : nat) :
  String.length (Py.replace_from old EmptyString skip s) ≤ String.length s.
Proof.
  revert skip. induction s as [| c s IH]; intros skip; [reflexivity |].
  cbn [Py.replace_from]. destruct skip as [| k].
  - destruct (String.prefix _ _).
    + change (EmptyString +:+ ?x) with x. specialize (IH (String.length old - 1)).
      simpl. lia.
    + simpl. specialize (IH 0). lia.
  - specialize (IH k). simpl. lia.
Qed.

(** Nothing to replace, nothing changed. *)
Lemma replace_from_absent (old new s : string) :
  Py.contains old s = false → Py.replace_from old new 0 s = s.
Proof.
  induction s as [| c s IH]; [reflexivity |].
  cbn [Py.contains Py.replace_from]. intros [Hp Hs]%orb_false_iff.
  rewrite Hp, IH by exact Hs. reflexivity.
Qed.

(** The domain is lowercase and no longer than the lowercased netloc; when
    the lowercased netloc contains no [www.] it is the lowercased netloc. *)
Theorem extract_domain_lowercase (urlparse_netloc : string → option string)
    (u netloc : string) :
  urlparse_netloc u = Some netloc →
  let d := Validator.extract_domain urlparse_netloc u in
  Py.lower d = d ∧
  String.length d ≤ String.length (Py.lower netloc) ∧
  (Py.contains "www." (Py.lower netloc) = false → d = Py.lower netloc).
Proof.
  intros Hparse d. unfold d, Validator.extract_domain. rewrite Hparse.
  unfold Py.replace. split; [| split].
  - apply lowered_lower, replace_from_delete_all, lower_lowered.
  - apply replace_from_delete_length.
  - apply replace_from_absent.
Qed.

Lemma extract_domain_lowercase_witness :
  Validator.extract_domain Samples.urlparse_netloc "https://News.Example.ORG:8080/a" =
  "news.example.org:8080".
Proof.
  apply (extract_domain_lowercase Samples.urlparse_netloc
           "https://News.Example.ORG:8080/a" "News.Example.ORG:8080").
  - reflexivity.
  - vm_compute. reflexivity.
Defined.

(** ** Regular expressions of the claim extractor *)

Lemma match_prefix_Never (s : string) : Rx.match_prefix Rx.Never s = false.
Proof. induction s as [| c s IH]; [reflexivity | exact IH]. Qed.

Lemma match_prefix_nullable (r : Rx.regex) (s : string) :
  Rx.nullable r = true → Rx.match_prefix r s = true.
Proof. intros H. destruct s; cbn [Rx.match_prefix]; rewrite H; reflexivity. Qed.

(** A pattern that starts with a character class matches nowhere in a text
    without a character of the class. *)
Lemma search_first_class (p : ascii → bool) (r : Rx.regex) (s : string) :
  string_all (fun c => negb (p c)) s = true →
  Rx.search (Rx.Cat (Rx.Class p) r) s = false.
Proof.
  induction s as [| c s IH]; [reflexivity |].
  cbn [string_all]. intros [Hc Hs]%andb_true_iff. apply negb_true_iff in Hc.
  cbn [Rx.search Rx.match_prefix Rx.nullable Rx.deriv]. rewrite Hc, (IH Hs).
  cbn. rewrite match_prefix_Never. reflexivity.
Qed.

(** [\d+] is found exactly in the texts with a digit. *)
Lemma search_digits (s : string) :
  Rx.search ClaimExtractor.digits s = negb (string_all not_digit s).
Proof.
  induction s as [| c s IH]; [reflexivity |].
  cbn [string_all]. unfold ClaimExtractor.digits, Rx.plus, Rx.digit in *.
  cbn [Rx.search Rx.match_prefix Rx.nullable Rx.deriv]. rewrite IH.
  change (not_digit c) with (negb (Rx.is_digit c)). destruct (Rx.is_digit c); cbn.
  - rewrite match_prefix_nullable by reflexivity. reflexivity.
  - rewrite match_prefix_Never. reflexivity.
Qed.

Lemma lowered_not_upper (c : ascii) : is_lowered c = true → not_upper c = true.
Proof.
  destruct c as [[] [] [] [] [] [] [] []]; vm_compute; intros H;
    first [reflexivity | discriminate H].
Qed.

Lemma string_all_impl (P Q : ascii → bool) (s : string) :
  (∀ c, P c = true → Q c = true) → string_all P s = true → string_all Q s = true.
Proof.
  intros HPQ. induction s as [| c s IH]; [reflexivity |]. cbn [string_all].
  intros [Hc Hs]%andb_true_iff. rewrite (HPQ c Hc), (IH Hs). reflexivity.
Qed.

Lemma lower_not_digit (s : string) :
  string_all not_digit (Py.lower s) = string_all not_digit s.
Proof.
  induction s as [| c s IH]; [reflexivity |]. cbn [Py.lower string_all].
  rewrite IH. f_equal.
  destruct c as [[] [] [] [] [] [] [] []]; vm_compute; reflexivity.
Qed.

Lemma lower_length (s : string) : String.length (Py.lower s) = String.length s.
Proof. induction s as [| c s IH]; [reflexivity | simpl; rewrite IH; reflexivity]. Qed.

Lemma lower_idempotent (s : string) : Py.lower (Py.lower s) = Py.lower s.
Proof. apply lowered_lower, lower_lowered. Qed.

(** The proper-noun pattern finds nothing in a lowercased sentence. *)
Lemma proper_nouns_lower (s : string) :
  Rx.search ClaimExtractor.proper_nouns (Py.lower s) = false.
Proof.
  apply search_first_class.
  eapply string_all_impl; [| apply lower_lowered]. exact lowered_not_upper.
Qed.

(** [_analyze_claim] lowercases the sentence before it assesses it, so the
    proper-noun pattern [[A-Z][a-z]+ [A-Z][a-z]+] never matches there: a
    claim is verifiable exactly when its lowercased sentence matches one of
    the eight verifiable patterns, whatever names it mentions. *)
Theorem analyze_claim_verifiable (sentence : string) :
  Rx.search ClaimExtractor.proper_nouns (Py.lower sentence) = false ∧
  verifiable (ClaimExtractor._analyze_claim sentence) =
    existsb (fun pattern => Rx.search pattern (Py.lower sentence))
            ClaimExtractor.verifiable_patterns.
Proof.
  split; [apply proper_nouns_lower |].
  unfold ClaimExtractor._analyze_claim. cbn [verifiable].
  unfold ClaimExtractor._assess_verifiability, Rx.search_ignorecase.
  rewrite lower_idempotent, proper_nouns_lower.
  destruct (existsb _ ClaimExtractor.verifiable_patterns); [reflexivity |].
  destruct (ClaimExtractor.mentions _ _); reflexivity.
Qed.

Example assess_verifiability_proper_nouns :
  ClaimExtractor._assess_verifiability "Then Jane Doe left the council" = true ∧
  verifiable (ClaimExtractor._analyze_claim "Then Jane Doe left the council") = false.
Proof. vm_compute. auto. Qed.

(** For a sentence of ASCII characters [_contains_factual_claim] does not
    depend on the case of the letters. *)
Theorem contains_factual_claim_lower (sentence : string) :
  string_all is_ascii sentence = true →
  ClaimExtractor._contains_factual_claim (Py.lower sentence) =
  ClaimExtractor._contains_factual_claim sentence.
Proof.
  intros _. unfold ClaimExtractor._contains_factual_claim.
  rewrite lower_idempotent, !search_digits, lower_not_digit, lower_length.
  reflexivity.
Qed.

Lemma contains_factual_claim_lower_witness :
  ClaimExtractor._contains_factual_claim
    (Py.lower "The Council HAS counted the ballots") =
  ClaimExtractor._contains_factual_claim "The Council HAS counted the ballots".
Proof.
  apply (contains_factual_claim_lower "The Council HAS counted the ballots").
  vm_compute. reflexivity.
Defined.

Example contains_factual_claim_case :
  ClaimExtractor._contains_factual_claim "The Council HAS counted the ballots" = true ∧
  ClaimExtractor._contains_factual_claim "The council counts the ballots" = false.
Proof. vm_compute. auto. Qed.
(** ** Sentences *)

Lemma string_all_app (P : ascii → bool) (a b : string) :
  string_all P (a +:+ b) = string_all P a && string_all P b.
Proof.
  induction a as [| c a IH]; [reflexivity |].
  change (String c a +:+ b) with (String c (a +:+ b)). cbn [string_all].
  rewrite IH, andb_assoc. reflexivity.
Qed.

Lemma split_terminators_go_all (in_run : bool) (cur s : string) :
  string_all not_terminator cur = true →
  Forall (fun piece => string_all not_terminator piece = true)
         (ClaimExtractor.split_terminators_go in_run cur s).
Proof.
  revert in_run cur. induction s as [| c s IH]; intros in_run cur Hcur.
  - repeat constructor. exact Hcur.
  - cbn [ClaimExtractor.split_terminators_go].
    destruct (ClaimExtractor.is_terminator c) eqn:Hc.
    + destruct in_run; [| constructor; [exact Hcur |]]; apply IH; reflexivity.
    + apply IH. rewrite string_all_app, Hcur. cbn [string_all].
      unfold not_terminator. rewrite Hc. reflexivity.
Qed.

Lemma split_into_sentences_facts (text sentence : string) :
  sentence ∈ ClaimExtractor._split_into_sentences text →
  20 < String.length sentence ∧
  string_all not_terminator sentence = true ∧
  Py.strip sentence = sentence ∧
  Py.startswith sentence "http" = false ∧
  Py.startswith sentence "www" = false.
Proof.
  unfold ClaimExtractor._split_into_sentences.
  intros Hin%list_elem_of_In. apply filter_In in Hin as [Hin Hkeep].
  apply list_elem_of_In, list_elem_of_fmap in Hin as (piece & -> & Hpiece).
  apply andb_true_iff in Hkeep as [Hlen Hstart].
  apply Nat.ltb_lt in Hlen. apply negb_true_iff, orb_false_iff in Hstart.
  split; [exact Hlen |]. split; [| split; [apply strip_idempotent | exact Hstart]].
  unfold Py.strip. apply rstrip_all, lstrip_all.
  pose proof (split_terminators_go_all false EmptyString text eq_refl) as Hall.
  rewrite Forall_forall in Hall. apply Hall, Hpiece.
Qed.

(** Every sentence [_split_into_sentences] returns is longer than twenty
    characters, contains none of the terminators [.], [!] and [?], has no
    white space at either end and starts neither with [http] nor with
    [www]. *)
Theorem split_into_sentences_spec (text sentence : string) :
  sentence ∈ ClaimExtractor._split_into_sentences text →
  20 < String.length sentence ∧
  string_all not_terminator sentence = true ∧
  Py.strip sentence = sentence ∧
  Py.startswith sentence "http" = false ∧
  Py.startswith sentence "www" = false.
Proof. apply split_into_sentences_facts. Qed.

Lemma split_into_sentences_spec_witness :
  20 < String.length "The mayor believes the weather was to blame".
Proof.
  apply (split_into_sentences_spec Samples.report
           "The mayor believes the weather was to blame").
  vm_compute. do 2 right. left.
Defined.

(** ** The context of a claim *)

Lemma length_string_app (a b : string) :
  String.length (a +:+ b) = String.length a + String.length b.
Proof.
  induction a as [| c a IH]; [reflexivity |].
  change (String c a +:+ b) with (String c (a +:+ b)). simpl. rewrite IH. reflexivity.
Qed.

Lemma length_substring_0 (n : nat) (s : string) :
  String.length (String.substring 0 n s) = Nat.min n (String.length s).
Proof.
  revert s. induction n as [| n IH]; intros [| c s]; simpl; auto.
Qed.

Lemma lstrip_length (s : string) : String.length (Py.lstrip s) ≤ String.length s.
Proof.
  induction s as [| c s IH]; [reflexivity |]. cbn [Py.lstrip].
  destruct (Py.is_space c); simpl in *; lia.
Qed.

Lemma rstrip_length (s : string) : String.length (Py.rstrip s) ≤ String.length s.
Proof.
  induction s as [| c s IH]; [reflexivity |]. rewrite rstrip_cons.
  destruct (Py.rstrip s); [destruct (Py.is_space c) |]; simpl in *; lia.
Qed.

Lemma strip_length (s : string) : String.length (Py.strip s) ≤ String.length s.
Proof.
  unfold Py.strip. pose proof (rstrip_length (Py.lstrip s)).
  pose proof (lstrip_length s). lia.
Qed.

Lemma length_substring_le (n m : nat) (s : string) :
  String.length (String.substring n m s) ≤ String.length s.
Proof.
  revert n m. induction s as [| c s IH]; intros [| n] [| m]; simpl; try lia.
  - specialize (IH 0 m). lia.
  - specialize (IH n 0). lia.
  - specialize (IH n (S m)). lia.
Qed.

Lemma drop_context_prefix_length (context : string) :
  String.length (ClaimExtractor.drop_context_prefix context) ≤ String.length context.
Proof.
  unfold ClaimExtractor.drop_context_prefix. destruct (find _ _); [| lia].
  etransitivity; [apply lstrip_length | apply length_substring_le].
Qed.

(** The context of a claim is never longer than the sentence nor than 200
    characters; a context cut to length ends with three dots. *)
Theorem extract_claim_context_length (sentence : string) :
  let context := ClaimExtractor._extract_claim_context sentence in
  String.length context ≤ 200 ∧
  String.length context ≤ String.length sentence ∧
  (200 < String.length (ClaimExtractor.drop_context_prefix (Py.strip sentence)) →
   String.length context = 200 ∧
   context = String.substring 0 197 context +:+ "...").
Proof.
  intros context. unfold context, ClaimExtractor._extract_claim_context.
  pose proof (drop_context_prefix_length (Py.strip sentence)) as Hdrop.
  pose proof (strip_length sentence) as Hstrip.
  set (ctx := ClaimExtractor.drop_context_prefix (Py.strip sentence)) in *.
  destruct (200 <? String.length ctx) eqn:Hlen.
  - apply Nat.ltb_lt in Hlen.
    assert (Hcut : String.length (String.substring 0 197 ctx) = 197).
    { rewrite length_substring_0. lia. }
    rewrite length_string_app, Hcut. change (String.length "...") with 3.
    split; [lia |]. split; [lia |]. intros _. split; [lia |].
    f_equal. clear -Hcut. revert Hcut. generalize (String.substring 0 197 ctx).
    generalize 197. intros n s. revert n.
    induction s as [| c s IH]; intros [| n] H; simpl in H; try discriminate.
    + reflexivity.
    + change (String c s +:+ "...") with (String c (s +:+ "...")).
      simpl. f_equal. apply IH. lia.
  - apply Nat.ltb_ge in Hlen. split; [lia |]. split; [lia |]. intros H. lia.
Qed.

Lemma extract_claim_context_length_witness :
  String.length (ClaimExtractor._extract_claim_context
                   ("But,  " +:+ Py.repeat "abcdefghij" 21)) = 200.
Proof.
  apply (extract_claim_context_length ("But,  " +:+ Py.repeat "abcdefghij" 21)).
  vm_compute. lia.
Defined.
(** ** Ranking and selection of the heuristic claims *)

Lemma restates_sym (c1 c2 : Claim) : restates c1 c2 = restates c2 c1.
Proof.
  unfold restates, ClaimExtractor._claims_similar.
  rewrite !jaccard_simplify_plain, jaccard_index_sym. reflexivity.
Qed.

(** A sentence of [_split_into_sentences] is the text of its claim, so the
    length filter of [extract_claims] lets every claim through. *)
Lemma analyze_claim_sentence (text sentence : string) :
  sentence ∈ ClaimExtractor._split_into_sentences text →
  claim (ClaimExtractor._analyze_claim sentence) = sentence ∧
  (20 <? String.length (Py.strip (claim (ClaimExtractor._analyze_claim sentence)))) = true.
Proof.
  intros (Hlen & _ & Hstrip & _)%split_into_sentences_facts.
  cbn [ClaimExtractor._analyze_claim claim]. rewrite !Hstrip.
  split; [reflexivity | apply Nat.ltb_lt, Hlen].
Qed.

Lemma rank_claims_facts (claims : list Claim) :
  ClaimExtractor._rank_claims claims ≡ₚ claims ∧
  StronglySorted
    (fun c1 c2 => (ClaimExtractor.claim_score c2 <= ClaimExtractor.claim_score c1)%Q)
    (ClaimExtractor._rank_claims claims).
Proof.
  split; [apply sorted_reverse_perm |].
  eapply StronglySorted_weaken;
    [| apply (sorted_reverse_sorted ClaimExtractor.claim_score Qlt_bool
                Qlt_bool_asym Qlt_bool_negtrans)].
  intros x y H. apply Qlt_bool_false, H.
Qed.

(** [_rank_claims] reorders the claims by decreasing score; claims of equal
    score keep their order. *)
Theorem rank_claims_spec (claims : list Claim) :
  let ranked := ClaimExtractor._rank_claims claims in
  ranked ≡ₚ claims ∧
  StronglySorted
    (fun c1 c2 => (ClaimExtractor.claim_score c2 <= ClaimExtractor.claim_score c1)%Q)
    ranked ∧
  ∀ q, List.filter (fun c => Qeq_bool (ClaimExtractor.claim_score c) q) ranked =
       List.filter (fun c => Qeq_bool (ClaimExtractor.claim_score c) q) claims.
Proof.
  intros ranked. destruct (rank_claims_facts claims) as [Hperm Hsorted].
  split; [exact Hperm |]. split; [exact Hsorted |].
  intros q. apply sorted_reverse_stable. intros a b Ha%Qeq_bool_eq Hb%Qeq_bool_eq.
  unfold Qlt_bool. rewrite negb_false_iff. apply Qle_bool_iff. lra.
Qed.

(** Sums of floats: 0.4 + 0.2 exceeds 0.3 + 0.3, so the second claim is
    ranked first although the two sums are equal as decimals. *)
Example rank_claims_rounding :
  let bee := {| claim := "bee"; evidence_quality := STRONG; verifiable := false;
                context := None; confidence := Float.round 0.3 |} in
  let ay := {| claim := "ay"; evidence_quality := WEAK; verifiable := true;
               context := None; confidence := Float.round 0.4 |} in
  let cee := {| claim := "cee"; evidence_quality := NONE; verifiable := false;
                context := None; confidence := Float.round 0.5 |} in
  claim <$> ClaimExtractor._rank_claims [bee; ay; cee] = ["ay"; "bee"; "cee"] ∧
  (ClaimExtractor.claim_score bee < ClaimExtractor.claim_score ay)%Q.
Proof. vm_compute. auto. Qed.

Example float_round_samples :
  Float.round 0.1 = (3602879701896397 # 36028797018963968)%Q ∧
  Float.add (Float.round 0.1) (Float.round 0.2) =
    (1351079888211149 # 4503599627370496)%Q ∧
  Float.add (Float.round 0.3) (Float.round 0.3) = Float.round 0.6 ∧
  (Float.round 0.6 < Float.add (Float.round 0.4) (Float.round 0.2))%Q ∧
  Float.round 0.5 = (1 # 2)%Q.
Proof. vm_compute. auto. Qed.

(** [extract_claims] returns at most eight claims, by decreasing score.
    Each is the assessment of a sentence of the text (the title line
    included) that contains a factual claim, and carries that sentence as
    its text; no two of them are similar. *)
Theorem extract_claims_spec (content : string) (title : option string) :
  let claims := ClaimExtractor.extract_claims content title in
  let sentences := ClaimExtractor._split_into_sentences (full_text content title) in
  claims =
    take 8 (ClaimExtractor._rank_claims
              (ClaimExtractor._deduplicate_claims
                 (ClaimExtractor._analyze_claim <$>
                    List.filter ClaimExtractor._contains_factual_claim sentences))) ∧
  length claims ≤ 8 ∧
  Spec.no_collision restates claims ∧
  StronglySorted
    (fun c1 c2 => (ClaimExtractor.claim_score c2 <= ClaimExtractor.claim_score c1)%Q)
    claims ∧
  ∀ c, c ∈ claims →
    ∃ sentence, sentence ∈ sentences ∧
      ClaimExtractor._contains_factual_claim sentence = true ∧
      c = ClaimExtractor._analyze_claim sentence ∧ claim c = sentence.
Proof.
  intros claims sentences.
  set (factual := List.filter ClaimExtractor._contains_factual_claim sentences).
  assert (Hfactual : ∀ s, s ∈ factual →
            s ∈ sentences ∧ ClaimExtractor._contains_factual_claim s = true).
  { intros s Hs%list_elem_of_In. apply filter_In in Hs as [Hs Hf].
    split; [apply list_elem_of_In, Hs | exact Hf]. }
  assert (Hrun : claims =
            take 8 (ClaimExtractor._rank_claims
                      (ClaimExtractor._deduplicate_claims
                         (ClaimExtractor._analyze_claim <$> factual)))).
  { unfold claims, ClaimExtractor.extract_claims. fold (full_text content title).
    fold sentences. fold factual. rewrite filter_all; [reflexivity |].
    apply Forall_forall. intros c (s & -> & Hs)%list_elem_of_fmap.
    eapply analyze_claim_sentence, Hfactual, Hs. }
  destruct (rank_claims_facts
              (ClaimExtractor._deduplicate_claims
                 (ClaimExtractor._analyze_claim <$> factual))) as (Hperm & Hsorted).
  split; [exact Hrun |]. rewrite Hrun.
  split; [rewrite length_take; lia |].
  split; [| split; [apply StronglySorted_take, Hsorted |]].
  - apply no_collision_take. eapply (no_collision_perm _ restates_sym);
      [symmetry; exact Hperm |].
    rewrite deduplicate_claims_first_seen. apply keep_first_seen_no_collision. exact I.
  - intros c Hc. eapply elem_of_sublist in Hc; [| apply sublist_take].
    rewrite Hperm in Hc. rewrite deduplicate_claims_first_seen in Hc.
    destruct (keep_first_seen_sublist
                (fun c1 c2 => ClaimExtractor._claims_similar
                                (ClaimExtractor.simplify (claim c1))
                                (ClaimExtractor.simplify (claim c2)))
                (ClaimExtractor._analyze_claim <$> factual) [])
      as (l' & Heq & Hsub).
    rewrite Heq in Hc. simpl in Hc. eapply elem_of_sublist in Hc; [| exact Hsub].
    apply list_elem_of_fmap in Hc as (s & -> & Hs). exists s.
    destruct (Hfactual s Hs) as [Hin Hf].
    split; [exact Hin |]. split; [exact Hf |]. split; [reflexivity |].
    eapply analyze_claim_sentence, Hin.
Qed.

Example extract_claims_sample :
  claim <$> ClaimExtractor.extract_claims Samples.report None =
  ["However, according to officials 45% of voters stayed at home during the vote";
   "Allegedly the county has counted 1200 ballots twice in March"].
Proof. vm_compute. reflexivity. Qed.
(** ** Statistics of the claims *)

Lemma count_if_le {A : Type} (p : A → bool) (l : list A) :
  ClaimExtractor.count_if p l ≤ length l.
Proof.
  unfold ClaimExtractor.count_if. induction l as [| x l IH]; simpl; [lia |].
  destruct (p x); simpl; lia.
Qed.

Lemma sum_confidence_bounds (claims : list Claim) (acc : Q) :
  Forall (fun c => (0 <= confidence c <= 1)%Q) claims →
  (acc <= fold_left (fun acc c => acc + confidence c) claims acc
       <= acc + inject_Z (Z.of_nat (length claims)))%Q.
Proof.
  intros Hall. revert acc. induction Hall as [| c l Hc _ IH]; intros acc.
  - cbn [fold_left length]. change (inject_Z (Z.of_nat 0)) with 0%Q. lra.
  - cbn [fold_left length]. specialize (IH (acc + confidence c)%Q).
    rewrite Nat2Z.inj_succ, <- Z.add_1_r, inject_Z_plus.
    change (inject_Z 1) with 1%Q. lra.
Qed.

(** In the statistics of [analyze_claim_patterns] the four evidence counts
    add up to the number of claims and no count exceeds it; without claims
    the average confidence is 0, and when every confidence lies between 0
    and 1 so does the average. *)
Theorem analyze_claim_patterns_counts (claims : list Claim) :
  let analysis := ClaimExtractor.analyze_claim_patterns claims in
  ClaimExtractor.total_claims analysis = length claims ∧
  ClaimExtractor.evidence_strong analysis + ClaimExtractor.evidence_moderate analysis +
  ClaimExtractor.evidence_weak analysis + ClaimExtractor.evidence_none analysis =
    ClaimExtractor.total_claims analysis ∧
  ClaimExtractor.verifiable_claims analysis ≤ ClaimExtractor.total_claims analysis ∧
  ClaimExtractor.statistical_claims analysis ≤ ClaimExtractor.total_claims analysis ∧
  ClaimExtractor.high_confidence_claims analysis ≤ ClaimExtractor.total_claims analysis ∧
  (claims = [] → ClaimExtractor.average_confidence analysis = 0%Q) ∧
  (Forall (fun c => (0 <= confidence c <= 1)%Q) claims →
   (0 <= ClaimExtractor.average_confidence analysis <= 1)%Q).
Proof.
  intros analysis. unfold analysis, ClaimExtractor.analyze_claim_patterns.
  cbn [ClaimExtractor.total_claims ClaimExtractor.evidence_strong
       ClaimExtractor.evidence_moderate ClaimExtractor.evidence_weak
       ClaimExtractor.evidence_none ClaimExtractor.verifiable_claims
       ClaimExtractor.statistical_claims ClaimExtractor.high_confidence_claims
       ClaimExtractor.average_confidence].
  split; [reflexivity |]. split.
  { unfold ClaimExtractor.count_if. induction claims as [| c l IH]; [reflexivity |].
    unfold ClaimExtractor.is_quality in *. cbn [List.filter length].
    destruct (evidence_quality c); cbn [length]; lia. }
  do 3 (split; [apply count_if_le |]).
  split; [intros ->; reflexivity |].
  intros Hall. destruct claims as [| c l]; [split; discriminate |].
  pose proof (sum_confidence_bounds (c :: l) 0 Hall) as [Hlo Hhi].
  set (n := inject_Z (Z.of_nat (length (c :: l)))) in *.
  assert (Hn : (0 < n)%Q).
  { unfold n. change 0%Q with (inject_Z 0). rewrite <- Zlt_Qlt. simpl. lia. }
  split; [apply Qle_shift_div_l | apply Qle_shift_div_r]; first [exact Hn | lra].
Qed.

Lemma analyze_claim_patterns_counts_witness :
  (0 <= ClaimExtractor.average_confidence
          (ClaimExtractor.analyze_claim_patterns
             (ClaimExtractor.extract_claims Samples.report None)) <= 1)%Q.
Proof.
  apply (analyze_claim_patterns_counts
           (ClaimExtractor.extract_claims Samples.report None)).
  vm_compute. repeat (constructor; [vm_compute; split; discriminate |]). constructor.
Defined.

(** ** Previews *)

Lemma content_preview_length (content : string) :
  String.length (Scraper.content_preview content) ≤ 503 ∧
  (String.length content ≤ 500 → Scraper.content_preview content = content).
Proof.
  unfold Scraper.content_preview. destruct (Nat.ltb_spec 500 (String.length content)).
  - rewrite length_string_app, length_substring_0. change (String.length "...") with 3.
    split; lia.
  - split; [lia | reflexivity].
Qed.

Section PreviewFacts.

Variable langdetect_detect : string → option string.
Variable validators_url : string → bool.
Variable urlparse_netloc : string → option string.
Variable extractors : list (string * Extractor.strategy).
Variable extract_article_metadata : string → raised Scraper.Metadata.

Local Abbreviation scrape_article :=
  (Scraper.scrape_article langdetect_detect validators_url urlparse_netloc
     extractors extract_article_metadata).
Local Abbreviation get_extraction_preview :=
  (Scraper.get_extraction_preview langdetect_detect validators_url urlparse_netloc
     extractors extract_article_metadata).
Local Abbreviation quick_preview :=
  (Orchestrator.quick_preview langdetect_detect validators_url urlparse_netloc
     extractors extract_article_metadata).

Lemma quality_issues_none (article : ArticleContent) :
  Scraper.quality_issues article = [] ↔
  (0.5 <= quality_score article)%Q ∧ 1000 ≤ String.length (content article) ∧
  Scraper.truthy_opt (title article) = true ∧
  Scraper.truthy_opt (author article) = true.
Proof.
  unfold Scraper.quality_issues.
  destruct (Qlt_bool (quality_score article) 0.5) eqn:Hq;
    [apply Qlt_bool_true in Hq | apply Qlt_bool_false in Hq];
  (destruct (Nat.ltb_spec (String.length (content article)) 1000));
  destruct (Scraper.truthy_opt (title article));
  destruct (Scraper.truthy_opt (author article)); cbn;
  split; try discriminate; try (intros (? & ? & ? & ?); first [lra | lia | discriminate]);
  intros _; repeat split; assumption.
Qed.

(** [get_extraction_preview] never raises.  When scraping raises, the
    preview keeps its initial entries and its only issue is the failure
    with the text of the exception.  When scraping returns an article, the
    preview reports the article's length, shows at most 503 characters of
    it (all of it up to 500), and lists no issue exactly when the quality
    is at least 0.5, the content has at least 1000 characters and title
    and author are present. *)
Theorem get_extraction_preview_spec (u : string) (st : Extractor.state) :
  (∃ preview st', get_extraction_preview u st = (Return preview, st') ∧
                  Scraper.pv_url preview = u) ∧
  (∀ e st', scrape_article u st = (Raise e, st') →
     get_extraction_preview u st =
       (Return {| Scraper.pv_url := u;
                  Scraper.pv_title := None;
                  Scraper.pv_content_preview := None;
                  Scraper.pv_estimated_length := 0;
                  Scraper.pv_extraction_method := None;
                  Scraper.pv_quality_score := 0;
                  Scraper.pv_details := None;
                  Scraper.pv_issues := ["Extraction failed: " +:+ exn_str e] |}, st')) ∧
  (∀ article st', scrape_article u st = (Return article, st') →
     ∃ preview shown,
       get_extraction_preview u st = (Return preview, st') ∧
       Scraper.pv_estimated_length preview = String.length (content article) ∧
       Scraper.pv_content_preview preview = Some shown ∧
       String.length shown ≤ 503 ∧
       (String.length (content article) ≤ 500 → shown = content article) ∧
       (Scraper.pv_issues preview = [] ↔
        (0.5 <= quality_score article)%Q ∧ 1000 ≤ String.length (content article) ∧
        Scraper.truthy_opt (title article) = true ∧
        Scraper.truthy_opt (author article) = true)).
Proof.
  unfold Scraper.get_extraction_preview.
  destruct (scrape_article u st) as [[article | e] st1].
  - split; [eauto |]. split; [discriminate |].
    intros article' st' [= <- <-]. eexists _, _. split; [reflexivity |].
    cbn [Scraper.pv_estimated_length Scraper.pv_content_preview Scraper.pv_issues].
    split; [reflexivity |]. split; [reflexivity |].
    split; [apply content_preview_length |].
    split; [apply content_preview_length | apply quality_issues_none].
  - split; [eauto |]. split; [| discriminate].
    intros e' st' [= <- <-]. reflexivity.
Qed.

(** [quick_preview] always returns the scraper's preview: the dictionary of
    its [except] branch, with [accessible] false, is never returned. *)
Theorem quick_preview_returns_preview (u : string) (st : Extractor.state) :
  ∃ preview st',
    quick_preview u st = (Orchestrator.PreviewOf preview, st') ∧
    get_extraction_preview u st = (Return preview, st').
Proof.
  unfold Orchestrator.quick_preview, Scraper.get_extraction_preview.
  destruct (scrape_article u st) as [[article | e] st1]; eauto.
Qed.

End PreviewFacts.

Example get_extraction_preview_invalid_url :
  fst (Scraper.get_extraction_preview Samples.detect_en (fun _ => false)
         Samples.urlparse_netloc Samples.chain Samples.no_metadata "ftp:/x" None) =
  Return {| Scraper.pv_url := "ftp:/x";
            Scraper.pv_title := None;
            Scraper.pv_content_preview := None;
            Scraper.pv_estimated_length := 0;
            Scraper.pv_extraction_method := None;
            Scraper.pv_quality_score := 0;
            Scraper.pv_details := None;
            Scraper.pv_issues := ["Extraction failed: Invalid URL: ftp:/x"] |}.
Proof. vm_compute. reflexivity. Qed.
Lemma merge_claims_distinct_witness :
  (Spec.jaccard_index (Spec.word_set (claim Samples.claim_base))
                      (Spec.word_set "Turnout was low") <= 0.6)%Q.
Proof.
  destruct (merge_claims_distinct [Samples.claim_base]
              [Samples.ai_claim "Turnout was low" 0.4]) as (_ & _ & Hpair).
  apply (Hpair 0 1 Samples.claim_base (Samples.ai_claim "Turnout was low" 0.4)).
  - lia.
  - vm_compute. reflexivity.
  - vm_compute. reflexivity.
Defined.

Lemma merge_red_flags_distinct_witness :
  Forall (fun f => f ∈ Samples.numbered_flags "heuristic" HIGH 0.8 2 ++
                       Samples.numbered_flags "heuristic" LOW 0.6 3)
         (Orchestrator._merge_red_flags
            (Samples.numbered_flags "heuristic" HIGH 0.8 2)
            (Samples.numbered_flags "heuristic" LOW 0.6 3)).
Proof.
  apply Forall_forall.
  exact (proj2 (merge_red_flags_distinct
                  (Samples.numbered_flags "heuristic" HIGH 0.8 2)
                  (Samples.numbered_flags "heuristic" LOW 0.6 3))).
Defined.

Lemma extract_claims_spec_witness :
  ∃ sentence,
    sentence ∈ ClaimExtractor._split_into_sentences Samples.report ∧
    ClaimExtractor._contains_factual_claim sentence = true ∧
    ClaimExtractor._analyze_claim
      "Allegedly the county has counted 1200 ballots twice in March" =
    ClaimExtractor._analyze_claim sentence ∧
    claim (ClaimExtractor._analyze_claim
             "Allegedly the county has counted 1200 ballots twice in March") = sentence.
Proof.
  destruct (extract_claims_spec Samples.report None) as (_ & _ & _ & _ & Hin).
  apply (Hin (ClaimExtractor._analyze_claim
                "Allegedly the county has counted 1200 ballots twice in March")).
  vm_compute. right. left.
Defined.

Lemma get_extraction_preview_spec_witness :
  ∃ preview,
    fst (Scraper.get_extraction_preview Samples.detect_en (fun _ => false)
           Samples.urlparse_netloc Samples.chain Samples.no_metadata "ftp:/x" None) =
      Return preview ∧
    Scraper.pv_issues preview = ["Extraction failed: Invalid URL: ftp:/x"].
Proof.
  destruct (get_extraction_preview_spec Samples.detect_en (fun _ => false)
              Samples.urlparse_netloc Samples.chain Samples.no_metadata "ftp:/x" None)
    as (_ & Hraise & _).
  rewrite (Hraise (ValueError "Invalid URL: ftp:/x") None).
  - eexists. split; reflexivity.
  - vm_compute. reflexivity.
Defined.
